(** * T4 GPU rental index: calculator, publish gate and oracle encoding

    A shallow embedding of the algorithmic core of the t4-bot repository:

    - [calculate_t4_index.py]  : provider-name normalisation, price loading,
      the weighted index calculation and its report;
    - [push_t4_to_supabase.py] : the +-20% publish gate in front of the
      durable store;
    - [push_to_contract.py]    : the 18-decimal fixed-point encoding used by
      the on-chain oracle.

    Python [float]s are kept abstract behind the class [Number].  Every
    function of the source is translated once, over an arbitrary [Number],
    and then read in two ways: with IEEE-754 binary64 ([PrimFloat]), which
    is what CPython computes, and with exact rationals ([Q]), which is the
    algebra the figures are meant to follow.  Where rounding changes the
    answer, what is said of the running code is proved for every [Number]
    or for binary64 itself; the statements over [Q] give the exact
    reading.  Python [str] is modelled by [string]; [lower] acts on the ASCII
    letters only.  A Python [dict] is an association list in insertion
    order. *)

From Stdlib Require Floats.
From Stdlib Require Import List String Ascii Bool ZArith QArith Qround Lia Lqa.
Import ListNotations.

Local Open Scope string_scope.

(** ** Exceptions and results *)

Inductive exn : Type :=
| ValueError
| TypeError
| ZeroDivisionError
| OverflowError.

Inductive result (A : Type) : Type :=
| Ok (a : A)
| Raise (e : exn).

Arguments Ok {A} a.
Arguments Raise {A} e.

Definition bind {A B : Type} (r : result A) (k : A -> result B) : result B :=
  match r with
  | Ok a => k a
  | Raise e => Raise e
  end.

Notation "x <- r ;; k" := (bind r (fun x => k))
  (at level 61, r at next level, right associativity).

(** ** Strings *)

Definition is_upper (c : ascii) : bool :=
  let n := nat_of_ascii c in (65 <=? n)%nat && (n <=? 90)%nat.

Definition is_lower (c : ascii) : bool :=
  let n := nat_of_ascii c in (97 <=? n)%nat && (n <=? 122)%nat.

Definition is_digit (c : ascii) : bool :=
  let n := nat_of_ascii c in (48 <=? n)%nat && (n <=? 57)%nat.

Definition lower_char (c : ascii) : ascii :=
  if is_upper c then ascii_of_nat (nat_of_ascii c + 32) else c.

Definition upper_char (c : ascii) : ascii :=
  if is_lower c then ascii_of_nat (nat_of_ascii c - 32) else c.

(** [str.lower()] *)
Fixpoint lower (s : string) : string :=
  match s with
  | EmptyString => EmptyString
  | String c r => String (lower_char c) (lower r)
  end.

(** [needle in hay] *)
Fixpoint contains (needle hay : string) : bool :=
  String.prefix needle hay
  || match hay with
     | EmptyString => false
     | String _ r => contains needle r
     end.

(** [s.replace(old, new)] for a non-empty [old]: left to right,
    non-overlapping. *)
Fixpoint drop (n : nat) (s : string) : string :=
  match n, s with
  | O, _ => s
  | S n', String _ r => drop n' r
  | S _, EmptyString => EmptyString
  end.

Fixpoint replace_fuel (fuel : nat) (old new s : string) : string :=
  match fuel with
  | O => s
  | S fuel' =>
      match s with
      | EmptyString => EmptyString
      | String c r =>
          if String.prefix old s
          then new ++ replace_fuel fuel' old new (drop (String.length old) s)
          else String c (replace_fuel fuel' old new r)
      end
  end.

Definition replace (old new s : string) : string :=
  replace_fuel (S (String.length s)) old new s.

(** [s.title()]: a letter that follows a letter is lowered, any other letter
    is raised. *)
Fixpoint title_from (after_letter : bool) (s : string) : string :=
  match s with
  | EmptyString => EmptyString
  | String c r =>
      let letter := is_upper c || is_lower c in
      String (if after_letter then lower_char c else upper_char c)
             (title_from letter r)
  end.

Definition title (s : string) : string := title_from false s.

(** ** Dictionaries in insertion order *)

Definition dict (V : Type) : Type := list (string * V).

Fixpoint dict_get {V : Type} (k : string) (d : dict V) : option V :=
  match d with
  | [] => None
  | (k', v) :: r => if String.eqb k k' then Some v else dict_get k r
  end.

(** [d[k] = v]: an existing key keeps its place, a new one goes last. *)
Fixpoint dict_set {V : Type} (k : string) (v : V) (d : dict V) : dict V :=
  match d with
  | [] => [(k, v)]
  | (k', v') :: r =>
      if String.eqb k k' then (k, v) :: r else (k', v') :: dict_set k v r
  end.

Definition keys {V : Type} (d : dict V) : list string := map fst d.

(** ** Numbers

    [nlit n d] is the number the interpreter produces for the decimal
    literal, the parsed decimal string or the integer quotient [n / d]: the
    value itself in exact arithmetic, the nearest binary64 value in floating
    point. *)

Class Number (A : Type) : Type := {
  nlit    : Z -> positive -> A;
  nadd    : A -> A -> A;
  nsub    : A -> A -> A;
  nmul    : A -> A -> A;
  ndiv    : A -> A -> A;
  nltb    : A -> A -> bool;
  nleb    : A -> A -> bool;
  niszero : A -> bool;
  (** [int(x)] *)
  ntrunc  : A -> result Z;
  (** [round(x, ndigits)] *)
  nround  : A -> nat -> A
}.

Declare Scope num_scope.
Delimit Scope num_scope with num.
Infix "+" := nadd : num_scope.
Infix "-" := nsub : num_scope.
Infix "*" := nmul : num_scope.
Infix "<?" := nltb : num_scope.
Infix "<=?" := nleb : num_scope.

(** Nearest integer to [a / b], ties to the even one. *)
Definition round_half_even (a : Z) (b : positive) : Z :=
  let q := (a / Zpos b)%Z in
  let r := (a mod Zpos b)%Z in
  match (2 * r ?= Zpos b)%Z with
  | Lt => q
  | Gt => (q + 1)%Z
  | Eq => if Z.even q then q else (q + 1)%Z
  end.

Definition pow10 (n : nat) : positive := Pos.pow 10 (Pos.of_nat n).

Definition pow10' (n : nat) : positive :=
  match n with
  | O => 1%positive
  | S _ => pow10 n
  end.

(** *** Exact rationals *)

Definition Q_ltb (x y : Q) : bool := negb (Qle_bool y x).

Definition Q_trunc (x : Q) : Z := Z.quot (Qnum x) (Zpos (Qden x)).

Definition Q_round (x : Q) (ndigits : nat) : Q :=
  let p := pow10' ndigits in
  round_half_even (Qnum x * Zpos p) (Qden x) # p.

#[export] Instance Q_Number : Number Q := {
  nlit n d := n # d;
  nadd := Qplus;
  nsub := Qminus;
  nmul := Qmult;
  ndiv := Qdiv;
  nltb := Q_ltb;
  nleb := Qle_bool;
  niszero x := Qeq_bool x 0;
  ntrunc x := Ok (Q_trunc x);
  nround := Q_round
}.

(** *** IEEE-754 binary64 *)

Module B64.
Import Floats.

Definition float := PrimFloat.float.

(** Correctly rounded quotient of two integers. *)
Definition lit (n : Z) (d : positive) : float :=
  match n with
  | Z0 => PrimFloat.zero
  | Zpos m =>
      SF2Prim (SFdiv prec emax (S754_finite false m 0) (S754_finite false d 0))
  | Zneg m =>
      SF2Prim (SFdiv prec emax (S754_finite true m 0) (S754_finite false d 0))
  end.

Definition signed (s : bool) (z : Z) : Z := if s then Z.opp z else z.

(** [int(x)]: truncation towards zero; infinities and NaN raise. *)
Definition trunc (x : float) : result Z :=
  match Prim2SF x with
  | S754_zero _ => Ok 0%Z
  | S754_finite s m e =>
      Ok (signed s (match e with
                    | Zneg k => Z.shiftr (Zpos m) (Zpos k)
                    | _ => Z.shiftl (Zpos m) e
                    end))
  | S754_infinity _ => Raise OverflowError
  | S754_nan => Raise ValueError
  end.

(** [round(x, ndigits)]: the exact value of [x] is rounded half-even to
    [ndigits] decimals and the decimal is converted back. *)
Definition round (x : float) (ndigits : nat) : float :=
  match Prim2SF x with
  | S754_finite s m e =>
      let p := pow10' ndigits in
      let k := match e with
               | Zneg j => round_half_even (Zpos (m * p)) (Pos.shiftl 1 (Npos j))
               | _ => (Z.shiftl (Zpos m) e * Zpos p)%Z
               end in
      match k with
      | Z0 => if s then PrimFloat.neg_zero else PrimFloat.zero
      | _ => lit (signed s k) p
      end
  | _ => x
  end.

#[export] Instance B64_Number : Number float := {
  nlit := lit;
  nadd := PrimFloat.add;
  nsub := PrimFloat.sub;
  nmul := PrimFloat.mul;
  ndiv := PrimFloat.div;
  nltb := PrimFloat.ltb;
  nleb := PrimFloat.leb;
  niszero x := PrimFloat.eqb x PrimFloat.zero;
  ntrunc := trunc;
  nround := round
}.
End B64.
Export (hints) B64.


(** ** calculate_t4_index.py : configuration of [T4IndexCalculator] *)

Module Calc.

Definition hyperscalers : list string := ["AWS"; "Azure"; "GCP"].

Definition provider_aliases : list (string * string) :=
  [ ("Google Cloud", "GCP");
    ("Google", "GCP");
    ("Amazon Web Services", "AWS");
    ("Alibaba", "Alibaba Cloud");
    ("Tencent", "Tencent Cloud");
    ("Thunder", "Thunder Compute") ].

(** The loop of [normalize_provider_name] over an alias table. *)
Fixpoint normalize_in (aliases : list (string * string)) (name : string)
  : string :=
  match aliases with
  | [] => name
  | (alias, standard) :: rest =>
      if String.eqb (lower name) (lower alias) then standard
      else if contains (lower alias) (lower name) then standard
      else normalize_in rest name
  end.

Definition normalize_provider_name (name : string) : string :=
  normalize_in provider_aliases name.

(** [re.search(r'([0-9.]+)', s)]: the first maximal run of digits and
    dots. *)
Definition is_price_char (c : ascii) : bool :=
  is_digit c || Ascii.eqb c ".".

Fixpoint price_run (s : string) : string :=
  match s with
  | EmptyString => EmptyString
  | String c r => if is_price_char c then String c (price_run r) else EmptyString
  end.

Fixpoint re_search_price (s : string) : option string :=
  match s with
  | EmptyString => None
  | String c r =>
      if is_price_char c then Some (String c (price_run r))
      else re_search_price r
  end.

(** Decimal value of a run of digits; [None] on any other character. *)
Fixpoint digits_value (acc : Z) (s : string) : option Z :=
  match s with
  | EmptyString => Some acc
  | String c r =>
      if is_digit c
      then digits_value (10 * acc + Z.of_nat (nat_of_ascii c - 48)) r
      else None
  end.

Fixpoint split_dot (s : string) : string * option string :=
  match s with
  | EmptyString => (EmptyString, None)
  | String c r =>
      if Ascii.eqb c "." then (EmptyString, Some r)
      else let '(a, b) := split_dot r in (String c a, b)
  end.

Section Numeric.
Context {A : Type} `{Number A}.

Local Open Scope num_scope.

Definition int (n : Z) : A := nlit n 1.

(** [x / y] *)
Definition py_div (x y : A) : result A :=
  if niszero y then Raise ZeroDivisionError else Ok (ndiv x y).

Definition hyperscaler_discounts : dict A :=
  [ ("AWS", nlit 44 100); ("Azure", nlit 65 100); ("GCP", nlit 65 100) ].

Definition discounted_weight : A := nlit 80 100.
Definition full_price_weight : A := nlit 20 100.

Definition hyperscaler_total_weight : A := nlit 65 100.
Definition neocloud_total_weight : A := nlit 35 100.

Definition hyperscaler_weights : dict A :=
  [ ("AWS", nlit 45 100); ("Azure", nlit 30 100); ("GCP", nlit 25 100) ].

Definition neocloud_weights : dict A :=
  [ ("Alibaba Cloud", nlit 15 100);
    ("Tencent Cloud", nlit 15 100);
    ("Vast.ai", nlit 15 100);
    ("Paperspace", nlit 15 100);
    ("Replicate", nlit 10 100);
    ("Thunder Compute", nlit 10 100);
    ("Cerebrium", nlit 10 100);
    ("NeevCloud", nlit 10 100);
    ("default", nlit 5 100) ].

(** [d.get(k, default)] *)
Definition get_or {V : Type} (k : string) (d : dict V) (default : V) : V :=
  match dict_get k d with
  | Some v => v
  | None => default
  end.

(** *** [_parse_price] *)

(** [float(tok)] for a token of digits and dots: at most one dot and at
    least one digit, or [ValueError]. *)
Definition float_of_token (tok : string) : result A :=
  let '(ip, rest) := split_dot tok in
  let fp := match rest with Some f => f | None => EmptyString end in
  match digits_value 0 (ip ++ fp) with
  | Some m =>
      if (String.length (ip ++ fp) =? 0)%nat then Raise ValueError
      else Ok (nlit m (pow10' (String.length fp)))
  | None => Raise ValueError
  end.

Definition _parse_price (price_str : string) : result A :=
  match re_search_price price_str with
  | Some tok => float_of_token tok
  | None => Ok (nlit 0 1)
  end.

(** *** [load_prices]

    [combined_prices] holds the items of the ["prices"] object of
    t4_combined_prices.json, [None] when the file is missing, is not JSON
    or has no such object.  [individual_files] are the files matched by
    the glob, in the order the directory lists them; [content] is [None]
    when a file cannot be read as a JSON object. *)

Record price_json : Type := {
  provider : option string;
  prices_values : option (list string)
}.

Record price_file : Type := {
  stem : string;
  content : option price_json
}.

Definition name (f : price_file) : string := stem f ++ ".json".

Record workdir : Type := {
  combined_prices : option (list (string * string));
  individual_files : list price_file
}.

(** The body of the combined-file loop; a raised exception leaves the
    [try] block with the prices stored so far. *)
Fixpoint load_combined (items : list (string * string)) (prices : dict A)
  : dict A :=
  match items with
  | [] => prices
  | (prov, price_val) :: rest =>
      match _parse_price price_val with
      | Raise _ => prices
      | Ok price =>
          load_combined rest
            (if int 0 <? price
             then dict_set (normalize_provider_name prov) price prices
             else prices)
      end
  end.

(** The inner loop of [load_from_individual_files]: the first price above
    zero, else the last one parsed. *)
Fixpoint first_positive (vals : list string) (price : A) : result A :=
  match vals with
  | [] => Ok price
  | p_str :: rest =>
      price' <- _parse_price p_str ;;
      if int 0 <? price' then Ok price' else first_positive rest price'
  end.

Definition load_file (prices : dict A) (f : price_file) : dict A :=
  if contains "combined" (name f) || contains "getdeploying" (name f)
  then prices
  else
    match content f with
    | None => prices
    | Some data =>
        let prov :=
          normalize_provider_name
            (match provider data with
             | Some p => p
             | None => title (replace "_" " " (replace "_t4_prices" "" (stem f)))
             end) in
        let vals := match prices_values data with Some l => l | None => [] end in
        match first_positive vals (nlit 0 1) with
        | Raise _ => prices
        | Ok price =>
            if int 0 <? price then dict_set prov price prices else prices
        end
    end.

Definition load_from_individual_files (files : list price_file) : dict A :=
  fold_left load_file files [].

Definition load_prices (w : workdir) : dict A :=
  let prices :=
    match combined_prices w with
    | Some items => load_combined items []
    | None => []
    end in
  match prices with
  | [] => load_from_individual_files (individual_files w)
  | _ => prices
  end.

(** *** [calculate_index] *)

Record hs_entry : Type := {
  original : A;
  discounted : A;
  effective : A;
  weight : A;
  contribution : A
}.

Record nc_entry : Type := {
  price : A;
  raw_weight : A
}.

(** The dictionary dumped to t4_weighted_index.json. *)
Record report : Type := {
  timestamp : string;
  final_index_price : A;
  hyperscaler : A;
  neocloud : A;
  details_hyperscalers : dict hs_entry;
  details_neoclouds : dict nc_entry
}.

(** [if price:] on the result of [prices.get]. *)
Definition truthy (price : option A) : bool :=
  match price with
  | Some v => negb (niszero v)
  | None => false
  end.

(** The loose-matching loop: the first key that contains the name. *)
Fixpoint first_key_containing (norm_hs : string) (prices : dict A)
  : option A :=
  match prices with
  | [] => None
  | (k, v) :: rest =>
      if contains (lower norm_hs) (lower k) then Some v
      else first_key_containing norm_hs rest
  end.

Definition find_price (prices : dict A) (norm_hs : string) : option A :=
  let price := dict_get norm_hs prices in
  if truthy price then price
  else
    match first_key_containing norm_hs prices with
    | Some v => Some v
    | None => price
    end.

Definition discount_of (hs : string) : A :=
  get_or hs hyperscaler_discounts (nlit 30 100).

Definition effective_price (price discount : A) : A :=
  let disc_price := price * (int 1 - discount) in
  disc_price * discounted_weight + price * full_price_weight.

Definition hs_entry_of (hs : string) (price : A) : hs_entry :=
  let discount := discount_of hs in
  let disc_price := price * (int 1 - discount) in
  let effective_price := effective_price price discount in
  let weight := get_or hs hyperscaler_weights (nlit 0 1) in
  let contribution := effective_price * weight * hyperscaler_total_weight in
  {| original := price;
     discounted := disc_price;
     effective := effective_price;
     weight := weight;
     contribution := contribution |}.

(** State of the hyperscaler loop: [hs_weighted_sum], [hs_weight_used],
    [hyperscaler_data]. *)
Definition hs_state : Type := A * A * dict hs_entry.

Definition hs_step (prices : dict A) (st : hs_state) (hs : string)
  : hs_state :=
  let '(hs_weighted_sum, hs_weight_used, hyperscaler_data) := st in
  let norm_hs := normalize_provider_name hs in
  let price := find_price prices norm_hs in
  if truthy price then
    match price with
    | Some p =>
        let e := hs_entry_of hs p in
        (hs_weighted_sum + contribution e,
         hs_weight_used + weight e,
         dict_set hs e hyperscaler_data)
    | None => st
    end
  else st.

Definition hs_loop (prices : dict A) : hs_state :=
  fold_left (hs_step prices) hyperscalers (int 0, int 0, []).

(** "Normalize HS weights if missing" *)
Definition normalize_hs (hs_weighted_sum hs_weight_used : A) : result A :=
  if (int 0 <? hs_weight_used) && (hs_weight_used <? int 1)
  then factor <- py_div (int 1) hs_weight_used ;;
       Ok (hs_weighted_sum * factor)
  else Ok hs_weighted_sum.

Definition is_hs (p : string) : bool :=
  existsb (fun hs => String.eqb (normalize_provider_name hs) p) hyperscalers.

Definition nc_providers (prices : dict A) : list (string * A) :=
  filter (fun '(p, _) =>
            negb (is_hs p)
            && negb (contains "GetDeploying" p)
            && negb (contains "Average" p))
         prices.

(** The weight key of a provider: the first registry key it contains. *)
Fixpoint w_key (registry : list string) (p : string) : string :=
  match registry with
  | [] => "default"
  | k :: rest =>
      if contains (lower k) (lower p) then k else w_key rest p
  end.

Definition raw_weight_of (p : string) : A :=
  get_or (w_key (keys neocloud_weights) p) neocloud_weights (nlit 10 100).

(** State of the first neocloud loop: [nc_weight_used], [neocloud_data]. *)
Definition nc_step (st : A * dict nc_entry) (pp : string * A)
  : A * dict nc_entry :=
  let '(nc_weight_used, neocloud_data) := st in
  let '(p, price) := pp in
  let raw_weight := raw_weight_of p in
  (nc_weight_used + raw_weight,
   dict_set p {| price := price; raw_weight := raw_weight |} neocloud_data).

Definition nc_collect (prices : dict A) : A * dict nc_entry :=
  fold_left nc_step (nc_providers prices) (int 0, []).

(** One printed line of the redistribution loop. *)
Record nc_line : Type := {
  nc_name : string;
  nc_price : A;
  norm_weight : A;
  nc_contribution : A
}.

Fixpoint nc_lines (nc_weight_used : A) (neocloud_data : dict nc_entry)
  : result (list nc_line) :=
  match neocloud_data with
  | [] => Ok []
  | (p, data) :: rest =>
      norm_weight <- py_div (raw_weight data) nc_weight_used ;;
      let contribution := price data * norm_weight * neocloud_total_weight in
      lines <- nc_lines nc_weight_used rest ;;
      Ok ({| nc_name := p; nc_price := price data;
             norm_weight := norm_weight;
             nc_contribution := contribution |} :: lines)
  end.

(** "Redistribute weights to sum to 1.0 for available providers" *)
Definition redistribute (nc_weight_used : A) (neocloud_data : dict nc_entry)
  : result (list nc_line) :=
  if int 0 <? nc_weight_used then nc_lines nc_weight_used neocloud_data
  else Ok [].

Definition nc_sum (lines : list nc_line) : A :=
  fold_left (fun acc l => acc + nc_contribution l) lines (int 0).

(** The two category sums before rounding. *)
Definition components (prices : dict A) : result (A * A) :=
  let '(hs_weighted_sum, hs_weight_used, _) := hs_loop prices in
  hs_weighted_sum' <- normalize_hs hs_weighted_sum hs_weight_used ;;
  let '(nc_weight_used, neocloud_data) := nc_collect prices in
  lines <- redistribute nc_weight_used neocloud_data ;;
  Ok (hs_weighted_sum', nc_sum lines).

Definition build_report (now : string) (prices : dict A) : result report :=
  let '(_, _, hyperscaler_data) := hs_loop prices in
  let '(_, neocloud_data) := nc_collect prices in
  sums <- components prices ;;
  let '(hs_weighted_sum, nc_weighted_sum) := sums in
  let final_index := hs_weighted_sum + nc_weighted_sum in
  Ok {| timestamp := now;
        final_index_price := nround final_index 2;
        hyperscaler := nround hs_weighted_sum 4;
        neocloud := nround nc_weighted_sum 4;
        details_hyperscalers := hyperscaler_data;
        details_neoclouds := neocloud_data |}.

(** [calculate_index]: [Ok None] is the early [return] that writes no
    file, [Ok (Some r)] the report written to t4_weighted_index.json,
    [Raise] an uncaught exception. *)
Definition calculate_index (now : string) (w : workdir)
  : result (option report) :=
  let prices := load_prices w in
  match prices with
  | [] => Ok None
  | _ => r <- build_report now prices ;; Ok (Some r)
  end.

End Numeric.

Arguments hs_entry A : clear implicits.
Arguments nc_entry A : clear implicits.
Arguments nc_line A : clear implicits.
Arguments report A : clear implicits.
Arguments hs_state A : clear implicits.

End Calc.

(** ** push_t4_to_supabase.py *)

Module Push.
Import Calc.

Section Numeric.
Context {A : Type} `{Number A}.

Local Open Scope num_scope.

(** The dictionary read back from t4_weighted_index.json.
    ["final_index_price"] is [None] when the key is missing or does not
    hold a number. *)
Record index_data : Type := {
  idx_timestamp : string;
  idx_final_index_price : option A;
  idx_hyperscaler : option A;
  idx_neocloud : option A;
  idx_hyperscalers : dict (hs_entry A);
  idx_neoclouds : dict (nc_entry A)
}.

(** What [json.dump] writes for a report and [json.load] reads back. *)
Definition of_report (r : report A) : index_data :=
  {| idx_timestamp := timestamp r;
     idx_final_index_price := Some (final_index_price r);
     idx_hyperscaler := Some (hyperscaler r);
     idx_neocloud := Some (neocloud r);
     idx_hyperscalers := details_hyperscalers r;
     idx_neoclouds := details_neoclouds r |}.

(** Rows of the two tables. *)
Record index_row : Type := {
  id : nat;
  row_timestamp : string;
  index_price : A;
  hyperscaler_component : option A;
  neocloud_component : option A;
  metadata_hyperscalers : dict (hs_entry A);
  metadata_neoclouds : dict (nc_entry A)
}.

Record provider_row : Type := {
  index_id : nat;
  provider_timestamp : string;
  provider_name : string;
  provider_type : string;
  original_price : A;
  effective_price_col : A;
  discount_rate : A;
  relative_weight : A;
  absolute_weight : A;
  weighted_contribution : A
}.

(** The durable store; rows are kept in creation order. *)
Record store : Type := {
  t4_index_prices : list index_row;
  t4_provider_prices : list provider_row
}.

(** What lies outside the script: the environment variables, the client
    library and the answers of the remote service. *)
Inductive insert_answer : Type :=
| Inserted
| EmptyResponse
| InsertRaises.

Record world : Type := {
  credentials : bool;
  library_installed : bool;
  select_succeeds : bool;
  index_insert : insert_answer;
  provider_insert_succeeds : bool
}.

(** [select('index_price').order('created_at', desc=True).limit(1)] *)
Definition previous_price (db : store) : option A :=
  match rev (t4_index_prices db) with
  | [] => None
  | r :: _ => Some (index_price r)
  end.

(** Lines 79-96: the validation of the new price against the previous
    entry. *)
Definition price_accepted (new_price : A) (previous : option A) : bool :=
  match previous with
  | Some prev_price =>
      let lower_bound := prev_price * nlit 80 100 in
      let upper_bound := prev_price * nlit 120 100 in
      (lower_bound <=? new_price) && (new_price <=? upper_bound)
  | None => true
  end.

Definition hyperscaler_record (index_id : nat) (ts : string)
           (item : string * hs_entry A) : result provider_row :=
  let '(name, data) := item in
  rate <- (if niszero (original data) then Ok (int 0)
           else py_div (original data - discounted data) (original data)) ;;
  Ok {| index_id := index_id;
        provider_timestamp := ts;
        provider_name := name;
        provider_type := "hyperscaler";
        original_price := original data;
        effective_price_col := effective data;
        discount_rate := rate;
        relative_weight := weight data;
        absolute_weight := weight data * nlit 65 100;
        weighted_contribution := contribution data |}.

Definition neocloud_record (index_id : nat) (ts : string)
           (item : string * nc_entry A) : provider_row :=
  let '(name, data) := item in
  {| index_id := index_id;
     provider_timestamp := ts;
     provider_name := name;
     provider_type := "neocloud";
     original_price := price data;
     effective_price_col := price data;
     discount_rate := int 0;
     relative_weight := raw_weight data;
     absolute_weight := raw_weight data * nlit 35 100;
     weighted_contribution := int 0 |}.

Fixpoint hyperscaler_records (index_id : nat) (ts : string)
         (items : dict (hs_entry A)) : result (list provider_row) :=
  match items with
  | [] => Ok []
  | item :: rest =>
      r <- hyperscaler_record index_id ts item ;;
      rs <- hyperscaler_records index_id ts rest ;;
      Ok (r :: rs)
  end.

Definition next_id (db : store) : nat := S (List.length (t4_index_prices db)).

(** [push_to_supabase]: the returned flag and the store afterwards.  Any
    exception raised inside the [try] block is caught and turned into
    [False]; writes made before it stay. *)
Definition push_to_supabase (env : world) (db : store) (data : index_data)
  : bool * store :=
  if negb (credentials env) then (false, db)
  else if negb (library_installed env) then (false, db)
  else if negb (select_succeeds env) then (false, db)
  else
    match idx_final_index_price data with
    | None => (false, db)
    | Some new_price =>
        if negb (price_accepted new_price (previous_price db))
        then (false, db)
        else
          match index_insert env with
          | InsertRaises => (false, db)
          | EmptyResponse => (false, db)
          | Inserted =>
              let index_id := next_id db in
              let row :=
                {| id := index_id;
                   row_timestamp := idx_timestamp data;
                   index_price := new_price;
                   hyperscaler_component := idx_hyperscaler data;
                   neocloud_component := idx_neocloud data;
                   metadata_hyperscalers := idx_hyperscalers data;
                   metadata_neoclouds := idx_neoclouds data |} in
              let db1 :=
                {| t4_index_prices := (t4_index_prices db ++ [row])%list;
                   t4_provider_prices := t4_provider_prices db |} in
              match hyperscaler_records index_id (idx_timestamp data)
                      (idx_hyperscalers data) with
              | Raise _ => (false, db1)
              | Ok hs_rows =>
                  let provider_records :=
                    (hs_rows ++ map (neocloud_record index_id (idx_timestamp data))
                                    (idx_neoclouds data))%list in
                  match provider_records with
                  | [] => (true, db1)
                  | _ =>
                      if provider_insert_succeeds env
                      then (true,
                            {| t4_index_prices := t4_index_prices db1;
                               t4_provider_prices :=
                                 (t4_provider_prices db1 ++ provider_records)%list |})
                      else (false, db1)
                  end
              end
          end
    end.

End Numeric.

Arguments index_data A : clear implicits.
Arguments index_row A : clear implicits.
Arguments provider_row A : clear implicits.
Arguments store A : clear implicits.

End Push.

(** ** push_to_contract.py : fixed-point encoding *)

Module Oracle.
Import Calc.

Definition PRICE_DECIMALS : nat := 18.

Section Numeric.
Context {A : Type} `{Number A}.

Local Open Scope num_scope.

(** [int(price_usd * (10**PRICE_DECIMALS))] in [update_price] *)
Definition price_scaled (price_usd : A) : result Z :=
  ntrunc (price_usd * int (Zpos (pow10 PRICE_DECIMALS))).

(** [PriceData.price]: [price_raw / 10**PRICE_DECIMALS] *)
Definition price (price_raw : Z) : A :=
  nlit price_raw (pow10 PRICE_DECIMALS).

End Numeric.
End Oracle.


(** ** push_to_contract.py : the updater around the encoding

    The node, the contract and the file system are outside the script; what
    they answer is an input of the model.  [float_of_str] stands for the
    built-in [float] applied to a CSV cell. *)

Module Updater.
Import Calc.

(** [_build_dynamic_fee]: [gas_price] is [w3.eth.gas_price], the result is
    [(max_fee, max_priority)] in wei. *)
Definition _build_dynamic_fee (gas_price : Z) : Z * Z :=
  let base_fee := gas_price in
  let max_priority := (1 * 10 ^ 9)%Z in
  let max_fee := Z.max (base_fee * 2) (max_priority * 2) in
  (max_fee, max_priority).

(** [l[-n:]] *)
Definition last_entries {T : Type} (n : nat) (l : list T) : list T :=
  skipn (List.length l - n) l.

(** A row of [csv.DictReader]: the header's columns in order, a missing
    cell is [None]. *)
Definition csv_row : Type := dict (option string).

(** The loop over the recognised column names: the first one that is a key
    of the row. *)
Fixpoint price_column (cols : list string) (latest : csv_row) : option string :=
  match cols with
  | [] => None
  | col :: rest =>
      match dict_get col latest with
      | Some _ => Some col
      | None => price_column rest latest
      end
  end.

Definition price_columns : list string :=
  ["T4_Index_Price"; "Full_Index_Price"; "index_price"; "price"].

(** What the start of the run meets: [T4OraclePriceUpdater.__init__]. *)
Inductive startup : Type :=
| ConnectionFails
| SetupRaises
| NotRegistered
| Ready.

(** What [_send_transaction] does once called. *)
Inductive tx_outcome : Type :=
| TxRaises
| TxMined (tx_hash : string) (block_number : Z).

Section Numeric.
Context {A : Type} `{Number A}.
Variable float_of_str : string -> option A.

Local Open Scope num_scope.

(** The entry appended to t4_contract_update_log.json; its constant fields
    (asset, asset id, contract, network, updater address) are left out. *)
Record log_entry : Type := {
  log_timestamp : string;
  index_price_usd : A;
  index_price_scaled : Z;
  tx_hash : string;
  block_number : Z
}.

(** [_log_update].  [log_file] is the list read from the log file, [None]
    when the file is missing, is not JSON or is not a list; [writable] tells
    whether the file can be written.  The result is the file afterwards. *)
Definition _log_update (now : string) (price_usd : A) (tx_hash : string)
           (block_number : Z) (log_file : option (list log_entry))
           (writable : bool) : result (option (list log_entry)) :=
  scaled <- Oracle.price_scaled price_usd ;;
  let log_entry :=
    {| log_timestamp := now;
       index_price_usd := price_usd;
       index_price_scaled := scaled;
       tx_hash := tx_hash;
       block_number := block_number |} in
  let logs := match log_file with Some l => l | None => [] end in
  let logs := (logs ++ [log_entry])%list in
  let logs := last_entries 100 logs in
  Ok (if writable then Some logs else log_file).

(** The world of one run of the script. *)
Record world : Type := {
  PRIVATE_KEY : bool;
  start : startup;
  tx : tx_outcome;
  (** [price_raw] read back after the transaction *)
  readback : Z;
  log_writable : bool;
  now : string
}.

(** What [update_price] leaves behind: the scaled price handed to
    [updatePrice] if [_send_transaction] was reached, the hash returned, the
    outcome of the read-back comparison and the log file. *)
Record update_result : Type := {
  requested : option Z;
  returned : option string;
  verified : bool;
  log_after : option (list log_entry)
}.

Definition update_price (env : world) (price_usd : A)
           (log_file : option (list log_entry)) : update_result :=
  match Oracle.price_scaled price_usd with
  | Raise _ =>
      {| requested := None; returned := None; verified := false;
         log_after := log_file |}
  | Ok price_scaled =>
      match tx env with
      | TxRaises =>
          {| requested := Some price_scaled; returned := None;
             verified := false; log_after := log_file |}
      | TxMined tx_hash block_number =>
          let verified := Z.eqb (readback env) price_scaled in
          match _log_update (now env) price_usd tx_hash block_number
                            log_file (log_writable env) with
          | Raise _ =>
              {| requested := Some price_scaled; returned := None;
                 verified := verified; log_after := log_file |}
          | Ok log' =>
              {| requested := Some price_scaled; returned := Some tx_hash;
                 verified := verified; log_after := log' |}
          end
      end
  end.

(** [read_price_from_csv]: [csv_file] is the list of rows, [None] when the
    file cannot be read. *)
Definition read_price_from_csv (csv_file : option (list csv_row)) : option A :=
  match csv_file with
  | None => None
  | Some rows =>
      match rev rows with
      | [] => None
      | latest :: _ =>
          match price_column price_columns latest with
          | None => None
          | Some price_col =>
              match dict_get price_col latest with
              | Some (Some cell) => float_of_str cell
              | _ => None
              end
          end
      end
  end.

(** The command line after [argparse]. *)
Record arguments : Type := {
  csv : option (list csv_row);
  price : option A;
  read_only : bool
}.

(** One run of [main]: the exit code and what [update_price] left. *)
Record run : Type := {
  exit_code : Z;
  update : option update_result
}.

Definition main (args : arguments) (env : world)
           (log_file : option (list log_entry)) : run :=
  let exit code := {| exit_code := code; update := None |} in
  if negb (PRIVATE_KEY env) then exit 1%Z
  else
    match start env with
    | ConnectionFails => exit 1%Z
    | SetupRaises => exit 1%Z
    | NotRegistered => exit 1%Z
    | Ready =>
        if read_only args then exit 0%Z
        else
          let source :=
            match price args with
            | Some price => Some price
            | None => read_price_from_csv (csv args)
            end in
          match source with
          | None => exit 1%Z
          | Some price =>
              if price <=? int 0 then exit 1%Z
              else
                let r := update_price env price log_file in
                {| exit_code := match returned r with
                                | Some _ => 0%Z
                                | None => 1%Z
                                end;
                   update := Some r |}
          end
    end.

End Numeric.

Arguments log_entry A : clear implicits.
Arguments update_result A : clear implicits.
Arguments arguments A : clear implicits.
Arguments run A : clear implicits.

End Updater.


(** ** Specification-side definitions *)

(** The normaliser as the specification words it: the first entry whose alias
    equals the name, else the first entry whose alias occurs in the name,
    else the name itself; case is ignored throughout. *)
Definition normalize_two_pass (aliases : list (string * string))
           (name : string) : string :=
  match find (fun '(alias, _) => String.eqb (lower name) (lower alias)) aliases with
  | Some (_, standard) => standard
  | None =>
      match find (fun '(alias, _) => contains (lower alias) (lower name)) aliases with
      | Some (_, standard) => standard
      | None => name
      end
  end.

(** No alias occurs inside a later alias that maps elsewhere. *)
Fixpoint shadow_free (aliases : list (string * string)) : bool :=
  match aliases with
  | [] => true
  | (a, c) :: rest =>
      forallb (fun '(a', c') =>
                 negb (contains (lower a) (lower a')) || String.eqb c c') rest
      && shadow_free rest
  end.

Definition sumQ (l : list Q) : Q := fold_right Qplus 0 l.

Definition nc_entry_of (pp : string * Q) : string * Calc.nc_entry Q :=
  (fst pp, {| Calc.price := snd pp; Calc.raw_weight := Calc.raw_weight_of (fst pp) |}).

Definition nc_line_of (used : Q) (pp : string * Q) : Calc.nc_line Q :=
  let norm_weight := Calc.raw_weight_of (fst pp) / used in
  {| Calc.nc_name := fst pp;
     Calc.nc_price := snd pp;
     Calc.norm_weight := norm_weight;
     Calc.nc_contribution := snd pp * norm_weight * 0.35 |}.

Definition raw_total (l : list (string * Q)) : Q :=
  sumQ (map (fun pp => Calc.raw_weight_of (fst pp)) l).

Definition hs_weighted_sum (prices : dict Q) : Q := fst (fst (Calc.hs_loop prices)).
Definition hs_weight_used (prices : dict Q) : Q := snd (fst (Calc.hs_loop prices)).



Definition dotted_combined : Calc.workdir :=
  {| Calc.combined_prices := Some [("Vast.ai", "N/A."); ("AWS", "$0.55/hr")];
     Calc.individual_files := [] |}.

Definition golden : Calc.workdir :=
  {| Calc.combined_prices :=
       Some [("AWS", "$1.00/hr"); ("Azure", "$1.50/hr");
             ("GCP", "$1.20/hr"); ("Vast.ai", "$0.12/hr")];
     Calc.individual_files := [] |}.

Definition two_neoclouds : Calc.workdir :=
  {| Calc.combined_prices :=
       Some [("Vast.ai", "$0.12/hr"); ("AWS", "$1.00/hr");
             ("Paperspace", "$0.45/hr")];
     Calc.individual_files := [] |}.

Definition golden_report : Calc.report Q :=
  {| Calc.timestamp := "2026-01-01 00:00:00";
     Calc.final_index_price := 47 # 100;
     Calc.hyperscaler := 4235 # 10000;
     Calc.neocloud := 420 # 10000;
     Calc.details_hyperscalers :=
       [("AWS", Calc.hs_entry_of "AWS" (100 # 100));
        ("Azure", Calc.hs_entry_of "Azure" (150 # 100));
        ("GCP", Calc.hs_entry_of "GCP" (120 # 100))];
     Calc.details_neoclouds :=
       [("Vast.ai", {| Calc.price := 12 # 100; Calc.raw_weight := 15 # 100 |})] |}.

Definition live_world : Push.world :=
  {| Push.credentials := true;
     Push.library_installed := true;
     Push.select_succeeds := true;
     Push.index_insert := Push.Inserted;
     Push.provider_insert_succeeds := true |}.

Definition store_at (previous : Q) : Push.store Q :=
  {| Push.t4_index_prices :=
       [{| Push.id := 1;
           Push.row_timestamp := "2025-12-31 00:00:00";
           Push.index_price := previous;
           Push.hyperscaler_component := None;
           Push.neocloud_component := None;
           Push.metadata_hyperscalers := [];
           Push.metadata_neoclouds := [] |}];
     Push.t4_provider_prices := [] |}.

Definition index_at (new_price : Q) : Push.index_data Q :=
  {| Push.idx_timestamp := "2026-01-01 00:00:00";
     Push.idx_final_index_price := Some new_price;
     Push.idx_hyperscaler := None;
     Push.idx_neocloud := None;
     Push.idx_hyperscalers := [];
     Push.idx_neoclouds := [] |}.

Definition seven_neoclouds : dict B64.float :=
  [("Vast.ai", B64.lit 12 100); ("Replicate", B64.lit 30 100);
   ("Cerebrium", B64.lit 25 100); ("Foo", B64.lit 25 100);
   ("Bar", B64.lit 25 100); ("Paperspace", B64.lit 25 100);
   ("Tencent Cloud", B64.lit 25 100)].

(** Shapes of strings used to describe [_parse_price]. *)
Fixpoint all_digits (s : string) : bool :=
  match s with
  | EmptyString => true
  | String c r => is_digit c && all_digits r
  end.

Fixpoint has_digit (s : string) : bool :=
  match s with
  | EmptyString => false
  | String c r => is_digit c || has_digit r
  end.

Fixpoint count_dots (s : string) : nat :=
  match s with
  | EmptyString => O
  | String c r => if Ascii.eqb c "." then S (count_dots r) else count_dots r
  end.

Fixpoint all_price_chars (s : string) : bool :=
  match s with
  | EmptyString => true
  | String c r => Calc.is_price_char c && all_price_chars r
  end.

Fixpoint no_price_char (s : string) : bool :=
  match s with
  | EmptyString => true
  | String c r => negb (Calc.is_price_char c) && no_price_char r
  end.

(** The rest of the string does not continue a token. *)
Definition ends_token (suffix : string) : bool :=
  match suffix with
  | EmptyString => true
  | String c _ => negb (Calc.is_price_char c)
  end.

(** A token [float] accepts: at most one dot, at least one digit. *)
Definition well_formed_token (tok : string) : bool :=
  (count_dots tok <=? 1)%nat && has_digit tok.

(** The files [load_from_individual_files] passes over. *)
Definition is_aggregate (f : Calc.price_file) : bool :=
  contains "combined" (Calc.name f) || contains "getdeploying" (Calc.name f).

Definition parses {A : Type} `{Number A} (item : string * string) : Prop :=
  exists x : A, Calc._parse_price (snd item) = Ok x.

Definition three_files : list Calc.price_file :=
  [ {| Calc.stem := "aws_t4_prices";
       Calc.content := Some {| Calc.provider := Some "AWS";
                               Calc.prices_values := Some ["$0.53/hr"] |} |};
    {| Calc.stem := "getdeploying_t4_prices";
       Calc.content := Some {| Calc.provider := Some "GetDeploying";
                               Calc.prices_values := Some ["$0.40/hr"] |} |};
    {| Calc.stem := "vastai_t4_prices";
       Calc.content := Some {| Calc.provider := None;
                               Calc.prices_values := Some ["n/a"; "$0.12/hr"] |} |} ].

(** The price the hyperscaler loop uses for a name, if any. *)
Definition present (prices : dict Q) (hs : string) : option Q :=
  if Calc.truthy (Calc.find_price prices hs)
  then Calc.find_price prices hs else None.

(** One turn of the hyperscaler loop, by what it found. *)
Definition hs_add (hs : string) (found : option Q) (st : Calc.hs_state Q)
  : Calc.hs_state Q :=
  match found with
  | Some p =>
      (fst (fst st) + Calc.contribution (Calc.hs_entry_of hs p),
       snd (fst st) + Calc.weight (Calc.hs_entry_of (A:=Q) hs p),
       dict_set hs (Calc.hs_entry_of hs p) (snd st))
  | None => st
  end.

(** Sum of price * raw weight over the neoclouds. *)
Definition weighted_total (l : list (string * Q)) : Q :=
  sumQ (map (fun pp => snd pp * Calc.raw_weight_of (fst pp)) l).

Definition loose_prices : dict Q := [("Aws", 53 # 100); ("Vast.ai", 12 # 100)].

Definition failing_provider_insert : Push.world :=
  {| Push.credentials := true;
     Push.library_installed := true;
     Push.select_succeeds := true;
     Push.index_insert := Push.Inserted;
     Push.provider_insert_succeeds := false |}.

Definition empty_store : Push.store Q :=
  {| Push.t4_index_prices := []; Push.t4_provider_prices := [] |}.


Definition ready_world : Updater.world :=
  {| Updater.PRIVATE_KEY := true;
     Updater.start := Updater.Ready;
     Updater.tx := Updater.TxMined "0xabc" 7;
     Updater.readback := 0;
     Updater.log_writable := true;
     Updater.now := "2026-01-01T00:00:00+00:00" |}.

Definition manual_price (p : Q) : Updater.arguments Q :=
  {| Updater.csv := None; Updater.price := Some p; Updater.read_only := false |}.

Definition with_readback (env : Updater.world) (raw : Z) : Updater.world :=
  {| Updater.PRIVATE_KEY := Updater.PRIVATE_KEY env;
     Updater.start := Updater.start env;
     Updater.tx := Updater.tx env;
     Updater.readback := raw;
     Updater.log_writable := Updater.log_writable env;
     Updater.now := Updater.now env |}.

Definition full_set_prices : dict Q :=
  [("AWS", 100 # 100); ("Azure", 150 # 100); ("GCP", 120 # 100)].

(** ** Definitions for statements in the code's own arithmetic *)

(** The price the hyperscaler loop uses for a name, if any. *)
Definition observed {A : Type} `{Number A} (prices : dict A) (hs : string)
  : option A :=
  if Calc.truthy (Calc.find_price prices hs)
  then Calc.find_price prices hs else None.

Definition is_observed {A : Type} `{Number A} (prices : dict A) (hs : string)
  : bool :=
  match observed prices hs with
  | Some _ => true
  | None => false
  end.

(** One turn of the hyperscaler loop, by what it found. *)
Definition hs_record {A : Type} `{Number A} (hs : string) (found : option A)
           (st : Calc.hs_state A) : Calc.hs_state A :=
  match found with
  | Some p =>
      (nadd (fst (fst st)) (Calc.contribution (Calc.hs_entry_of hs p)),
       nadd (snd (fst st)) (Calc.weight (Calc.hs_entry_of hs p)),
       dict_set hs (Calc.hs_entry_of hs p) (snd st))
  | None => st
  end.

(** The renormalisation as the specification words it: with
    [0 < hs_weight_used < 1.0] the sum is multiplied by
    [1.0 / hs_weight_used], otherwise it stays as it is. *)
Definition renormalized {A : Type} `{Number A} (hs_sum hs_weight_used : A) : A :=
  if nltb (Calc.int 0) hs_weight_used && nltb hs_weight_used (Calc.int 1)
  then nmul hs_sum (ndiv (Calc.int 1) hs_weight_used)
  else hs_sum.

(** The blend as the specification writes it,
    [price*(1-discount_rate)*0.80 + price*0.20], evaluated as Python
    evaluates the expression. *)
Definition blend {A : Type} `{Number A} (price discount_rate : A) : A :=
  nadd (nmul (nmul price (nsub (Calc.int 1) discount_rate)) (nlit 80 100))
       (nmul price (nlit 20 100)).

(** [0 + x1 + x2 + ...], added from left to right. *)
Definition running_sum {A : Type} `{Number A} (l : list A) : A :=
  fold_left nadd l (Calc.int 0).

(** An item of the combined file that stores a price under the key [k]. *)
Definition overwrites {A : Type} `{Number A} (k : string)
           (item : string * string) : bool :=
  String.eqb (Calc.normalize_provider_name (fst item)) k
  && match Calc._parse_price (A:=A) (snd item) with
     | Ok price => nltb (Calc.int 0) price
     | Raise _ => false
     end.

(** A run of the push in which the credentials are set, the client library
    is installed and the service answers every request. *)
Definition service_answers (env : Push.world) : Prop :=
  Push.credentials env = true
  /\ Push.library_installed env = true
  /\ Push.select_succeeds env = true
  /\ Push.index_insert env = Push.Inserted
  /\ Push.provider_insert_succeeds env = true.

(** The row [push_to_supabase] inserts into t4_index_prices. *)
Definition new_index_row {A : Type} (db : Push.store A) (data : Push.index_data A)
           (new_price : A) : Push.index_row A :=
  {| Push.id := Push.next_id db;
     Push.row_timestamp := Push.idx_timestamp data;
     Push.index_price := new_price;
     Push.hyperscaler_component := Push.idx_hyperscaler data;
     Push.neocloud_component := Push.idx_neocloud data;
     Push.metadata_hyperscalers := Push.idx_hyperscalers data;
     Push.metadata_neoclouds := Push.idx_neoclouds data |}.

(** The price [main] hands to [update_price], if any. *)
Definition price_source {A : Type} (float_of_str : string -> option A)
           (args : Updater.arguments A) : option A :=
  match Updater.price args with
  | Some price => Some price
  | None => Updater.read_price_from_csv float_of_str (Updater.csv args)
  end.

(** What the first neocloud loop records for an observation. *)
Definition nc_recorded {A : Type} `{Number A} (pp : string * A)
  : string * Calc.nc_entry A :=
  (fst pp,
   {| Calc.price := snd pp; Calc.raw_weight := Calc.raw_weight_of (fst pp) |}).

(** The contribution of a recorded neocloud:
    [price * (raw_weight / nc_weight_used) * 0.35]. *)
Definition nc_share {A : Type} `{Number A} (nc_weight_used : A)
           (item : string * Calc.nc_entry A) : A :=
  nmul (nmul (Calc.price (snd item))
             (ndiv (Calc.raw_weight (snd item)) nc_weight_used))
       (nlit 35 100).

(** Example data in binary64. *)
Definition aws_only : dict B64.float := [("AWS", B64.lit 1 1)].

Definition store_after (previous : B64.float) : Push.store B64.float :=
  {| Push.t4_index_prices :=
       [{| Push.id := 1;
           Push.row_timestamp := "2025-12-31 00:00:00";
           Push.index_price := previous;
           Push.hyperscaler_component := None;
           Push.neocloud_component := None;
           Push.metadata_hyperscalers := [];
           Push.metadata_neoclouds := [] |}];
     Push.t4_provider_prices := [] |}.

Definition index_of (new_price : B64.float) : Push.index_data B64.float :=
  {| Push.idx_timestamp := "2026-01-01 00:00:00";
     Push.idx_final_index_price := Some new_price;
     Push.idx_hyperscaler := None;
     Push.idx_neocloud := None;
     Push.idx_hyperscalers := [];
     Push.idx_neoclouds := [] |}.

(** [float(cell)] on plain decimals, for the examples. *)
Definition float_of_cell (cell : string) : option B64.float :=
  match Calc.float_of_token cell with
  | Ok x => Some x
  | Raise _ => None
  end.

Definition price_flag (p : B64.float) : Updater.arguments B64.float :=
  {| Updater.csv := None; Updater.price := Some p; Updater.read_only := false |}.

Definition csv_flag (rows : list Updater.csv_row) : Updater.arguments B64.float :=
  {| Updater.csv := Some rows; Updater.price := None; Updater.read_only := false |}.

(** The report of the golden run in binary64. *)
Definition golden_report64 : Calc.report B64.float :=
  {| Calc.timestamp := "2026-01-01 00:00:00";
     Calc.final_index_price := B64.lit 47 100;
     Calc.hyperscaler := B64.lit 4235 10000;
     Calc.neocloud := B64.lit 42 1000;
     Calc.details_hyperscalers :=
       [("AWS", Calc.hs_entry_of "AWS" (B64.lit 100 100));
        ("Azure", Calc.hs_entry_of "Azure" (B64.lit 150 100));
        ("GCP", Calc.hs_entry_of "GCP" (B64.lit 120 100))];
     Calc.details_neoclouds :=
       [("Vast.ai", {| Calc.price := B64.lit 12 100;
                       Calc.raw_weight := B64.lit 15 100 |})] |}.

(** The exact value of a binary64 number; [None] for the infinities and
    NaN. *)
Module B64Spec.
Import Floats.

Definition value (x : B64.float) : option Q :=
  match Prim2SF x with
  | S754_zero _ => Some 0
  | S754_finite s m e =>
      Some (match e with
            | Zneg k => B64.signed s (Zpos m) # Pos.pow 2 k
            | _ => inject_Z (B64.signed s (Z.shiftl (Zpos m) e))
            end)
  | _ => None
  end.

End B64Spec.

(** The check behind the round trip of the prices with four decimals:
    [k / 10000] dollars is encoded to an integer within 64 units of
    [k * 10^14] that decodes to the very same binary64 number. *)
Definition four_decimals_ok (k : Z) : bool :=
  let price_usd := B64.lit k 10000 in
  match Oracle.price_scaled price_usd with
  | Ok price_scaled =>
      PrimFloat.Leibniz.eqb (Oracle.price price_scaled) price_usd
      && (Z.abs (price_scaled - k * 10 ^ 14) <=? 64)%Z
  | Raise _ => false
  end.

Definition from_to (lo hi : Z) : list Z :=
  map (fun i => (lo + Z.of_nat i)%Z) (seq 0 (Z.to_nat (hi - lo + 1))).


(** * Verification *)

(** ** The binary64 reading agrees with the interpreter

    The right-hand sides are the values CPython prints with [float.hex()]
    for [0.44], [0.648], [1/3], [round(2.675, 2)], [round(0.125, 2)] and,
    for the last line, [int(-2.7)]. *)

Module B64Facts.
Import Floats.

Lemma lit_round_trunc_examples :
  B64.lit 44 100 = 0x1.c28f5c28f5c29p-2%float
  /\ B64.lit 648 1000 = 0x1.4bc6a7ef9db23p-1%float
  /\ B64.lit 1 3 = 0x1.5555555555555p-2%float
  /\ B64.round (B64.lit 2675 1000) 2 = 0x1.55c28f5c28f5cp+1%float
  /\ B64.round (B64.lit 125 1000) 2 = 0x1.eb851eb851eb8p-4%float
  /\ B64.trunc (B64.lit (-27) 10) = Ok (-2)%Z.
Proof. repeat split; vm_compute; reflexivity. Qed.

End B64Facts.

(** ** Strings and dictionaries: basic facts *)

Lemma prefix_refl (s : string) : String.prefix s s = true.
Proof.
  induction s as [|c s IH]; simpl; [reflexivity|].
  destruct (ascii_dec c c); [exact IH | congruence].
Qed.

Lemma contains_refl (s : string) : contains s s = true.
Proof.
  destruct s; [reflexivity|]. cbn [contains].
  rewrite prefix_refl. reflexivity.
Qed.

Lemma dict_set_In {V : Type} (k k' : string) (v v' : V) (d : dict V) :
  In (k, v) (dict_set k' v' d) -> (k, v) = (k', v') \/ In (k, v) d.
Proof.
  induction d as [|[k0 v0] d IH]; simpl.
  - intros [E|[]]; left; congruence.
  - destruct (String.eqb k' k0); simpl.
    + intros [E|HIn]; [left; congruence | right; right; exact HIn].
    + intros [E|HIn]; [right; left; exact E|].
      destruct (IH HIn) as [E|HIn']; [left; exact E | right; right; exact HIn'].
Qed.

Lemma dict_set_fresh {V : Type} (k : string) (v : V) (d : dict V) :
  ~ In k (keys d) -> dict_set k v d = (d ++ [(k, v)])%list.
Proof.
  induction d as [|[k0 v0] d IH]; simpl; intros Hk; [reflexivity|].
  destruct (String.eqb_spec k k0) as [E|NE].
  - exfalso. apply Hk. left. symmetry. exact E.
  - rewrite IH; [reflexivity|]. intros HIn. apply Hk. right. exact HIn.
Qed.

Lemma dict_set_keys {V : Type} (k : string) (v : V) (d : dict V) :
  keys (dict_set k v d) = if existsb (String.eqb k) (keys d)
                          then keys d else (keys d ++ [k])%list.
Proof.
  unfold keys.
  induction d as [|[k0 v0] d IH]; simpl; [reflexivity|].
  destruct (String.eqb_spec k k0) as [E|NE]; simpl.
  - subst. reflexivity.
  - rewrite IH.
    destruct (existsb (String.eqb k) (map fst d)); reflexivity.
Qed.

Lemma dict_set_NoDup {V : Type} (k : string) (v : V) (d : dict V) :
  NoDup (keys d) -> NoDup (keys (dict_set k v d)).
Proof.
  intros Hd. rewrite dict_set_keys.
  destruct (existsb (String.eqb k) (keys d)) eqn:E; [exact Hd|].
  apply NoDup_app; [exact Hd | repeat constructor; intros [] | ].
  intros x Hx [Hk|[]]. subst x.
  assert (existsb (String.eqb k) (keys d) = true) as C.
  { apply existsb_exists. exists k. split; [exact Hx | apply String.eqb_refl]. }
  congruence.
Qed.

(** ** The provider normaliser *)

Lemma normalize_in_one_pass (aliases : list (string * string)) (name : string) :
  Calc.normalize_in aliases name =
  match find (fun '(alias, _) => contains (lower alias) (lower name)) aliases with
  | Some (_, standard) => standard
  | None => name
  end.
Proof.
  induction aliases as [|[a c] rest IH]; simpl; [reflexivity|].
  destruct (String.eqb_spec (lower name) (lower a)) as [E|NE].
  - rewrite E, contains_refl. reflexivity.
  - destruct (contains (lower a) (lower name)); [reflexivity | exact IH].
Qed.

Lemma normalize_in_two_pass (aliases : list (string * string)) :
  shadow_free aliases = true ->
  forall name, Calc.normalize_in aliases name = normalize_two_pass aliases name.
Proof.
  induction aliases as [|[a c] rest IH]; intros Hfree name; [reflexivity|].
  simpl in Hfree. apply andb_true_iff in Hfree as [Hhere Hrest].
  specialize (IH Hrest name).
  unfold normalize_two_pass in *. simpl.
  destruct (String.eqb_spec (lower name) (lower a)) as [E|NE]; [reflexivity|].
  destruct (contains (lower a) (lower name)) eqn:Hsub; [|exact IH].
  destruct (find (fun '(alias, _) => String.eqb (lower name) (lower alias)) rest)
    as [[a' c']|] eqn:Hfind; [|reflexivity].
  apply find_some in Hfind as [HIn Heq].
  apply String.eqb_eq in Heq.
  rewrite forallb_forall in Hhere. specialize (Hhere _ HIn). simpl in Hhere.
  rewrite <- Heq, Hsub in Hhere. simpl in Hhere.
  apply String.eqb_eq in Hhere. exact Hhere.
Qed.

(** C8.  For every raw provider name, [normalize_provider_name] returns the
    canonical value of the first alias-table entry whose alias equals the
    name up to case, else that of the first entry whose alias occurs in the
    name up to case (the earliest declared entry wins), and the name itself,
    unchanged, when no entry matches. *)
Theorem normalize_provider_name_first_match (name : string) :
  Calc.normalize_provider_name name
  = normalize_two_pass Calc.provider_aliases name
  /\ (find (fun '(alias, _) => contains (lower alias) (lower name))
           Calc.provider_aliases = None ->
      Calc.normalize_provider_name name = name).
Proof.
  split.
  - apply normalize_in_two_pass. vm_compute. reflexivity.
  - intros Hnone. unfold Calc.normalize_provider_name.
    rewrite normalize_in_one_pass, Hnone. reflexivity.
Qed.

Lemma normalize_provider_name_first_match_witness :
  Calc.normalize_provider_name "Vast.ai"
  = normalize_two_pass Calc.provider_aliases "Vast.ai"
  /\ Calc.normalize_provider_name "Vast.ai" = "Vast.ai".
Proof.
  split.
  - exact (proj1 (normalize_provider_name_first_match "Vast.ai")).
  - apply (proj2 (normalize_provider_name_first_match "Vast.ai")).
    vm_compute. reflexivity.
Defined.

(** ** The discount blend *)

Lemma hs_fold_entries {A : Type} `{Number A} (prices : dict A)
      (l : list string) (st : Calc.hs_state A) :
  (forall hs e, In (hs, e) (snd st) -> exists p, e = Calc.hs_entry_of hs p) ->
  forall hs e, In (hs, e) (snd (fold_left (Calc.hs_step prices) l st)) ->
               exists p, e = Calc.hs_entry_of hs p.
Proof.
  revert st. induction l as [|h l IH]; intros st Hst; [exact Hst|].
  simpl. apply IH. destruct st as [[s u] d]. unfold Calc.hs_step.
  destruct (Calc.truthy _); [|exact Hst].
  destruct (Calc.find_price prices _) as [p|]; [|exact Hst].
  simpl. intros hs e HIn. apply dict_set_In in HIn as [E|HIn].
  - inversion E; subst. exists p. reflexivity.
  - apply (Hst _ _ HIn).
Qed.

Lemma hs_loop_entries {A : Type} `{Number A} (prices : dict A)
      (hs : string) (e : Calc.hs_entry A) :
  In (hs, e) (snd (Calc.hs_loop prices)) -> exists p, e = Calc.hs_entry_of hs p.
Proof. apply hs_fold_entries. intros ? ? []. Qed.

(** In exact arithmetic, the effective price of an observed hyperscaler
    price [p] with discount [d] is [p*(1-d)*0.80 + p*0.20]; every entry the
    hyperscaler loop records carries that value for its provider's discount;
    for a discount of 0.44 and a price of 1.00 it is 0.648. *)
Theorem effective_price_blend :
  (forall p d : Q,
      Calc.effective_price p d == p * (1 - d) * 0.80 + p * 0.20)
  /\ (forall (prices : dict Q) (hs : string) (e : Calc.hs_entry Q),
         In (hs, e) (snd (Calc.hs_loop prices)) ->
         Calc.effective e
         == Calc.original e * (1 - Calc.discount_of hs) * 0.80
            + Calc.original e * 0.20)
  /\ Calc.effective_price 1 0.44 == 0.648.
Proof.
  split; [|split].
  - intros p d. reflexivity.
  - intros prices hs e HIn.
    destruct (hs_loop_entries prices hs e HIn) as [p ->]. reflexivity.
  - vm_compute. reflexivity.
Qed.

Lemma effective_price_blend_witness :
  Calc.effective
    (Calc.hs_entry_of "AWS" 1)
  == 1 * (1 - Calc.discount_of "AWS") * 0.80 + 1 * 0.20.
Proof.
  apply (proj1 (proj2 effective_price_blend) [("AWS", 1)] "AWS").
  vm_compute. left. reflexivity.
Defined.

(** In binary64 the same blend of 1.00 at 0.44 is the float right above
    0.648, that is 0.6480000000000001. *)
Lemma effective_price_binary64 :
  Calc.effective_price (B64.lit 1 1) (B64.lit 44 100)
  = PrimFloat.next_up (B64.lit 648 1000).
Proof. vm_compute. reflexivity. Qed.

(** ** The publish gate in exact arithmetic *)

Lemma Q_leb_le (x y : Q) : (x <=? y)%num = true <-> x <= y.
Proof. apply Qle_bool_iff. Qed.

(** The gate in exact arithmetic: with a previous price, the new price is
    accepted exactly when it lies between 0.80 and 1.20 times the previous
    price, bounds included.  After 0.50 a price of 0.60 passes and a price
    of 0.61 does not, in exact arithmetic and in binary64 alike. *)
Theorem publish_gate_rule :
  (forall new_price : Q, Push.price_accepted new_price None = true)
  /\ (forall new_price prev_price : Q,
         Push.price_accepted new_price (Some prev_price) = true
         <-> prev_price * 0.80 <= new_price /\ new_price <= prev_price * 1.20)
  /\ Push.price_accepted (A:=Q) 0.60 (Some 0.50) = true
  /\ Push.price_accepted (A:=Q) 0.61 (Some 0.50) = false
  /\ Push.price_accepted (B64.lit 60 100) (Some (B64.lit 50 100)) = true
  /\ Push.price_accepted (B64.lit 61 100) (Some (B64.lit 50 100)) = false.
Proof.
  split; [reflexivity|]. split; [|repeat split; vm_compute; reflexivity].
  intros new_price prev_price. unfold Push.price_accepted.
  rewrite andb_true_iff, !Q_leb_le. reflexivity.
Qed.

(** ** The oracle's fixed-point encoding in exact arithmetic *)

Lemma Q_trunc_floor (x : Q) : 0 <= x -> Q_trunc x = Qfloor x.
Proof.
  destruct x as [n d]. unfold Qle, Q_trunc, Qfloor. simpl. intros Hn.
  apply Z.quot_div_nonneg; lia.
Qed.

(** In exact arithmetic the price sent to the oracle is the integer part,
    rounded down, of the price times 10^18, and reading divides the stored
    integer by 10^18; 0.4512 is encoded as 451200000000000000 and decoded
    back to 0.4512, in exact arithmetic and in binary64 alike. *)
Theorem oracle_fixed_point (price_usd : Q) :
  0 <= price_usd ->
  Oracle.price_scaled price_usd
  = Ok (Qfloor (price_usd * inject_Z (10 ^ 18)))
  /\ (forall price_raw : Z,
         Oracle.price price_raw == inject_Z price_raw / inject_Z (10 ^ 18))
  /\ Oracle.price_scaled (A:=Q) 0.4512 = Ok 451200000000000000%Z
  /\ Oracle.price (A:=Q) 451200000000000000 == 0.4512
  /\ Oracle.price_scaled (B64.lit 4512 10000) = Ok 451200000000000000%Z
  /\ Oracle.price 451200000000000000 = B64.lit 4512 10000.
Proof.
  intros Hpos. repeat split; try (vm_compute; reflexivity).
  - unfold Oracle.price_scaled. simpl. f_equal.
    change (Calc.int (Z.pos (pow10 Oracle.PRICE_DECIMALS)))
      with (inject_Z (10 ^ 18)).
    apply Q_trunc_floor. apply Qmult_le_0_compat; [exact Hpos | discriminate].
  - intros price_raw. unfold Oracle.price. simpl.
    change (pow10 Oracle.PRICE_DECIMALS) with (1000000000000000000%positive).
    unfold Qdiv, Qeq, Qmult, Qinv, inject_Z. simpl. lia.
Qed.

Lemma oracle_fixed_point_witness :
  Oracle.price_scaled (A:=Q) 0.4512
  = Ok (Qfloor (0.4512 * inject_Z (10 ^ 18))).
Proof.
  apply (oracle_fixed_point 0.4512). discriminate.
Defined.

(** ** The loader builds a dictionary: no key twice *)

Section LoaderKeys.
Context {A : Type} `{Number A}.

Lemma load_combined_NoDup (items : list (string * string)) (prices : dict A) :
  NoDup (keys prices) -> NoDup (keys (Calc.load_combined items prices)).
Proof.
  revert prices. induction items as [|[prov v] items IH]; intros prices Hd;
    [exact Hd|].
  simpl. destruct (Calc._parse_price v) as [price|]; [|exact Hd].
  apply IH. destruct (nltb _ price); [apply dict_set_NoDup|]; exact Hd.
Qed.

Lemma load_file_NoDup (prices : dict A) (f : Calc.price_file) :
  NoDup (keys prices) -> NoDup (keys (Calc.load_file prices f)).
Proof.
  intros Hd. unfold Calc.load_file.
  destruct (_ || _); [exact Hd|].
  destruct (Calc.content f) as [data|]; [|exact Hd].
  destruct (Calc.first_positive _ _) as [price|]; [|exact Hd].
  destruct (nltb _ price); [apply dict_set_NoDup|]; exact Hd.
Qed.

Lemma load_prices_NoDup (w : Calc.workdir) :
  NoDup (keys (Calc.load_prices (A:=A) w)).
Proof.
  assert (forall files prices, NoDup (keys prices) ->
            NoDup (keys (fold_left Calc.load_file files prices))) as Hfold.
  { induction files as [|f files IH]; intros prices Hd; [exact Hd|].
    simpl. apply IH, load_file_NoDup, Hd. }
  unfold Calc.load_prices.
  destruct (Calc.combined_prices w) as [items|].
  - pose proof (load_combined_NoDup items [] (NoDup_nil _)) as Hc.
    destruct (Calc.load_combined items []); [|exact Hc].
    apply Hfold, NoDup_nil.
  - apply Hfold, NoDup_nil.
Qed.

Lemma nc_providers_NoDup (prices : dict A) :
  NoDup (keys prices) -> NoDup (map fst (Calc.nc_providers prices)).
Proof.
  unfold Calc.nc_providers, keys.
  induction prices as [|[p v] prices IH]; intros Hd; [constructor|].
  inversion Hd as [|? ? Hnot Hrest]; subst. simpl.
  destruct (negb _ && _ && _); [|apply IH, Hrest].
  simpl. constructor; [|apply IH, Hrest].
  intros HIn. apply Hnot. apply in_map_iff in HIn as [[p' v'] [E HIn]].
  apply filter_In in HIn as [HIn _]. simpl in E. subst p'.
  apply in_map_iff. exists (p, v'). split; [reflexivity | exact HIn].
Qed.

End LoaderKeys.

(** ** The neocloud component in exact arithmetic *)

Lemma raw_weight_of_pos (p : string) : 0 < Calc.raw_weight_of (A:=Q) p.
Proof.
  unfold Calc.raw_weight_of, keys, Calc.neocloud_weights. simpl.
  repeat match goal with
         | |- context [if contains ?a ?b then _ else _] =>
             destruct (contains a b)
         end; vm_compute; reflexivity.
Qed.

Lemma raw_total_pos (l : list (string * Q)) : l <> [] -> 0 < raw_total l.
Proof.
  assert (forall l', 0 <= raw_total l') as Hnonneg.
  { induction l' as [|pp l' IH]; [discriminate|].
    unfold raw_total in *. simpl.
    pose proof (raw_weight_of_pos (fst pp)). lra. }
  destruct l as [|pp l]; [congruence|]. intros _.
  pose proof (Hnonneg l) as Hl. unfold raw_total in *. simpl.
  pose proof (raw_weight_of_pos (fst pp)). lra.
Qed.

Lemma nc_fold_collect (l : list (string * Q)) (u : Q) (d : dict (Calc.nc_entry Q)) :
  NoDup (keys d ++ map fst l) ->
  exists u', fold_left Calc.nc_step l (u, d) = (u', (d ++ map nc_entry_of l)%list)
             /\ u' == u + raw_total l.
Proof.
  revert u d. induction l as [|[p v] l IH]; intros u d Hd.
  - exists u. simpl. rewrite app_nil_r. split; [reflexivity|].
    unfold raw_total. simpl. ring.
  - simpl in Hd. simpl fold_left.
    rewrite dict_set_fresh.
    + change (p, {| Calc.price := v; Calc.raw_weight := Calc.raw_weight_of p |})
        with (nc_entry_of (p, v)).
      destruct (IH (u + Calc.raw_weight_of p)
                   (d ++ [nc_entry_of (p, v)])%list) as [u' [E Hu']].
      { unfold keys in *. rewrite map_app, <- app_assoc. exact Hd. }
      exists u'. split.
      * rewrite E, <- app_assoc. reflexivity.
      * rewrite Hu'. unfold raw_total. simpl. ring.
    + apply NoDup_remove_2 in Hd. intros HIn. apply Hd.
      apply in_or_app. left. exact HIn.
Qed.

Lemma nc_collect_spec (prices : dict Q) :
  NoDup (keys prices) ->
  snd (Calc.nc_collect prices) = map nc_entry_of (Calc.nc_providers prices)
  /\ fst (Calc.nc_collect prices) == raw_total (Calc.nc_providers prices).
Proof.
  intros Hd. unfold Calc.nc_collect.
  destruct (nc_fold_collect (Calc.nc_providers prices) (Calc.int 0) [])
    as [u' [E Hu']].
  { simpl. apply nc_providers_NoDup, Hd. }
  unfold dict in *. rewrite E. simpl. split; [reflexivity|].
  rewrite Hu'. unfold Calc.int. simpl. ring.
Qed.

Lemma nc_lines_spec (used : Q) (l : list (string * Q)) :
  ~ used == 0 ->
  Calc.nc_lines used (map nc_entry_of l) = Ok (map (nc_line_of used) l).
Proof.
  intros Hused. induction l as [|pp l IH]; [reflexivity|].
  simpl. unfold Calc.py_div. simpl niszero.
  destruct (Qeq_bool used 0) eqn:E; [apply Qeq_bool_iff in E; contradiction|].
  simpl. rewrite IH. reflexivity.
Qed.



(** ** The hyperscaler component in exact arithmetic *)

Lemma normalize_hyperscalers :
  map Calc.normalize_provider_name Calc.hyperscalers = Calc.hyperscalers.
Proof. vm_compute. reflexivity. Qed.

Lemma hs_step_absent {A : Type} `{Number A} (prices : dict A)
      (st : Calc.hs_state A) (hs : string) :
  Calc.truthy (Calc.find_price prices (Calc.normalize_provider_name hs)) = false ->
  Calc.hs_step prices st hs = st.
Proof.
  intros Hno. destruct st as [[s u] d]. unfold Calc.hs_step.
  rewrite Hno. reflexivity.
Qed.

Lemma hs_step_present {A : Type} `{Number A} (prices : dict A)
      (s u : A) (d : dict (Calc.hs_entry A)) (hs : string) (p : A) :
  Calc.find_price prices (Calc.normalize_provider_name hs) = Some p ->
  Calc.truthy (Some p) = true ->
  Calc.hs_step prices (s, u, d) hs
  = (nadd s (Calc.contribution (Calc.hs_entry_of hs p)),
     nadd u (Calc.weight (Calc.hs_entry_of hs p)),
     dict_set hs (Calc.hs_entry_of hs p) d).
Proof.
  intros Hp Ht. unfold Calc.hs_step. rewrite Hp, Ht. reflexivity.
Qed.

(** While the loop runs over registered hyperscalers, the weight used stays
    non-negative and is zero only if nothing has been added yet. *)
Lemma hs_fold_zero (prices : dict Q) (l : list string) (st : Calc.hs_state Q) :
  Forall (fun hs => 0 < Calc.get_or hs Calc.hyperscaler_weights (0 # 1)) l ->
  0 <= snd (fst st) ->
  (snd (fst st) == 0 -> fst (fst st) = 0 /\ snd st = []) ->
  0 <= snd (fst (fold_left (Calc.hs_step prices) l st))
  /\ (snd (fst (fold_left (Calc.hs_step prices) l st)) == 0 ->
      fst (fst (fold_left (Calc.hs_step prices) l st)) = 0
      /\ snd (fold_left (Calc.hs_step prices) l st) = []).
Proof.
  revert st. induction l as [|hs l IH]; intros st Hl Hu Hz; [split; assumption|].
  inversion Hl as [|? ? Hw Hl']; subst. simpl fold_left.
  destruct st as [[s u] d]. simpl in Hu, Hz.
  destruct (Calc.truthy (Calc.find_price prices (Calc.normalize_provider_name hs)))
    eqn:Ht.
  - destruct (Calc.find_price prices (Calc.normalize_provider_name hs))
      as [p|] eqn:Hp; [|discriminate].
    rewrite (hs_step_present prices s u d hs p Hp Ht).
    apply IH; [exact Hl' | |]; simpl.
    + lra.
    + intros Hzero. exfalso. lra.
  - rewrite hs_step_absent by exact Ht. apply IH; assumption.
Qed.

Lemma hs_loop_zero (prices : dict Q) :
  hs_weight_used prices == 0 ->
  hs_weighted_sum prices = 0 /\ snd (Calc.hs_loop prices) = [].
Proof.
  intros Hzero.
  destruct (hs_fold_zero prices Calc.hyperscalers (Calc.int 0, Calc.int 0, []))
    as [_ Hz].
  - repeat constructor.
  - simpl. discriminate.
  - intros _. split; reflexivity.
  - apply Hz. exact Hzero.
Qed.

Lemma normalize_hs_total (s w : Q) : exists v, Calc.normalize_hs s w = Ok v.
Proof.
  unfold Calc.normalize_hs, Calc.py_div.
  destruct (nltb (Calc.int 0) w) eqn:Hlt; simpl; [|eexists; reflexivity].
  destruct (Q_ltb w _); simpl; [|eexists; reflexivity].
  destruct (Qeq_bool w 0) eqn:E; [|eexists; reflexivity].
  exfalso. apply Qeq_bool_iff in E.
  unfold Calc.int in Hlt. simpl in Hlt. unfold Q_ltb in Hlt.
  apply negb_true_iff in Hlt.
  assert (Qle_bool w 0 = true) as C by (apply Qle_bool_iff; lra).
  congruence.
Qed.

(** In exact arithmetic: with [0 < hs_weight_used < 1] the hyperscaler
    sum is multiplied by [1 / hs_weight_used]; with [hs_weight_used = 0] the
    sum is still 0 and is returned as it is; no run of the step divides by
    zero; and when AWS (weight 0.45) is the only hyperscaler present, the
    renormalized sum is the one a weight of 1.0 would give: effective price
    * 1.0 * 0.65. *)
Theorem hyperscaler_renormalization :
  (forall s w : Q, 0 < w -> w < 1 ->
      Calc.normalize_hs s w = Ok (s * (1 / w)))
  /\ (forall prices : dict Q,
         hs_weight_used prices == 0 ->
         hs_weighted_sum prices = 0
         /\ Calc.normalize_hs (hs_weighted_sum prices) (hs_weight_used prices)
            = Ok 0)
  /\ (forall s w : Q, exists v, Calc.normalize_hs s w = Ok v)
  /\ (forall (prices : dict Q) (p : Q),
         Calc.find_price prices "AWS" = Some p ->
         Calc.truthy (Some p) = true ->
         Calc.truthy (Calc.find_price prices "Azure") = false ->
         Calc.truthy (Calc.find_price prices "GCP") = false ->
         hs_weight_used prices == 0.45
         /\ exists v,
             Calc.normalize_hs (hs_weighted_sum prices) (hs_weight_used prices)
             = Ok v
             /\ v == Calc.effective_price p 0.44 * 1.0 * 0.65).
Proof.
  split; [|split; [|split]].
  - intros s w Hlo Hhi. unfold Calc.normalize_hs, Calc.py_div, Calc.int.
    simpl. unfold Q_ltb.
    assert (Qle_bool w 0 = false) as ->.
    { destruct (Qle_bool w 0) eqn:E; [|reflexivity].
      apply Qle_bool_iff in E. lra. }
    assert (Qle_bool 1 w = false) as ->.
    { destruct (Qle_bool 1 w) eqn:E; [|reflexivity].
      apply Qle_bool_iff in E. lra. }
    assert (Qeq_bool w 0 = false) as ->.
    { destruct (Qeq_bool w 0) eqn:E; [|reflexivity].
      apply Qeq_bool_iff in E. lra. }
    reflexivity.
  - intros prices Hzero.
    destruct (hs_loop_zero prices Hzero) as [Hz _]. split; [exact Hz|].
    rewrite Hz. unfold Calc.normalize_hs, Calc.int. simpl. unfold Q_ltb.
    assert (Qle_bool (hs_weight_used prices) 0 = true) as ->.
    { apply Qle_bool_iff. lra. }
    reflexivity.
  - apply normalize_hs_total.
  - intros prices p Haws Htrue Hazure Hgcp.
    assert (Calc.hs_loop prices
            = (0 + Calc.contribution (Calc.hs_entry_of "AWS" p),
               0 + Calc.weight (Calc.hs_entry_of (A:=Q) "AWS" p),
               [("AWS", Calc.hs_entry_of "AWS" p)])) as Hloop.
    { change (Calc.hs_loop prices)
        with (Calc.hs_step prices
                (Calc.hs_step prices
                   (Calc.hs_step prices (Calc.int 0, Calc.int 0, []) "AWS")
                   "Azure") "GCP").
      rewrite (hs_step_present prices _ _ _ "AWS" p Haws Htrue).
      rewrite (hs_step_absent prices _ "Azure" Hazure).
      rewrite (hs_step_absent prices _ "GCP" Hgcp).
      reflexivity. }
    unfold hs_weight_used, hs_weighted_sum. rewrite Hloop. simpl fst. simpl snd.
    split; [vm_compute; reflexivity|].
    eexists. split; [reflexivity|].
    unfold Calc.effective_price, Calc.int. simpl.
    unfold Calc.discount_of, Calc.get_or, Calc.discounted_weight,
      Calc.full_price_weight, Calc.hyperscaler_total_weight. simpl.
    field.
Qed.

(** ** The durable store behind the gate *)

(** C5.  When the gate rejects the new price, [push_to_supabase] returns
    [False] and leaves the store as it was: no index row and no provider row
    is written, whatever the environment and the service would answer. *)
Theorem rejected_price_writes_nothing {A : Type} `{Number A}
        (env : Push.world) (db : Push.store A) (data : Push.index_data A)
        (new_price : A) :
  Push.idx_final_index_price data = Some new_price ->
  Push.price_accepted new_price (Push.previous_price db) = false ->
  Push.push_to_supabase env db data = (false, db).
Proof.
  intros Hprice Hgate. unfold Push.push_to_supabase.
  rewrite Hprice, Hgate. simpl.
  destruct (Push.credentials env), (Push.library_installed env),
    (Push.select_succeeds env); reflexivity.
Qed.

(** Whatever a run appends to the index table is one row that carries the
    validated price. *)
Lemma push_index_rows {A : Type} `{Number A}
      (env : Push.world) (db : Push.store A) (data : Push.index_data A) :
  Push.t4_index_prices (snd (Push.push_to_supabase env db data))
  = Push.t4_index_prices db
    /\ fst (Push.push_to_supabase env db data) = false
  \/ exists new_price row,
      Push.idx_final_index_price data = Some new_price
      /\ Push.price_accepted new_price (Push.previous_price db) = true
      /\ Push.index_price row = new_price
      /\ Push.t4_index_prices (snd (Push.push_to_supabase env db data))
         = (Push.t4_index_prices db ++ [row])%list.
Proof.
  unfold Push.push_to_supabase.
  destruct (Push.credentials env); simpl; [|left; split; reflexivity].
  destruct (Push.library_installed env); simpl; [|left; split; reflexivity].
  destruct (Push.select_succeeds env); simpl; [|left; split; reflexivity].
  destruct (Push.idx_final_index_price data) as [new_price|];
    [|left; split; reflexivity].
  destruct (Push.price_accepted new_price (Push.previous_price db)) eqn:Hgate;
    simpl; [|left; split; reflexivity].
  destruct (Push.index_insert env); try (left; split; reflexivity).
  right.
  exists new_price,
    {| Push.id := Push.next_id db;
       Push.row_timestamp := Push.idx_timestamp data;
       Push.index_price := new_price;
       Push.hyperscaler_component := Push.idx_hyperscaler data;
       Push.neocloud_component := Push.idx_neocloud data;
       Push.metadata_hyperscalers := Push.idx_hyperscalers data;
       Push.metadata_neoclouds := Push.idx_neoclouds data |}.
  split; [reflexivity|]. split; [exact Hgate|]. split; [reflexivity|].
  destruct (Push.hyperscaler_records _ _ _) as [hs_rows|]; [|reflexivity].
  destruct (hs_rows ++ _)%list; [reflexivity|].
  destruct (Push.provider_insert_succeeds env); reflexivity.
Qed.

(** ** Runs without usable data *)





(** ** Price strings *)

Lemma parse_price_no_token {A : Type} `{Number A} (price_str : string) :
  Calc.re_search_price price_str = None ->
  Calc._parse_price (A:=A) price_str = Ok (nlit 0 1).
Proof. intros Hnone. unfold Calc._parse_price. rewrite Hnone. reflexivity. Qed.

(** A price string with neither digit nor dot leaves the prices as they
    are and the loop goes on. *)
Lemma load_combined_skips_no_token (prov price_val : string)
      (rest : list (string * string)) (prices : dict Q) :
  Calc.re_search_price price_val = None ->
  Calc.load_combined ((prov, price_val) :: rest) prices
  = Calc.load_combined rest prices.
Proof.
  intros Hnone. simpl. rewrite (parse_price_no_token price_val Hnone).
  reflexivity.
Qed.

(** C7, evaluated.  ["$0.55/hr"] parses to 0.55 and a string without digit
    or dot parses to 0.0, which the loader drops; a string whose first run
    of digits and dots is not a number, such as ["N/A."] or
    ["approx. $0.55/hr"], makes [_parse_price] raise [ValueError], and in
    the combined file that ends the loading loop: the later AWS price is
    lost with it. *)
Theorem parse_price_dot_token_raises :
  Calc._parse_price (A:=Q) "$0.55/hr" = Ok 0.55
  /\ Calc._parse_price (A:=Q) "N/A" = Ok 0
  /\ Calc.load_combined (A:=Q) [("Vast.ai", "N/A"); ("AWS", "$0.55/hr")] []
     = [("AWS", 0.55)]
  /\ Calc._parse_price (A:=Q) "N/A." = Raise ValueError
  /\ Calc._parse_price (A:=Q) "approx. $0.55/hr" = Raise ValueError
  /\ Calc.load_combined (A:=Q) [("Vast.ai", "N/A."); ("AWS", "$0.55/hr")] []
     = []
  /\ Calc.calculate_index (A:=Q) "2026-01-01 00:00:00" dotted_combined
     = Ok None.
Proof. repeat split; vm_compute; reflexivity. Qed.

(** ** Concrete runs *)


Lemma hyperscaler_renormalization_witness :
  hs_weight_used [("AWS", 1)] == 0.45
  /\ exists v,
      Calc.normalize_hs (hs_weighted_sum [("AWS", 1)]) (hs_weight_used [("AWS", 1)])
      = Ok v
      /\ v == Calc.effective_price 1 0.44 * 1.0 * 0.65.
Proof.
  apply (proj2 (proj2 (proj2 hyperscaler_renormalization)) [("AWS", 1)] 1);
    vm_compute; reflexivity.
Defined.

(** In binary64, AWS alone at 1.00 gives 0.4212000000000002 after the
    renormalization where a weight of 1.0 gives 0.4212000000000001: the two
    agree to within 1e-15, not to the last bit. *)
Lemma hyperscaler_renormalization_binary64 :
  Calc.components [("AWS", B64.lit 1 1)]
  = Ok (B64.lit 4212000000000002 10000000000000000, B64.lit 0 1)
  /\ nmul (nmul (Calc.effective_price (B64.lit 1 1) (B64.lit 44 100))
                (B64.lit 1 1))
          (B64.lit 65 100)
     = B64.lit 4212000000000001 10000000000000000
  /\ PrimFloat.ltb
       (PrimFloat.sub (B64.lit 4212000000000002 10000000000000000)
                      (B64.lit 4212000000000001 10000000000000000))
       (B64.lit 1 1000000000000000) = true.
Proof. repeat split; vm_compute; reflexivity. Qed.

Lemma rejected_price_writes_nothing_witness :
  Push.push_to_supabase live_world (store_at 0.50) (index_at 0.61)
  = (false, store_at 0.50).
Proof.
  apply (rejected_price_writes_nothing live_world (store_at 0.50) (index_at 0.61) 0.61);
    reflexivity.
Defined.

(** The golden run in binary64: the published price is 0.47, the
    components are 0.4235 and 0.042. *)
Lemma golden_run_binary64 :
  exists r : Calc.report B64.float,
    Calc.calculate_index "2026-01-01 00:00:00" golden = Ok (Some r)
    /\ Calc.final_index_price r = B64.lit 47 100
    /\ Calc.hyperscaler r = B64.lit 4235 10000
    /\ Calc.neocloud r = B64.lit 42 1000.
Proof. eexists. split; [vm_compute; reflexivity|]. repeat split. Qed.

(** In binary64 the normalized weights of seven neoclouds add up to the
    float right below 1.0: the sum is 1.0 up to rounding only. *)
Lemma neocloud_weights_binary64 :
  exists lines : list (Calc.nc_line B64.float),
    Calc.redistribute (fst (Calc.nc_collect seven_neoclouds))
                      (snd (Calc.nc_collect seven_neoclouds)) = Ok lines
    /\ fold_left PrimFloat.add (map (@Calc.norm_weight B64.float) lines)
                 (B64.lit 0 1)
       = PrimFloat.next_down (B64.lit 1 1).
Proof. eexists. split; vm_compute; reflexivity. Qed.

(** * Further properties of the code *)

(** ** [_parse_price]: which strings parse, and to what *)

Lemma digit_is_not_dot (c : ascii) : is_digit c = true -> Ascii.eqb c "." = false.
Proof.
  intros Hd. destruct (Ascii.eqb_spec c ".") as [E|NE]; [|reflexivity].
  subst c. discriminate Hd.
Qed.

Lemma price_char_cases (c : ascii) :
  Calc.is_price_char c = true ->
  (is_digit c = true /\ Ascii.eqb c "." = false)
  \/ (is_digit c = false /\ Ascii.eqb c "." = true).
Proof.
  unfold Calc.is_price_char. intros Hc.
  destruct (is_digit c) eqn:Hd.
  - left. split; [reflexivity | apply digit_is_not_dot, Hd].
  - right. split; [reflexivity | exact Hc].
Qed.

Lemma digits_value_some (s : string) :
  all_digits s = true -> forall acc, exists m, Calc.digits_value acc s = Some m.
Proof.
  induction s as [|c s IH]; simpl; intros Hs acc; [eexists; reflexivity|].
  apply andb_true_iff in Hs as [Hc Hs]. rewrite Hc. apply IH, Hs.
Qed.

Lemma digits_value_none (s : string) :
  all_digits s = false -> forall acc, Calc.digits_value acc s = None.
Proof.
  induction s as [|c s IH]; simpl; intros Hs acc; [discriminate|].
  destruct (is_digit c); [apply IH, Hs | reflexivity].
Qed.

Lemma all_digits_app (a b : string) :
  all_digits (a ++ b) = all_digits a && all_digits b.
Proof.
  induction a as [|c a IH]; simpl; [reflexivity|].
  rewrite IH, andb_assoc. reflexivity.
Qed.

Lemma has_digit_app (a b : string) :
  has_digit (a ++ b) = has_digit a || has_digit b.
Proof.
  induction a as [|c a IH]; simpl; [reflexivity|].
  rewrite IH, orb_assoc. reflexivity.
Qed.

Lemma all_digits_has_digit (s : string) :
  all_digits s = true -> (String.length s =? 0)%nat = negb (has_digit s).
Proof.
  destruct s as [|c s]; simpl; [reflexivity|].
  intros Hs. apply andb_true_iff in Hs as [Hc _]. rewrite Hc. reflexivity.
Qed.

Lemma all_digits_no_dot (s : string) :
  all_price_chars s = true -> all_digits s = (count_dots s =? 0)%nat.
Proof.
  induction s as [|c s IH]; simpl; [reflexivity|].
  intros Hs. apply andb_true_iff in Hs as [Hc Hs].
  destruct (price_char_cases c Hc) as [[Hd Hdot]|[Hd Hdot]]; rewrite Hd, Hdot.
  - simpl. apply IH, Hs.
  - reflexivity.
Qed.

Lemma append_empty (s : string) : (s ++ "")%string = s.
Proof. induction s as [|c s IH]; simpl; [reflexivity | rewrite IH; reflexivity]. Qed.

Lemma split_dot_price_chars (tok : string) :
  all_price_chars tok = true ->
  match Calc.split_dot tok with
  | (ip, None) => tok = ip /\ all_digits ip = true /\ count_dots tok = O
  | (ip, Some r) =>
      all_digits ip = true /\ all_price_chars r = true
      /\ count_dots tok = S (count_dots r)
      /\ has_digit tok = has_digit ip || has_digit r
  end.
Proof.
  induction tok as [|c tok IH]; simpl; intros Htok; [repeat split|].
  apply andb_true_iff in Htok as [Hc Htok].
  destruct (price_char_cases c Hc) as [[Hd Hdot]|[Hd Hdot]]; rewrite Hdot.
  - specialize (IH Htok). destruct (Calc.split_dot tok) as [ip [r|]]; simpl.
    + destruct IH as [Hip [Hr [Hcount Hhas]]]. rewrite Hd, Hip, Hhas.
      repeat split; try assumption.
    + destruct IH as [Heq [Hip Hcount]]. rewrite Hd, Hip, <- Heq.
      repeat split; assumption.
  - simpl. rewrite Hd. repeat split. exact Htok.
Qed.

Lemma float_of_token_ok_iff {A : Type} `{Number A} (tok : string) :
  all_price_chars tok = true ->
  (exists x : A, Calc.float_of_token tok = Ok x) <-> well_formed_token tok = true.
Proof.
  intros Htok. pose proof (split_dot_price_chars tok Htok) as Hsplit.
  unfold Calc.float_of_token, well_formed_token.
  destruct (Calc.split_dot tok) as [ip [r|]].
  - destruct Hsplit as [Hip [Hr [Hcount Hhas]]].
    rewrite Hcount, Hhas, <- has_digit_app.
    destruct (all_digits r) eqn:Hdig.
    + assert (all_digits (ip ++ r) = true) as Hall
          by (rewrite all_digits_app, Hip, Hdig; reflexivity).
      destruct (digits_value_some _ Hall 0%Z) as [m ->].
      rewrite (all_digits_has_digit _ Hall).
      rewrite (all_digits_no_dot r Hr) in Hdig. apply Nat.eqb_eq in Hdig.
      rewrite Hdig. simpl.
      destruct (has_digit (ip ++ r)); simpl; split; intros Hx;
        try discriminate; try (destruct Hx; discriminate);
        try reflexivity; eexists; reflexivity.
    + rewrite digits_value_none
        by (rewrite all_digits_app, Hip, Hdig; reflexivity).
      rewrite (all_digits_no_dot r Hr) in Hdig. apply Nat.eqb_neq in Hdig.
      destruct (count_dots r) as [|n]; [congruence|]. simpl.
      split; [intros [x Hx]; discriminate | discriminate].
  - destruct Hsplit as [<- [Hip Hcount]]. rewrite Hcount, append_empty.
    destruct (digits_value_some _ Hip 0%Z) as [m ->].
    rewrite (all_digits_has_digit _ Hip). simpl.
    destruct (has_digit tok); simpl; split; intros Hx;
      try discriminate; try (destruct Hx; discriminate);
      try reflexivity; eexists; reflexivity.
Qed.

Lemma price_run_chars (s : string) : all_price_chars (Calc.price_run s) = true.
Proof.
  induction s as [|c s IH]; simpl; [reflexivity|].
  destruct (Calc.is_price_char c) eqn:Hc; simpl; [|reflexivity].
  rewrite Hc, IH. reflexivity.
Qed.

Lemma re_search_price_chars (s tok : string) :
  Calc.re_search_price s = Some tok -> all_price_chars tok = true.
Proof.
  induction s as [|c s IH]; simpl; [discriminate|].
  destruct (Calc.is_price_char c) eqn:Hc; [|exact IH].
  intros E. inversion E; subst tok. simpl. rewrite Hc, price_run_chars.
  reflexivity.
Qed.

Lemma price_run_token (tok suffix : string) :
  all_price_chars tok = true -> ends_token suffix = true ->
  Calc.price_run (tok ++ suffix) = tok.
Proof.
  intros Htok Hsuf. induction tok as [|c tok IH]; simpl.
  - destruct suffix as [|c s]; [reflexivity|]. simpl in *.
    apply negb_true_iff in Hsuf. rewrite Hsuf. reflexivity.
  - simpl in Htok. apply andb_true_iff in Htok as [Hc Htok].
    rewrite Hc, IH by exact Htok. reflexivity.
Qed.

Lemma re_search_price_token (pre tok suffix : string) :
  no_price_char pre = true -> tok <> EmptyString ->
  all_price_chars tok = true -> ends_token suffix = true ->
  Calc.re_search_price (pre ++ tok ++ suffix) = Some tok.
Proof.
  intros Hpre Hne Htok Hsuf. induction pre as [|c pre IH]; simpl.
  - destruct tok as [|c tok]; [congruence|]. simpl in *.
    apply andb_true_iff in Htok as [Hc Htok].
    rewrite Hc, price_run_token by assumption. reflexivity.
  - simpl in Hpre. apply andb_true_iff in Hpre as [Hc Hpre].
    apply negb_true_iff in Hc. rewrite Hc. apply IH, Hpre.
Qed.

(** X1.  [_parse_price] reads the first maximal run of digits and dots and
    nothing else: text before it without digit or dot and text after it are
    ignored, and the result is [float] of that run. *)
Theorem parse_price_first_token {A : Type} `{Number A} (pre tok suffix : string) :
  no_price_char pre = true -> tok <> EmptyString ->
  all_price_chars tok = true -> ends_token suffix = true ->
  Calc._parse_price (A:=A) (pre ++ tok ++ suffix) = Calc.float_of_token tok.
Proof.
  intros Hpre Hne Htok Hsuf. unfold Calc._parse_price.
  rewrite re_search_price_token by assumption. reflexivity.
Qed.

Lemma parse_price_first_token_witness :
  Calc._parse_price (A:=Q) ("from $" ++ "0.55" ++ "/hr, was $0.60")
  = Calc.float_of_token "0.55".
Proof.
  apply (parse_price_first_token (A:=Q) "from $" "0.55" "/hr, was $0.60");
    [reflexivity | discriminate | reflexivity | reflexivity].
Defined.

(** X2.  [_parse_price] returns a number exactly when the string has no
    digit or dot at all (then 0.0) or when its first run of digits and dots
    has at most one dot and at least one digit; on every other string it
    raises. *)
Theorem parse_price_ok_iff {A : Type} `{Number A} (price_str : string) :
  (exists x : A, Calc._parse_price price_str = Ok x)
  <-> match Calc.re_search_price price_str with
      | Some tok => well_formed_token tok = true
      | None => True
      end.
Proof.
  unfold Calc._parse_price.
  destruct (Calc.re_search_price price_str) as [tok|] eqn:Hsearch.
  - apply float_of_token_ok_iff. apply (re_search_price_chars _ _ Hsearch).
  - split; [trivial | intros _; eexists; reflexivity].
Qed.

Lemma digits_value_nonneg (s : string) (acc m : Z) :
  (0 <= acc)%Z -> Calc.digits_value acc s = Some m -> (0 <= m)%Z.
Proof.
  revert acc. induction s as [|c s IH]; cbn [Calc.digits_value]; intros acc Hacc Hm.
  - inversion Hm; subst. exact Hacc.
  - destruct (is_digit c); [|discriminate].
    apply IH in Hm; [exact Hm | lia].
Qed.

(** X3.  A parsed price is never negative: the pattern has no sign, so the
    loader's [price > 0] test only ever removes zeros. *)
Theorem parse_price_nonneg (price_str : string) (x : Q) :
  Calc._parse_price price_str = Ok x -> 0 <= x.
Proof.
  unfold Calc._parse_price, Calc.float_of_token.
  destruct (Calc.re_search_price price_str) as [tok|].
  - destruct (Calc.split_dot tok) as [ip rest].
    destruct (Calc.digits_value 0 _) as [m|] eqn:Hm; [|discriminate].
    destruct (_ =? 0)%nat; [discriminate|].
    intros E. inversion E; subst x. simpl.
    apply digits_value_nonneg in Hm; [|lia].
    unfold Qle. simpl. lia.
  - intros E. inversion E; subst x. discriminate.
Qed.

Lemma parse_price_nonneg_witness : (0:Q) <= 0.55.
Proof.
  apply (parse_price_nonneg "$0.55/hr" 0.55). reflexivity.
Defined.

(** ** The loader *)

Section LoaderFacts.
Context {A : Type} `{Number A}.

Lemma load_combined_positive (items : list (string * string)) (prices : dict A) :
  (forall k v, In (k, v) prices -> nltb (Calc.int 0) v = true) ->
  forall k v, In (k, v) (Calc.load_combined items prices) ->
              nltb (Calc.int 0) v = true.
Proof.
  revert prices. induction items as [|[prov s] items IH]; intros prices Hpos;
    [exact Hpos|].
  simpl. destruct (Calc._parse_price s) as [x|]; [|exact Hpos].
  apply IH. destruct (nltb (Calc.int 0) x) eqn:Hx; [|exact Hpos].
  intros k v HIn. apply dict_set_In in HIn as [E|HIn].
  - inversion E; subst. exact Hx.
  - apply (Hpos _ _ HIn).
Qed.

Lemma load_file_positive (prices : dict A) (f : Calc.price_file) :
  (forall k v, In (k, v) prices -> nltb (Calc.int 0) v = true) ->
  forall k v, In (k, v) (Calc.load_file prices f) -> nltb (Calc.int 0) v = true.
Proof.
  intros Hpos. unfold Calc.load_file.
  destruct (_ || _); [exact Hpos|].
  destruct (Calc.content f) as [data|]; [|exact Hpos].
  destruct (Calc.first_positive _ _) as [x|]; [|exact Hpos].
  destruct (nltb (Calc.int 0) x) eqn:Hx; [|exact Hpos].
  intros k v HIn. apply dict_set_In in HIn as [E|HIn].
  - inversion E; subst. exact Hx.
  - apply (Hpos _ _ HIn).
Qed.

Lemma load_files_positive (files : list Calc.price_file) (prices : dict A) :
  (forall k v, In (k, v) prices -> nltb (Calc.int 0) v = true) ->
  forall k v, In (k, v) (fold_left Calc.load_file files prices) ->
              nltb (Calc.int 0) v = true.
Proof.
  revert prices. induction files as [|f files IH]; intros prices Hpos;
    [exact Hpos|].
  simpl. apply IH, load_file_positive, Hpos.
Qed.

(** X4.  Every price the loader returns passed the test [price > 0],
    whichever path produced it. *)
Theorem loaded_prices_positive (w : Calc.workdir) (k : string) (v : A) :
  In (k, v) (Calc.load_prices w) -> nltb (Calc.int 0) v = true.
Proof.
  unfold Calc.load_prices.
  assert (forall k v, In (k, v) (@nil (string * A)) -> nltb (Calc.int 0) v = true)
    as Hnil by (intros ? ? []).
  destruct (Calc.combined_prices w) as [items|].
  - pose proof (load_combined_positive items [] Hnil) as Hc.
    destruct (Calc.load_combined items []) as [|pp prices].
    + apply load_files_positive, Hnil.
    + apply Hc.
  - apply load_files_positive, Hnil.
Qed.

Lemma load_file_aggregate (prices : dict A) (f : Calc.price_file) :
  is_aggregate f = true -> Calc.load_file prices f = prices.
Proof.
  unfold is_aggregate, Calc.load_file. intros ->. reflexivity.
Qed.

(** X5.  Files whose name contains "combined" or "getdeploying" never
    contribute: loading a directory gives what loading it without them
    gives. *)
Theorem aggregate_files_are_ignored (files : list Calc.price_file) :
  Calc.load_from_individual_files (A:=A) files
  = Calc.load_from_individual_files
      (filter (fun f => negb (is_aggregate f)) files).
Proof.
  unfold Calc.load_from_individual_files. generalize (@nil (string * A)).
  induction files as [|f files IH]; intros prices; [reflexivity|].
  simpl. destruct (is_aggregate f) eqn:Hagg; simpl.
  - rewrite load_file_aggregate by exact Hagg. apply IH.
  - apply IH.
Qed.

Lemma load_combined_app (items1 items2 : list (string * string)) (prices : dict A) :
  Forall parses items1 ->
  Calc.load_combined (items1 ++ items2) prices
  = Calc.load_combined items2 (Calc.load_combined items1 prices).
Proof.
  intros Hok. revert prices.
  induction Hok as [|[prov s] items1 [x Hx] _ IH]; intros prices; [reflexivity|].
  simpl in *. rewrite Hx. apply IH.
Qed.

Lemma dict_get_set {V : Type} (k : string) (v : V) (d : dict V) :
  dict_get k (dict_set k v d) = Some v.
Proof.
  induction d as [|[k0 v0] d IH]; simpl.
  - rewrite String.eqb_refl. reflexivity.
  - destruct (String.eqb k k0) eqn:E; simpl.
    + rewrite String.eqb_refl. reflexivity.
    + rewrite E. exact IH.
Qed.

(** X7.  A price string on which [_parse_price] raises ends the loading of
    the combined file: the entries before it are kept, the entry itself and
    all the entries after it are lost, whatever they hold. *)
Theorem combined_stops_at_bad_price (before after : list (string * string))
        (prov price_val : string) (e : exn) :
  Forall parses before ->
  Calc._parse_price (A:=A) price_val = Raise e ->
  Calc.load_combined (before ++ (prov, price_val) :: after) []
  = Calc.load_combined before [].
Proof.
  intros Hbefore Hbad. rewrite load_combined_app by exact Hbefore.
  simpl. rewrite Hbad. reflexivity.
Qed.

End LoaderFacts.

Lemma loaded_prices_positive_witness :
  nltb (Calc.int 0) (12 # 100) = true.
Proof.
  apply (loaded_prices_positive (A:=Q) two_neoclouds "Vast.ai" (12 # 100)).
  vm_compute. left. reflexivity.
Defined.

Lemma aggregate_files_are_ignored_example :
  Calc.load_from_individual_files (A:=Q) three_files
  = [("AWS", 0.53); ("Vastai", 0.12)].
Proof. vm_compute. reflexivity. Qed.

Lemma combined_stops_at_bad_price_witness :
  Calc.load_combined (A:=Q)
    ([("AWS", "$0.53/hr")] ++ ("Vast.ai", "1.2.3") :: [("GCP", "$0.35/hr")]) []
  = Calc.load_combined [("AWS", "$0.53/hr")] [].
Proof.
  apply (combined_stops_at_bad_price (A:=Q) [("AWS", "$0.53/hr")]
           [("GCP", "$0.35/hr")] "Vast.ai" "1.2.3" ValueError).
  - repeat constructor. eexists. vm_compute. reflexivity.
  - reflexivity.
Defined.

(** ** The normaliser and the two categories *)

Lemma canonical_names_fixed :
  forallb (fun '(_, standard) =>
             String.eqb (Calc.normalize_provider_name standard) standard)
          Calc.provider_aliases = true.
Proof. vm_compute. reflexivity. Qed.

(** X8.  Normalising is idempotent: a normalised name is its own
    normal form. *)
Theorem normalize_provider_name_idempotent (name : string) :
  Calc.normalize_provider_name (Calc.normalize_provider_name name)
  = Calc.normalize_provider_name name.
Proof.
  unfold Calc.normalize_provider_name at 2 3.
  rewrite normalize_in_one_pass.
  destruct (find _ Calc.provider_aliases) as [[alias standard]|] eqn:Hfind.
  - apply find_some in Hfind as [HIn _].
    pose proof canonical_names_fixed as Hfixed.
    rewrite forallb_forall in Hfixed. specialize (Hfixed _ HIn). simpl in Hfixed.
    apply String.eqb_eq, Hfixed.
  - unfold Calc.normalize_provider_name.
    rewrite normalize_in_one_pass, Hfind. reflexivity.
Qed.

(** ** The hyperscaler component as a weighted mean *)

Lemma hs_step_by_presence (prices : dict Q) (st : Calc.hs_state Q) (hs : string) :
  Calc.hs_step prices st hs
  = hs_add hs (present prices (Calc.normalize_provider_name hs)) st.
Proof.
  destruct st as [[s u] d]. unfold Calc.hs_step, present, hs_add.
  destruct (Calc.truthy _); [|reflexivity].
  destruct (Calc.find_price prices _); reflexivity.
Qed.

Lemma hs_loop_by_presence (prices : dict Q) :
  Calc.hs_loop prices
  = hs_add "GCP" (present prices "GCP")
      (hs_add "Azure" (present prices "Azure")
         (hs_add "AWS" (present prices "AWS") (0, 0, []))).
Proof.
  change (Calc.hs_loop prices)
    with (Calc.hs_step prices
            (Calc.hs_step prices
               (Calc.hs_step prices (Calc.int 0, Calc.int 0, []) "AWS")
               "Azure") "GCP").
  rewrite !hs_step_by_presence. reflexivity.
Qed.

Lemma normalize_hs_mean (s u : Q) :
  0 <= u -> u <= 1 -> (u == 0 -> s == 0) ->
  exists v, Calc.normalize_hs s u = Ok v /\ v * u == s.
Proof.
  intros Hlo Hhi Hzero. unfold Calc.normalize_hs, Calc.py_div, Calc.int.
  simpl. unfold Q_ltb.
  destruct (Qle_bool u 0) eqn:E0; simpl.
  - apply Qle_bool_iff in E0. exists s. split; [reflexivity|].
    assert (u == 0) as Hu by lra. rewrite (Hzero Hu), Hu. ring.
  - assert (~ u == 0) as Hnz.
    { intros Hu. rewrite <- Qle_bool_iff in Hlo.
      assert (Qle_bool u 0 = true) by (apply Qle_bool_iff; lra). congruence. }
    destruct (Qle_bool 1 u) eqn:E1; simpl.
    + apply Qle_bool_iff in E1. exists s. split; [reflexivity|].
      assert (u == 1) as Hu by lra. rewrite Hu. ring.
    + destruct (Qeq_bool u 0) eqn:Ez; [apply Qeq_bool_iff in Ez; contradiction|].
      simpl. eexists. split; [reflexivity|]. field. exact Hnz.
Qed.

Lemma hs_weight_used_bounds (prices : dict Q) :
  0 <= hs_weight_used prices <= 1.
Proof.
  unfold hs_weight_used. rewrite hs_loop_by_presence.
  destruct (present prices "AWS") as [pa|], (present prices "Azure") as [pz|],
    (present prices "GCP") as [pg|]; simpl; split; vm_compute; discriminate.
Qed.

(** X9.  The hyperscaler weight used is between 0 and 1 and reaches 1
    exactly when AWS, Azure and GCP all have a price; in that case the sum
    is returned without scaling. *)
Theorem hyperscaler_weight_used_range (prices : dict Q) :
  0 <= hs_weight_used prices <= 1
  /\ (hs_weight_used prices == 1
      <-> present prices "AWS" <> None /\ present prices "Azure" <> None
          /\ present prices "GCP" <> None)
  /\ (hs_weight_used prices == 1 ->
      Calc.normalize_hs (hs_weighted_sum prices) (hs_weight_used prices)
      = Ok (hs_weighted_sum prices)).
Proof.
  unfold hs_weight_used, hs_weighted_sum. rewrite hs_loop_by_presence.
  destruct (present prices "AWS") as [pa|], (present prices "Azure") as [pz|],
    (present prices "GCP") as [pg|]; simpl;
    (split; [split; vm_compute; discriminate|]);
    (split; [split; [intros Hone; try (vm_compute in Hone; discriminate Hone);
                     repeat split; discriminate
                    |intros [Ha [Hz Hg]]; try congruence; vm_compute; reflexivity]
            |]);
    intros Hone; try (vm_compute in Hone; discriminate Hone);
    reflexivity.
Qed.

Lemma hyperscaler_weight_used_range_witness :
  Calc.normalize_hs (hs_weighted_sum full_set_prices) (hs_weight_used full_set_prices)
  = Ok (hs_weighted_sum full_set_prices).
Proof.
  apply (proj2 (proj2 (hyperscaler_weight_used_range full_set_prices))).
  vm_compute. reflexivity.
Defined.

Lemma hs_loop_totals (prices : dict Q) :
  hs_weighted_sum prices
  == sumQ (map (fun item => Calc.contribution (snd item)) (snd (Calc.hs_loop prices)))
  /\ hs_weight_used prices
     == sumQ (map (fun item => Calc.weight (snd item)) (snd (Calc.hs_loop prices))).
Proof.
  unfold hs_weight_used, hs_weighted_sum. rewrite hs_loop_by_presence.
  destruct (present prices "AWS") as [pa|], (present prices "Azure") as [pz|],
    (present prices "GCP") as [pg|]; simpl; split; ring.
Qed.

(** In exact arithmetic the hyperscaler component is 0.65 times the mean of
    the effective prices found, weighted by market share: multiplied by the
    weight used it gives back the sum of the recorded contributions, and the
    weight used is the sum of the recorded weights.  The step never
    raises. *)
Theorem hyperscaler_component_is_weighted_mean (prices : dict Q) :
  exists v,
    Calc.normalize_hs (hs_weighted_sum prices) (hs_weight_used prices) = Ok v
    /\ v * hs_weight_used prices
       == sumQ (map (fun item => Calc.contribution (snd item))
                    (snd (Calc.hs_loop prices)))
    /\ hs_weight_used prices
       == sumQ (map (fun item => Calc.weight (snd item))
                    (snd (Calc.hs_loop prices))).
Proof.
  destruct (hs_weight_used_bounds prices) as [Hlo Hhi].
  destruct (hs_loop_totals prices) as [Hsum Hused].
  destruct (normalize_hs_mean (hs_weighted_sum prices) (hs_weight_used prices))
    as [v [Hv Hmean]]; try assumption.
  - intros Hzero. destruct (hs_loop_zero prices Hzero) as [-> _]. reflexivity.
  - exists v. split; [exact Hv|]. split; [|exact Hused].
    rewrite Hmean. exact Hsum.
Qed.

(** ** Loose matching *)

Lemma first_key_containing_In {A : Type} (norm_hs : string) (prices : dict A) (v : A) :
  Calc.first_key_containing norm_hs prices = Some v ->
  exists k, In (k, v) prices /\ contains (lower norm_hs) (lower k) = true.
Proof.
  induction prices as [|[k0 v0] prices IH]; simpl; [discriminate|].
  destruct (contains (lower norm_hs) (lower k0)) eqn:Hc.
  - intros E. inversion E; subst. exists k0. split; [left; reflexivity | exact Hc].
  - intros Hrest. destruct (IH Hrest) as [k [HIn Hk]].
    exists k. split; [right; exact HIn | exact Hk].
Qed.

Lemma dict_get_In {V : Type} (k : string) (v : V) (d : dict V) :
  In (k, v) d -> dict_get k d <> None.
Proof.
  induction d as [|[k0 v0] d IH]; simpl; [intros []|].
  intros [E|HIn].
  - inversion E; subst. rewrite String.eqb_refl. discriminate.
  - destruct (String.eqb k k0); [discriminate | apply IH, HIn].
Qed.

Lemma dict_set_In_same {V : Type} (k : string) (v : V) (d : dict V) :
  In (k, v) (dict_set k v d).
Proof.
  induction d as [|[k0 v0] d IH]; simpl; [left; reflexivity|].
  destruct (String.eqb k k0); [left; reflexivity | right; exact IH].
Qed.

Lemma dict_set_In_other {V : Type} (k k' : string) (v v' : V) (d : dict V) :
  k <> k' -> In (k, v) d -> In (k, v) (dict_set k' v' d).
Proof.
  intros Hne. induction d as [|[k0 v0] d IH]; simpl; [intros []|].
  intros [E|HIn].
  - inversion E; subst. destruct (String.eqb_spec k' k); [congruence|].
    left. reflexivity.
  - destruct (String.eqb k' k0); right; [exact HIn | apply IH, HIn].
Qed.

Lemma is_hs_names (k : string) :
  Calc.is_hs k = true -> k = "AWS" \/ k = "Azure" \/ k = "GCP".
Proof.
  unfold Calc.is_hs. intros Hk. apply existsb_exists in Hk as [hs [HIn Heq]].
  apply String.eqb_eq in Heq. subst k.
  destruct HIn as [<-|[<-|[<-|[]]]]; vm_compute; auto.
Qed.

Lemma hs_loop_records (prices : dict Q) (hs : string) (p : Q) :
  In hs Calc.hyperscalers -> present prices hs = Some p ->
  In (hs, Calc.hs_entry_of hs p) (snd (Calc.hs_loop prices)).
Proof.
  intros Hhs Hp. rewrite hs_loop_by_presence.
  destruct Hhs as [<-|[<-|[<-|[]]]]; rewrite Hp;
    destruct (present prices "AWS"), (present prices "Azure"),
      (present prices "GCP"); simpl; auto 6.
Qed.

(** X11.  A price filed under a key that only contains a hyperscaler's name
    (no key is the name itself) is used twice: the hyperscaler loop records
    it for that hyperscaler, and the same key is still counted among the
    neoclouds unless it carries "GetDeploying" or "Average". *)
Theorem loose_match_is_counted_twice (prices : dict Q) (hs : string) (v : Q) :
  In hs Calc.hyperscalers ->
  dict_get hs prices = None ->
  Calc.first_key_containing hs prices = Some v ->
  Calc.truthy (Some v) = true ->
  (exists e, In (hs, e) (snd (Calc.hs_loop prices)) /\ Calc.original e = v)
  /\ exists k,
      In (k, v) prices
      /\ contains (lower hs) (lower k) = true
      /\ (contains "GetDeploying" k = false -> contains "Average" k = false ->
          In (k, v) (Calc.nc_providers prices)).
Proof.
  intros Hhs Hget Hfirst Htruthy. split.
  - exists (Calc.hs_entry_of hs v). split; [|reflexivity].
    apply hs_loop_records; [exact Hhs|].
    assert (Calc.find_price prices hs = Some v) as Hfind.
    { unfold Calc.find_price. rewrite Hget, Hfirst. reflexivity. }
    unfold present. rewrite Hfind, Htruthy. reflexivity.
  - destruct (first_key_containing_In hs prices v Hfirst) as [k [HIn Hk]].
    exists k. split; [exact HIn|]. split; [exact Hk|].
    intros Hgd Havg. unfold Calc.nc_providers. apply filter_In.
    split; [exact HIn|]. rewrite Hgd, Havg.
    destruct (Calc.is_hs k) eqn:His; [|reflexivity].
    exfalso. apply is_hs_names in His.
    assert (k = hs) as ->.
    { destruct Hhs as [<-|[<-|[<-|[]]]];
        destruct His as [-> | [-> | ->]]; try reflexivity;
        vm_compute in Hk; discriminate Hk. }
    apply (dict_get_In _ _ _ HIn). exact Hget.
Qed.

Lemma loose_match_is_counted_twice_witness :
  (exists e, In ("AWS", e) (snd (Calc.hs_loop loose_prices))
             /\ Calc.original e = 53 # 100)
  /\ exists k,
      In (k, 53 # 100) loose_prices
      /\ contains (lower "AWS") (lower k) = true
      /\ (contains "GetDeploying" k = false -> contains "Average" k = false ->
          In (k, 53 # 100) (Calc.nc_providers loose_prices)).
Proof.
  apply (loose_match_is_counted_twice loose_prices "AWS" (53 # 100)).
  - left. reflexivity.
  - reflexivity.
  - reflexivity.
  - reflexivity.
Defined.

(** ** The neocloud component as a weighted mean *)

Lemma nc_sum_fold (used : Q) (l : list (string * Q)) (acc : Q) :
  fold_left (fun a line => a + Calc.nc_contribution line)
            (map (nc_line_of used) l) acc
  == acc + weighted_total l / used * 0.35.
Proof.
  revert acc. unfold weighted_total.
  induction l as [|pp l IH]; intros acc; simpl.
  - unfold Qdiv. ring.
  - rewrite IH. simpl. unfold Qdiv. ring.
Qed.

Lemma weighted_total_bounds (l : list (string * Q)) (lo hi : Q) :
  (forall p v, In (p, v) l -> lo <= v <= hi) ->
  lo * raw_total l <= weighted_total l <= hi * raw_total l.
Proof.
  unfold weighted_total, raw_total.
  induction l as [|[p v] l IH]; intros Hb; simpl.
  - split; lra.
  - destruct (Hb p v (or_introl eq_refl)) as [Hlo Hhi].
    destruct IH as [IHlo IHhi]; [intros p' v' HIn; apply (Hb p' v'); right; exact HIn|].
    pose proof (raw_weight_of_pos p) as Hw.
    assert (lo * Calc.raw_weight_of p <= v * Calc.raw_weight_of p) as H1
        by (apply Qmult_le_compat_r; lra).
    assert (v * Calc.raw_weight_of p <= hi * Calc.raw_weight_of p) as H2
        by (apply Qmult_le_compat_r; lra).
    split; lra.
Qed.

(** In exact arithmetic the neocloud component is 0.35 times a weighted mean
    of the neocloud prices: it lies between 0.35 times the lowest and 0.35
    times the highest of them. *)
Theorem neocloud_component_between (w : Calc.workdir) (lo hi : Q) :
  Calc.nc_providers (Calc.load_prices (A:=Q) w) <> [] ->
  (forall p v, In (p, v) (Calc.nc_providers (Calc.load_prices w)) ->
               lo <= v <= hi) ->
  exists lines : list (Calc.nc_line Q),
    Calc.redistribute (fst (Calc.nc_collect (Calc.load_prices w)))
                      (snd (Calc.nc_collect (Calc.load_prices w))) = Ok lines
    /\ 0.35 * lo <= Calc.nc_sum lines <= 0.35 * hi.
Proof.
  intros Hsome Hbounds.
  set (prices := Calc.load_prices w) in *.
  destruct (nc_collect_spec prices (load_prices_NoDup w)) as [Hdata Hused].
  set (used := fst (Calc.nc_collect prices)) in *.
  pose proof (raw_total_pos _ Hsome) as Hpos.
  assert (0 < used) as Hupos by (rewrite Hused; exact Hpos).
  assert (~ used == 0) as Hnz by lra.
  exists (map (nc_line_of used) (Calc.nc_providers prices)). split.
  - unfold Calc.redistribute.
    assert (nltb (Calc.int 0) used = true) as ->.
    { unfold Calc.int. simpl. unfold Q_ltb.
      destruct (Qle_bool used 0) eqn:E; [|reflexivity].
      apply Qle_bool_iff in E. lra. }
    rewrite Hdata. apply nc_lines_spec, Hnz.
  - unfold Calc.nc_sum. rewrite nc_sum_fold.
    destruct (weighted_total_bounds _ lo hi Hbounds) as [Hlo Hhi].
    rewrite <- Hused in Hlo, Hhi.
    assert (lo <= weighted_total (Calc.nc_providers prices) / used) as H1
        by (apply Qle_shift_div_l; assumption).
    assert (weighted_total (Calc.nc_providers prices) / used <= hi) as H2
        by (apply Qle_shift_div_r; assumption).
    unfold Calc.int. simpl. split; lra.
Qed.

Lemma neocloud_component_between_witness :
  exists lines : list (Calc.nc_line Q),
    Calc.redistribute (fst (Calc.nc_collect (Calc.load_prices two_neoclouds)))
                      (snd (Calc.nc_collect (Calc.load_prices two_neoclouds)))
    = Ok lines
    /\ 0.35 * 0.12 <= Calc.nc_sum lines <= 0.35 * 0.45.
Proof.
  apply (neocloud_component_between two_neoclouds 0.12 0.45).
  - vm_compute. discriminate.
  - intros p v HIn. vm_compute in HIn.
    destruct HIn as [E|[E|[]]]; inversion E; subst; split; vm_compute; discriminate.
Defined.

(** ** No exception leaves the calculator *)

Lemma nc_lines_total (used : Q) (data : dict (Calc.nc_entry Q)) :
  ~ used == 0 -> exists lines, Calc.nc_lines used data = Ok lines.
Proof.
  intros Hnz. induction data as [|[p e] data [lines IH]]; simpl;
    [eexists; reflexivity|].
  unfold Calc.py_div. simpl niszero.
  destruct (Qeq_bool used 0) eqn:E; [apply Qeq_bool_iff in E; contradiction|].
  simpl. rewrite IH. eexists. reflexivity.
Qed.

Lemma redistribute_total (used : Q) (data : dict (Calc.nc_entry Q)) :
  exists lines, Calc.redistribute used data = Ok lines.
Proof.
  unfold Calc.redistribute.
  destruct (nltb (Calc.int 0) used) eqn:Hlt; [|eexists; reflexivity].
  apply nc_lines_total. intros Hzero.
  unfold Calc.int in Hlt. simpl in Hlt. unfold Q_ltb in Hlt.
  apply negb_true_iff in Hlt.
  assert (Qle_bool used 0 = true) as C by (apply Qle_bool_iff; lra).
  congruence.
Qed.

(** X13.  In exact arithmetic [calculate_index] raises on no input: the two
    divisions are guarded, so every run ends with a report or with the
    early return, and the early return happens exactly when nothing was
    loaded. *)
Theorem calculate_index_never_raises (now : string) (w : Calc.workdir) :
  exists o : option (Calc.report Q),
    Calc.calculate_index now w = Ok o
    /\ (o = None <-> Calc.load_prices (A:=Q) w = []).
Proof.
  unfold Calc.calculate_index.
  destruct (Calc.load_prices w) as [|pp prices].
  - exists None. split; [reflexivity | split; reflexivity].
  - unfold Calc.build_report, Calc.components.
    destruct (Calc.hs_loop (pp :: prices)) as [[s u] d].
    destruct (Calc.nc_collect (pp :: prices)) as [used data].
    destruct (normalize_hs_total s u) as [v ->].
    destruct (redistribute_total used data) as [lines ->].
    simpl. eexists. split; [reflexivity|]. split; discriminate.
Qed.

(** ** The gate at and below zero in exact arithmetic *)

(** In exact arithmetic, after a published price of 0 the gate lets only 0
    through, and after a negative one it lets nothing through: the two
    bounds then coincide or cross. *)
Theorem gate_after_zero_or_negative :
  (forall new_price : Q,
      Push.price_accepted new_price (Some 0) = true <-> new_price == 0)
  /\ (forall new_price prev_price : Q,
         prev_price < 0 ->
         Push.price_accepted new_price (Some prev_price) = false).
Proof.
  split.
  - intros new_price. unfold Push.price_accepted.
    rewrite andb_true_iff, !Q_leb_le. simpl. lra.
  - intros new_price prev_price Hneg. unfold Push.price_accepted.
    apply andb_false_iff.
    destruct (Qlt_le_dec new_price prev_price) as [Hlt|Hge].
    + left. destruct (nleb _ new_price) eqn:E; [|reflexivity].
      apply Q_leb_le in E. simpl in E. lra.
    + right. destruct (nleb new_price _) eqn:E; [|reflexivity].
      apply Q_leb_le in E. simpl in E. lra.
Qed.

Lemma gate_after_zero_or_negative_witness :
  Push.price_accepted (A:=Q) 0.47 (Some (-0.05)) = false.
Proof.
  apply (proj2 gate_after_zero_or_negative 0.47 (-0.05)). reflexivity.
Defined.

(** ** What a push leaves in the store *)

Section PushFacts.
Context {A : Type} `{Number A}.

Lemma previous_price_last (rows : list (Push.index_row A)) (row : Push.index_row A)
      (provider_rows : list (Push.provider_row A)) :
  Push.previous_price
    {| Push.t4_index_prices := (rows ++ [row])%list;
       Push.t4_provider_prices := provider_rows |}
  = Some (Push.index_price row).
Proof. unfold Push.previous_price. simpl. rewrite rev_unit. reflexivity. Qed.

(** X15.  The price of a successful push is the reference of the next
    run: reading the previous price from the store afterwards gives it
    back. *)
Theorem pushed_price_is_next_reference
        (env : Push.world) (db : Push.store A) (data : Push.index_data A) :
  fst (Push.push_to_supabase env db data) = true ->
  Push.previous_price (snd (Push.push_to_supabase env db data))
  = Push.idx_final_index_price data.
Proof.
  intros Hpushed.
  destruct (push_index_rows env db data)
    as [[_ Hfalse]|[new_price [row [Hnew [_ [Hrow Hrows]]]]]].
  - rewrite Hfalse in Hpushed. discriminate.
  - rewrite Hnew, <- Hrow. unfold Push.previous_price. rewrite Hrows.
    rewrite rev_unit. reflexivity.
Qed.

Lemma hyperscaler_record_total (index_id : nat) (ts : string)
      (item : string * Calc.hs_entry A) :
  exists r, Push.hyperscaler_record index_id ts item = Ok r
            /\ Push.index_id r = index_id.
Proof.
  destruct item as [name data]. unfold Push.hyperscaler_record, Calc.py_div.
  destruct (niszero (Calc.original data)); simpl; eexists; split; reflexivity.
Qed.

Lemma hyperscaler_records_total (index_id : nat) (ts : string)
      (items : dict (Calc.hs_entry A)) :
  exists rs, Push.hyperscaler_records index_id ts items = Ok rs
             /\ List.length rs = List.length items
             /\ Forall (fun r => Push.index_id r = index_id) rs.
Proof.
  induction items as [|item items [rs [IH [Hlen Hall]]]]; simpl.
  - exists []. repeat split. constructor.
  - destruct (hyperscaler_record_total index_id ts item) as [r [-> Hid]].
    simpl. rewrite IH. simpl. exists (r :: rs).
    split; [reflexivity|]. split; [simpl; congruence|].
    constructor; assumption.
Qed.

Lemma neocloud_records_index (index_id : nat) (ts : string)
      (items : dict (Calc.nc_entry A)) :
  Forall (fun r => Push.index_id r = index_id)
         (map (Push.neocloud_record index_id ts) items).
Proof.
  induction items as [|[name data] items IH]; simpl; constructor;
    [reflexivity | exact IH].
Qed.

(** X16.  Provider rows are written only behind an index row of the same
    run: either the provider table is untouched, or the run returned [True],
    appended one index row, and appended one provider row per hyperscaler
    and per neocloud of the report, each pointing at that index row. *)
Theorem provider_rows_follow_index_row
        (env : Push.world) (db : Push.store A) (data : Push.index_data A) :
  Push.t4_provider_prices (snd (Push.push_to_supabase env db data))
  = Push.t4_provider_prices db
  \/ exists row records,
      fst (Push.push_to_supabase env db data) = true
      /\ Push.t4_index_prices (snd (Push.push_to_supabase env db data))
         = (Push.t4_index_prices db ++ [row])%list
      /\ Push.t4_provider_prices (snd (Push.push_to_supabase env db data))
         = (Push.t4_provider_prices db ++ records)%list
      /\ List.length records
         = (List.length (Push.idx_hyperscalers data)
            + List.length (Push.idx_neoclouds data))%nat
      /\ Forall (fun r => Push.index_id r = Push.id row) records.
Proof.
  unfold Push.push_to_supabase.
  destruct (Push.credentials env); simpl; [|left; reflexivity].
  destruct (Push.library_installed env); simpl; [|left; reflexivity].
  destruct (Push.select_succeeds env); simpl; [|left; reflexivity].
  destruct (Push.idx_final_index_price data) as [new_price|]; [|left; reflexivity].
  destruct (Push.price_accepted new_price (Push.previous_price db)); simpl;
    [|left; reflexivity].
  destruct (Push.index_insert env); try (left; reflexivity).
  destruct (hyperscaler_records_total (Push.next_id db) (Push.idx_timestamp data)
              (Push.idx_hyperscalers data)) as [hs_rows [-> [Hlen Hall]]].
  pose proof (neocloud_records_index (Push.next_id db) (Push.idx_timestamp data)
                (Push.idx_neoclouds data)) as Hnc.
  destruct (hs_rows ++ _)%list as [|r records] eqn:Hrecords; [left; reflexivity|].
  destruct (Push.provider_insert_succeeds env); [|left; reflexivity].
  right. eexists. exists (r :: records).
  split; [reflexivity|]. split; [reflexivity|]. split; [reflexivity|].
  rewrite <- Hrecords. split.
  - rewrite length_app, length_map, Hlen. reflexivity.
  - apply Forall_app. split; assumption.
Qed.

(** X17.  The two inserts are not one unit: when the index row has been
    inserted and the insert of the provider rows fails, the run returns
    [False] and the index row stays in the store without its provider
    rows. *)
Theorem index_row_survives_failed_provider_insert
        (env : Push.world) (db : Push.store A) (data : Push.index_data A)
        (new_price : A) :
  Push.credentials env = true ->
  Push.library_installed env = true ->
  Push.select_succeeds env = true ->
  Push.idx_final_index_price data = Some new_price ->
  Push.price_accepted new_price (Push.previous_price db) = true ->
  Push.index_insert env = Push.Inserted ->
  Push.provider_insert_succeeds env = false ->
  (Push.idx_hyperscalers data <> [] \/ Push.idx_neoclouds data <> []) ->
  exists row,
    Push.index_price row = new_price
    /\ Push.push_to_supabase env db data
       = (false,
          {| Push.t4_index_prices := (Push.t4_index_prices db ++ [row])%list;
             Push.t4_provider_prices := Push.t4_provider_prices db |}).
Proof.
  intros Hc Hl Hs Hprice Hgate Hinsert Hprov Hsome.
  unfold Push.push_to_supabase.
  rewrite Hc, Hl, Hs, Hprice, Hgate, Hinsert, Hprov. simpl.
  destruct (hyperscaler_records_total (Push.next_id db) (Push.idx_timestamp data)
              (Push.idx_hyperscalers data)) as [hs_rows [-> [Hlen _]]].
  eexists. split; [|destruct (hs_rows ++ _)%list eqn:Hrecords; [|reflexivity]].
  - reflexivity.
  - exfalso. apply app_eq_nil in Hrecords as [Hhs Hnc]. subst hs_rows.
    destruct Hsome as [Hsome|Hsome]; apply Hsome.
    + destruct (Push.idx_hyperscalers data); [reflexivity | discriminate Hlen].
    + destruct (Push.idx_neoclouds data); [reflexivity | discriminate Hnc].
Qed.

End PushFacts.

Lemma pushed_price_is_next_reference_witness :
  Push.previous_price
    (snd (Push.push_to_supabase live_world (store_at 0.50) (index_at 0.55)))
  = Some 0.55.
Proof.
  apply (pushed_price_is_next_reference live_world (store_at 0.50) (index_at 0.55)).
  reflexivity.
Defined.

Lemma index_row_survives_failed_provider_insert_witness :
  exists row,
    Push.index_price row = Calc.final_index_price golden_report
    /\ Push.push_to_supabase failing_provider_insert empty_store
                             (Push.of_report golden_report)
       = (false,
          {| Push.t4_index_prices := ([] ++ [row])%list;
             Push.t4_provider_prices := [] |}).
Proof.
  apply (index_row_survives_failed_provider_insert failing_provider_insert
           empty_store (Push.of_report golden_report)
           (Calc.final_index_price golden_report));
    try reflexivity.
  left. discriminate.
Defined.

(** In exact arithmetic, for an entry recorded by the calculator at a
    non-zero price, the discount rate the push derives from the original and the discounted
    price is the registry's discount of that hyperscaler. *)
Theorem discount_rate_is_recovered (index_id : nat) (ts hs : string) (p : Q) :
  ~ p == 0 ->
  exists r,
    Push.hyperscaler_record index_id ts (hs, Calc.hs_entry_of hs p) = Ok r
    /\ Push.discount_rate r == Calc.discount_of hs.
Proof.
  intros Hp. unfold Push.hyperscaler_record, Calc.py_div. simpl.
  destruct (Qeq_bool p 0) eqn:E; [apply Qeq_bool_iff in E; contradiction|].
  simpl. eexists. split; [reflexivity|]. simpl.
  unfold Calc.int. simpl. field. exact Hp.
Qed.

Lemma discount_rate_is_recovered_witness :
  exists r,
    Push.hyperscaler_record 1 "2026-01-01 00:00:00"
                            ("Azure", Calc.hs_entry_of "Azure" 1.50) = Ok r
    /\ Push.discount_rate r == Calc.discount_of "Azure".
Proof.
  apply (discount_rate_is_recovered 1 "2026-01-01 00:00:00" "Azure" 1.50).
  discriminate.
Defined.

(** ** The fixed-point encoding, both ways, in exact arithmetic *)

(** In exact arithmetic every stored integer survives decoding and encoding
    again: the price read from the oracle, sent back, is the same
    integer. *)
Theorem decoded_price_encodes_back (price_raw : Z) :
  Oracle.price_scaled (Oracle.price (A:=Q) price_raw) = Ok price_raw.
Proof.
  unfold Oracle.price_scaled, Oracle.price. simpl. f_equal.
  unfold Q_trunc, Calc.int. simpl.
  change (Z.pos (pow10 Oracle.PRICE_DECIMALS)) with 1000000000000000000%Z.
  apply Z.quot_mul. discriminate.
Qed.

(** In exact arithmetic, for a non-negative price the encoding loses less
    than 10^-18:
    the encoded integer is non-negative and decodes to a price at most the
    one given and within 10^-18 of it. *)
Theorem encoding_error_below_one_unit (price_usd : Q) :
  0 <= price_usd ->
  exists price_scaled : Z,
    Oracle.price_scaled price_usd = Ok price_scaled
    /\ (0 <= price_scaled)%Z
    /\ Oracle.price price_scaled <= price_usd
    /\ price_usd < Oracle.price price_scaled + 1 / inject_Z (10 ^ 18).
Proof.
  intros Hpos. exists (Qfloor (price_usd * inject_Z (10 ^ 18))).
  set (x := price_usd * inject_Z (10 ^ 18)).
  assert (0 <= x) as Hx by (apply Qmult_le_0_compat; [exact Hpos | discriminate]).
  assert (Oracle.price (Qfloor x) == inject_Z (Qfloor x) / inject_Z (10 ^ 18)) as Hprice.
  { unfold Oracle.price. simpl.
    change (pow10 Oracle.PRICE_DECIMALS) with (1000000000000000000%positive).
    unfold Qdiv, Qeq, Qmult, Qinv, inject_Z. simpl. lia. }
  assert (0 < inject_Z (10 ^ 18)) as Hten by reflexivity.
  split; [|split; [|split]].
  - unfold Oracle.price_scaled. simpl. f_equal. apply Q_trunc_floor. exact Hx.
  - change 0%Z with (Qfloor 0). apply Qfloor_resp_le. exact Hx.
  - rewrite Hprice. apply Qle_shift_div_r; [exact Hten|]. apply Qfloor_le.
  - rewrite Hprice.
    pose proof (Qlt_floor x) as Hlt. rewrite inject_Z_plus in Hlt.
    assert (price_usd == x / inject_Z (10 ^ 18)) as Hp.
    { unfold x. field. discriminate. }
    rewrite Hp.
    setoid_replace (inject_Z (Qfloor x) / inject_Z (10 ^ 18) + 1 / inject_Z (10 ^ 18))
      with ((inject_Z (Qfloor x) + inject_Z 1) / inject_Z (10 ^ 18))
      by (field; discriminate).
    apply Qlt_shift_div_l; [exact Hten|].
    setoid_replace (x / inject_Z (10 ^ 18) * inject_Z (10 ^ 18)) with x
      by (field; discriminate).
    exact Hlt.
Qed.

Lemma encoding_error_below_one_unit_witness :
  exists price_scaled : Z,
    Oracle.price_scaled (A:=Q) (1 # 3) = Ok price_scaled
    /\ (0 <= price_scaled)%Z
    /\ Oracle.price price_scaled <= 1 # 3
    /\ 1 # 3 < Oracle.price price_scaled + 1 / inject_Z (10 ^ 18).
Proof. apply (encoding_error_below_one_unit (1 # 3)). discriminate. Defined.

(** ** Fees *)

(** X21.  Whatever the gas price, the priority fee is 1 gwei and the fee
    cap is at least twice the gas price and at least twice the priority
    fee, so the tip never exceeds the cap. *)
Theorem dynamic_fee_covers_tip (gas_price : Z) :
  snd (Updater._build_dynamic_fee gas_price) = 1000000000%Z
  /\ (2 * gas_price <= fst (Updater._build_dynamic_fee gas_price))%Z
  /\ (2 * snd (Updater._build_dynamic_fee gas_price)
      <= fst (Updater._build_dynamic_fee gas_price))%Z
  /\ (gas_price <= 1000000000 ->
      fst (Updater._build_dynamic_fee gas_price) = 2000000000)%Z.
Proof.
  unfold Updater._build_dynamic_fee. simpl fst. simpl snd.
  change (1 * 10 ^ 9)%Z with 1000000000%Z. repeat split; lia.
Qed.

(** ** The update log *)

Lemma last_entries_app {T : Type} (n : nat) (old : list T) (e : T) :
  exists dropped kept,
    old = (dropped ++ kept)%list
    /\ Updater.last_entries (S n) (old ++ [e]) = (kept ++ [e])%list
    /\ List.length kept = Nat.min n (List.length old).
Proof.
  unfold Updater.last_entries. rewrite length_app. simpl.
  replace (List.length old + 1 - S n)%nat with (List.length old - n)%nat by lia.
  exists (firstn (List.length old - n) old), (skipn (List.length old - n) old).
  split; [symmetry; apply firstn_skipn|]. split.
  - rewrite skipn_app.
    replace (List.length old - n - List.length old)%nat with O by lia.
    reflexivity.
  - rewrite length_skipn. lia.
Qed.

(** X22.  The update log is capped at 100 entries and never loses the
    newest one: after [_log_update] the file holds the new entry last,
    preceded by the most recent 99 of the old entries (all of them if there
    were fewer), in their order. *)
Theorem log_keeps_newest_hundred {A : Type} `{Number A}
        (now tx_hash : string) (price_usd : A) (block_number scaled : Z)
        (old : list (Updater.log_entry A)) :
  Oracle.price_scaled price_usd = Ok scaled ->
  exists dropped kept,
    old = (dropped ++ kept)%list
    /\ List.length kept = Nat.min 99 (List.length old)
    /\ Updater._log_update now price_usd tx_hash block_number (Some old) true
       = Ok (Some (kept ++ [{| Updater.log_timestamp := now;
                               Updater.index_price_usd := price_usd;
                               Updater.index_price_scaled := scaled;
                               Updater.tx_hash := tx_hash;
                               Updater.block_number := block_number |}])%list).
Proof.
  intros Hscaled. unfold Updater._log_update. rewrite Hscaled. simpl.
  destruct (last_entries_app 99 old
              {| Updater.log_timestamp := now;
                 Updater.index_price_usd := price_usd;
                 Updater.index_price_scaled := scaled;
                 Updater.tx_hash := tx_hash;
                 Updater.block_number := block_number |})
    as [dropped [kept [Hold [Hlast Hlen]]]].
  exists dropped, kept. split; [exact Hold|]. split; [exact Hlen|].
  rewrite Hlast. reflexivity.
Qed.

Lemma log_keeps_newest_hundred_witness :
  exists dropped kept : list (Updater.log_entry Q),
    [] = (dropped ++ kept)%list
    /\ List.length kept = Nat.min 99 (List.length (@nil (Updater.log_entry Q)))
    /\ Updater._log_update "2026-01-01T00:00:00+00:00" 0.47 "0xabc" 7 (Some []) true
       = Ok (Some (kept ++ [{| Updater.log_timestamp := "2026-01-01T00:00:00+00:00";
                               Updater.index_price_usd := 0.47;
                               Updater.index_price_scaled := 470000000000000000;
                               Updater.tx_hash := "0xabc";
                               Updater.block_number := 7 |}])%list).
Proof.
  apply (log_keeps_newest_hundred (A:=Q) "2026-01-01T00:00:00+00:00" "0xabc"
           0.47 7 470000000000000000 []).
  reflexivity.
Defined.

(** ** The price read from the pipeline's CSV *)

Section CsvFacts.
Context {A : Type} `{Number A}.
Variable float_of_str : string -> option A.


End CsvFacts.


(** ** [main] of the updater *)

Section MainFacts.
Variable float_of_str : string -> option Q.

(** X25.  The run ends with exit code 0 only if it had a private key and a
    registered asset and either was read-only or had its transaction mined;
    the value read back afterwards plays no part: a run whose read-back
    differs from what was sent ends like one whose read-back agrees, with
    the same log. *)
Theorem exit_code_ignores_readback
        (args : Updater.arguments Q) (env : Updater.world)
        (log_file : option (list (Updater.log_entry Q))) (raw : Z) :
  (Updater.exit_code (Updater.main float_of_str args env log_file) = 0%Z
   -> Updater.PRIVATE_KEY env = true /\ Updater.start env = Updater.Ready
      /\ (Updater.read_only args = true
          \/ exists tx_hash block_number,
              Updater.tx env = Updater.TxMined tx_hash block_number))
  /\ Updater.exit_code (Updater.main float_of_str args (with_readback env raw) log_file)
     = Updater.exit_code (Updater.main float_of_str args env log_file)
  /\ option_map (@Updater.log_after Q)
       (Updater.update (Updater.main float_of_str args (with_readback env raw) log_file))
     = option_map (@Updater.log_after Q)
         (Updater.update (Updater.main float_of_str args env log_file)).
Proof.
  unfold Updater.main, with_readback. simpl.
  destruct (Updater.PRIVATE_KEY env); simpl;
    [|split; [discriminate | split; reflexivity]].
  destruct (Updater.start env);
    try (split; [discriminate | split; reflexivity]).
  destruct (Updater.read_only args);
    [split; [intros _; repeat split; left; reflexivity | split; reflexivity]|].
  destruct (match Updater.price args with
            | Some price => Some price
            | None => Updater.read_price_from_csv float_of_str (Updater.csv args)
            end) as [price_usd|];
    [|split; [discriminate | split; reflexivity]].
  destruct (Qle_bool price_usd _);
    [split; [discriminate | split; reflexivity]|].
  unfold Updater.update_price. simpl.
  destruct (Updater.tx env) as [|h b]; simpl;
    [split; [discriminate | split; reflexivity]|].
  split; [|split; reflexivity].
  intros _. repeat split. right. exists h, b. reflexivity.
Qed.

End MainFacts.

(** ** The first push *)

(** X26.  On a store without index rows every report is accepted, whatever
    its price: when the service answers, the push returns [True] and the
    report's price, be it zero, becomes the reference of the next run. *)
Theorem first_push_accepts_any_report {A : Type} `{Number A}
        (env : Push.world) (db : Push.store A) (r : Calc.report A) :
  Push.t4_index_prices db = [] ->
  Push.credentials env = true ->
  Push.library_installed env = true ->
  Push.select_succeeds env = true ->
  Push.index_insert env = Push.Inserted ->
  Push.provider_insert_succeeds env = true ->
  fst (Push.push_to_supabase env db (Push.of_report r)) = true
  /\ Push.previous_price (snd (Push.push_to_supabase env db (Push.of_report r)))
     = Some (Calc.final_index_price r).
Proof.
  intros Hempty Hc Hl Hs Hinsert Hprov.
  unfold Push.push_to_supabase, Push.previous_price.
  rewrite Hc, Hl, Hs, Hinsert, Hprov, Hempty. simpl.
  destruct (hyperscaler_records_total (Push.next_id db) (Calc.timestamp r)
              (Calc.details_hyperscalers r)) as [hs_rows [-> _]].
  destruct (hs_rows ++ _)%list; simpl; split; reflexivity.
Qed.

Lemma first_push_accepts_any_report_witness :
  fst (Push.push_to_supabase live_world empty_store (Push.of_report golden_report))
  = true
  /\ Push.previous_price
       (snd (Push.push_to_supabase live_world empty_store
               (Push.of_report golden_report)))
     = Some (Calc.final_index_price golden_report).
Proof.
  apply (first_push_accepts_any_report live_world empty_store golden_report);
    reflexivity.
Defined.

(** ** Which observations are neoclouds *)

Lemma is_hs_iff (k : string) :
  Calc.is_hs k = true <-> k = "AWS" \/ k = "Azure" \/ k = "GCP".
Proof.
  split; [apply is_hs_names|].
  intros [-> | [-> | ->]]; vm_compute; reflexivity.
Qed.

(** X27.  The neocloud list is what is left of the observations, in their
    order, once the keys AWS, Azure and GCP (exactly these spellings) and
    the keys containing "GetDeploying" or "Average" are taken out. *)
Theorem neocloud_membership {A : Type} (prices : dict A) (k : string) (v : A) :
  In (k, v) (Calc.nc_providers prices)
  <-> In (k, v) prices
      /\ k <> "AWS" /\ k <> "Azure" /\ k <> "GCP"
      /\ contains "GetDeploying" k = false
      /\ contains "Average" k = false.
Proof.
  unfold Calc.nc_providers. rewrite filter_In.
  rewrite !andb_true_iff, !negb_true_iff.
  split.
  - intros [HIn [[His Hgd] Havg]]. repeat split; try assumption;
      intros ->; discriminate His.
  - intros [HIn [Ha [Hz [Hg [Hgd Havg]]]]]. repeat split; try assumption.
    destruct (Calc.is_hs k) eqn:His; [|reflexivity].
    apply is_hs_iff in His. destruct His as [E|[E|E]]; contradiction.
Qed.

(** ** Sign and rounding of the published figures *)

Lemma calculate_index_report {A : Type} `{Number A}
      (now : string) (w : Calc.workdir) (r : Calc.report A) :
  Calc.calculate_index now w = Ok (Some r) ->
  exists hs nc : A,
    Calc.components (Calc.load_prices w) = Ok (hs, nc)
    /\ Calc.final_index_price r = nround (nadd hs nc) 2
    /\ Calc.hyperscaler r = nround hs 4
    /\ Calc.neocloud r = nround nc 4.
Proof.
  unfold Calc.calculate_index. intros Hrun.
  destruct (Calc.load_prices w) as [|pp prices]; [discriminate|].
  unfold Calc.build_report in Hrun.
  destruct (Calc.hs_loop (pp :: prices)) as [[s u] hyperscaler_data].
  destruct (Calc.nc_collect (pp :: prices)) as [used neocloud_data].
  destruct (Calc.components (pp :: prices)) as [[hs nc]|e]; [|discriminate].
  simpl in Hrun. inversion Hrun; subst r. exists hs, nc.
  repeat split; reflexivity.
Qed.

Lemma dict_get_Some_In {V : Type} (k : string) (v : V) (d : dict V) :
  dict_get k d = Some v -> In (k, v) d.
Proof.
  induction d as [|[k0 v0] d IH]; simpl; [discriminate|].
  destruct (String.eqb_spec k k0) as [E|NE].
  - intros Hv. inversion Hv; subst. left. reflexivity.
  - intros Hv. right. apply IH, Hv.
Qed.

Lemma present_In (prices : dict Q) (hs : string) (p : Q) :
  present prices hs = Some p -> exists k, In (k, p) prices.
Proof.
  unfold present, Calc.find_price.
  destruct (Calc.truthy (dict_get hs prices)) eqn:Hexact.
  - rewrite Hexact. intros Hp. exists hs. apply dict_get_Some_In, Hp.
  - destruct (Calc.first_key_containing hs prices) as [v|] eqn:Hloose.
    + destruct (Calc.truthy (Some v)); [|discriminate].
      intros Hp. inversion Hp; subst.
      destruct (first_key_containing_In _ _ _ Hloose) as [k [HIn _]].
      exists k. exact HIn.
    + rewrite Hexact. discriminate.
Qed.

Lemma hs_weighted_sum_nonneg (prices : dict Q) :
  (forall k v, In (k, v) prices -> 0 < v) -> 0 <= hs_weighted_sum prices.
Proof.
  intros Hpos.
  assert (forall hs p, present prices hs = Some p -> 0 < p) as Hpresent.
  { intros hs p Hp. destruct (present_In _ _ _ Hp) as [k HIn]. apply (Hpos _ _ HIn). }
  unfold hs_weighted_sum. rewrite hs_loop_by_presence.
  destruct (present prices "AWS") as [pa|] eqn:Ha;
    destruct (present prices "Azure") as [pz|] eqn:Hz;
    destruct (present prices "GCP") as [pg|] eqn:Hg; simpl;
    try pose proof (Hpresent _ _ Ha); try pose proof (Hpresent _ _ Hz);
    try pose proof (Hpresent _ _ Hg);
    unfold Calc.effective_price, Calc.discount_of, Calc.get_or,
      Calc.discounted_weight, Calc.full_price_weight,
      Calc.hyperscaler_total_weight, Calc.int; simpl; lra.
Qed.

Lemma normalize_hs_nonneg (s u v : Q) :
  0 <= s -> Calc.normalize_hs s u = Ok v -> 0 <= v.
Proof.
  intros Hs. unfold Calc.normalize_hs, Calc.py_div, Calc.int. simpl.
  unfold Q_ltb.
  destruct (Qle_bool u 0) eqn:E0; simpl.
  - intros E. inversion E; subst. exact Hs.
  - destruct (Qle_bool 1 u); simpl; [intros E; inversion E; subst; exact Hs|].
    destruct (Qeq_bool u 0); simpl; [discriminate|].
    intros E. inversion E; subst.
    assert (0 < u) as Hu.
    { destruct (Qlt_le_dec 0 u) as [Hlt|Hge]; [exact Hlt|].
      apply Qle_bool_iff in Hge. congruence. }
    apply Qmult_le_0_compat; [exact Hs|].
    apply Qlt_le_weak. unfold Qdiv. rewrite Qmult_1_l.
    apply Qinv_lt_0_compat, Hu.
Qed.

Lemma nc_fold_entries (prices : dict Q) (l : list (string * Q))
      (st : Q * dict (Calc.nc_entry Q)) :
  (forall k v, In (k, v) l -> 0 < v) ->
  Forall (fun item => 0 < Calc.price (snd item) /\ 0 < Calc.raw_weight (snd item))
         (snd st) ->
  Forall (fun item => 0 < Calc.price (snd item) /\ 0 < Calc.raw_weight (snd item))
         (snd (fold_left Calc.nc_step l st)).
Proof.
  revert st. induction l as [|[p v] l IH]; intros st Hpos Hst; [exact Hst|].
  simpl. apply IH; [intros k v' HIn; apply (Hpos k v'); right; exact HIn|].
  destruct st as [u d]. simpl in *. apply Forall_forall. intros [k e] HIn.
  apply dict_set_In in HIn as [E|HIn].
  - inversion E; subst. simpl. split.
    + apply (Hpos p v). left. reflexivity.
    + apply raw_weight_of_pos.
  - rewrite Forall_forall in Hst. apply (Hst _ HIn).
Qed.

Lemma nc_lines_nonneg (used : Q) (data : dict (Calc.nc_entry Q))
      (lines : list (Calc.nc_line Q)) :
  0 < used ->
  Forall (fun item => 0 < Calc.price (snd item) /\ 0 < Calc.raw_weight (snd item))
         data ->
  Calc.nc_lines used data = Ok lines ->
  Forall (fun line => 0 <= Calc.nc_contribution line) lines.
Proof.
  intros Hused Hdata. revert lines.
  induction Hdata as [|[p e] data [Hp Hw] _ IH]; simpl; intros lines Hlines.
  - inversion Hlines. constructor.
  - unfold Calc.py_div in Hlines. simpl in Hlines.
    destruct (Qeq_bool used 0); [discriminate|]. simpl in Hlines.
    destruct (Calc.nc_lines used data) as [rest|]; [|discriminate].
    simpl in Hlines. inversion Hlines; subst. constructor; [|apply IH; reflexivity].
    simpl. simpl in Hp, Hw.
    apply Qmult_le_0_compat; [|discriminate].
    apply Qmult_le_0_compat; [lra|].
    apply Qlt_le_weak. apply Qlt_shift_div_l; [exact Hused | lra].
Qed.

Lemma nc_sum_nonneg (lines : list (Calc.nc_line Q)) :
  Forall (fun line => 0 <= Calc.nc_contribution line) lines ->
  0 <= Calc.nc_sum lines.
Proof.
  unfold Calc.nc_sum.
  assert (forall acc, 0 <= acc ->
            Forall (fun line => 0 <= Calc.nc_contribution line) lines ->
            0 <= fold_left (fun a l => nadd a (Calc.nc_contribution l)) lines acc)
    as Hfold.
  { induction lines as [|l lines IH]; intros acc Hacc Hall; [exact Hacc|].
    inversion Hall; subst. simpl. apply IH; [simpl in *; lra | assumption]. }
  apply Hfold. discriminate.
Qed.

Lemma components_nonneg (prices : dict Q) (hs nc : Q) :
  (forall k v, In (k, v) prices -> 0 < v) ->
  Calc.components prices = Ok (hs, nc) -> 0 <= hs /\ 0 <= nc.
Proof.
  intros Hpos. unfold Calc.components.
  pose proof (hs_weighted_sum_nonneg prices Hpos) as Hsum.
  unfold hs_weighted_sum in Hsum.
  destruct (Calc.hs_loop prices) as [[s u] d]. simpl in Hsum.
  destruct (Calc.normalize_hs s u) as [v|] eqn:Hv; [|discriminate]. simpl.
  pose proof (nc_fold_entries prices (Calc.nc_providers prices) (Calc.int 0, [])) as Hentries.
  fold (Calc.nc_collect prices) in Hentries.
  destruct (Calc.nc_collect prices) as [used data]. simpl in Hentries.
  unfold Calc.redistribute.
  destruct (nltb (Calc.int 0) used) eqn:Hlt.
  - destruct (Calc.nc_lines used data) as [lines|] eqn:Hlines; [|discriminate].
    simpl. intros E. inversion E; subst. split.
    + apply (normalize_hs_nonneg _ _ _ Hsum Hv).
    + apply nc_sum_nonneg. apply (nc_lines_nonneg used data); [| |exact Hlines].
      * unfold Calc.int in Hlt. simpl in Hlt. unfold Q_ltb in Hlt.
        apply negb_true_iff in Hlt.
        destruct (Qlt_le_dec 0 used) as [H0|H0]; [exact H0|].
        apply Qle_bool_iff in H0. congruence.
      * apply Hentries; [|constructor].
        intros k v HIn. apply (Hpos k v).
        unfold Calc.nc_providers in HIn. apply filter_In in HIn. apply HIn.
  - simpl. intros E. inversion E; subst. split.
    + apply (normalize_hs_nonneg _ _ _ Hsum Hv).
    + discriminate.
Qed.

Lemma round_half_even_nonneg (a : Z) (b : positive) :
  (0 <= a)%Z -> (0 <= round_half_even a b)%Z.
Proof.
  intros Ha. unfold round_half_even.
  assert (0 <= a / Z.pos b)%Z by (apply Z.div_pos; lia).
  destruct (2 * (a mod Z.pos b) ?= Z.pos b)%Z; [destruct (Z.even _)| |]; lia.
Qed.

Lemma Q_round_nonneg (x : Q) (ndigits : nat) : 0 <= x -> 0 <= Q_round x ndigits.
Proof.
  destruct x as [n d]. unfold Q_round, Qle. simpl. intros Hn.
  assert (0 <= round_half_even (n * Z.pos (pow10' ndigits)) d)%Z
    by (apply round_half_even_nonneg; lia).
  lia.
Qed.

Lemma load_prices_positive_Q (w : Calc.workdir) (k : string) (v : Q) :
  In (k, v) (Calc.load_prices w) -> 0 < v.
Proof.
  intros HIn.
  assert (nltb (Calc.int 0) v = true) as Hlt.
  { revert HIn. unfold Calc.load_prices.
    assert (forall k v, In (k, v) (@nil (string * Q)) -> nltb (Calc.int 0) v = true)
      as Hnil by (intros ? ? []).
    destruct (Calc.combined_prices w) as [items|].
    - pose proof (load_combined_positive items [] Hnil) as Hc.
      destruct (Calc.load_combined items []) as [|pp prices].
      + apply load_files_positive, Hnil.
      + apply Hc.
    - apply load_files_positive, Hnil. }
  unfold Calc.int in Hlt. simpl in Hlt. unfold Q_ltb in Hlt.
  apply negb_true_iff in Hlt.
  destruct (Qlt_le_dec 0 v) as [H0|H0]; [exact H0|].
  apply Qle_bool_iff in H0. congruence.
Qed.

(** X28.  In exact arithmetic nothing the calculator writes is negative:
    the index price and both components of every report are at least 0. *)
Theorem report_figures_are_nonnegative (now : string) (w : Calc.workdir)
        (r : Calc.report Q) :
  Calc.calculate_index now w = Ok (Some r) ->
  0 <= Calc.final_index_price r
  /\ 0 <= Calc.hyperscaler r
  /\ 0 <= Calc.neocloud r.
Proof.
  intros Hrun.
  destruct (calculate_index_report now w r Hrun)
    as [hs [nc [Hsums [-> [-> ->]]]]].
  destruct (components_nonneg (Calc.load_prices w) hs nc) as [Hhs Hnc];
    [apply load_prices_positive_Q | exact Hsums |].
  simpl. repeat split; apply Q_round_nonneg; try assumption.
  simpl. lra.
Qed.

Lemma report_figures_are_nonnegative_witness :
  0 <= Calc.final_index_price golden_report
  /\ 0 <= Calc.hyperscaler golden_report
  /\ 0 <= Calc.neocloud golden_report.
Proof.
  apply (report_figures_are_nonnegative "2026-01-01 00:00:00" golden golden_report).
  vm_compute. reflexivity.
Defined.

Lemma round_half_even_error (a : Z) (b : positive) :
  (- Z.pos b <= 2 * (round_half_even a b * Z.pos b - a) <= Z.pos b)%Z.
Proof.
  unfold round_half_even.
  pose proof (Z.div_mod a (Z.pos b) ltac:(lia)) as Hdiv.
  pose proof (Z.mod_pos_bound a (Z.pos b) ltac:(lia)) as Hmod.
  destruct (2 * (a mod Z.pos b) ?= Z.pos b)%Z eqn:Hcmp.
  - apply Z.compare_eq in Hcmp. destruct (Z.even _); nia.
  - rewrite Z.compare_lt_iff in Hcmp. nia.
  - rewrite Z.compare_gt_iff in Hcmp. nia.
Qed.

Lemma Q_round_error (x : Q) (ndigits : nat) :
  x - (1 # (2 * pow10' ndigits)) <= Q_round x ndigits
  /\ Q_round x ndigits <= x + (1 # (2 * pow10' ndigits)).
Proof.
  destruct x as [n d]. unfold Q_round. simpl.
  pose proof (round_half_even_error (n * Z.pos (pow10' ndigits)) d) as Herr.
  set (R := round_half_even (n * Z.pos (pow10' ndigits)) d) in *.
  set (P := pow10' ndigits) in *.
  unfold Qle, Qminus, Qplus, Qopp. simpl.
  rewrite !Pos2Z.inj_mul. split; nia.
Qed.

(** X29.  In exact arithmetic the published price is within half a cent of
    the sum of the two category sums, and each published component within
    0.00005 of its category sum. *)
Theorem report_rounding_error (now : string) (w : Calc.workdir)
        (r : Calc.report Q) :
  Calc.calculate_index now w = Ok (Some r) ->
  exists hs nc : Q,
    Calc.components (Calc.load_prices w) = Ok (hs, nc)
    /\ hs + nc - 0.005 <= Calc.final_index_price r <= hs + nc + 0.005
    /\ hs - 0.00005 <= Calc.hyperscaler r <= hs + 0.00005
    /\ nc - 0.00005 <= Calc.neocloud r <= nc + 0.00005.
Proof.
  intros Hrun.
  destruct (calculate_index_report now w r Hrun)
    as [hs [nc [Hsums [-> [-> ->]]]]].
  exists hs, nc. split; [exact Hsums|]. simpl.
  pose proof (Q_round_error (hs + nc) 2) as [H1 H2].
  pose proof (Q_round_error hs 4) as [H3 H4].
  pose proof (Q_round_error nc 4) as [H5 H6].
  change (1 # 2 * pow10' 2) with (1 # 200) in *.
  change (1 # 2 * pow10' 4) with (1 # 20000) in *.
  repeat split; lra.
Qed.

Lemma report_rounding_error_witness :
  exists hs nc : Q,
    Calc.components (Calc.load_prices golden) = Ok (hs, nc)
    /\ hs + nc - 0.005 <= Calc.final_index_price golden_report <= hs + nc + 0.005
    /\ hs - 0.00005 <= Calc.hyperscaler golden_report <= hs + 0.00005
    /\ nc - 0.00005 <= Calc.neocloud golden_report <= nc + 0.00005.
Proof.
  apply (report_rounding_error "2026-01-01 00:00:00" golden golden_report).
  vm_compute. reflexivity.
Defined.

(** * The code in its own arithmetic

    The statements of this part hold for every [Number], binary64 included,
    or are stated of binary64 itself. *)

(** ** Comparisons and [int()] in binary64 *)

Module B64Lemmas.
Import Floats.

Lemma pos_not_zero (u : float) :
  PrimFloat.ltb PrimFloat.zero u = true -> PrimFloat.eqb u PrimFloat.zero = false.
Proof.
  rewrite ltb_spec, eqb_spec.
  change (Prim2SF PrimFloat.zero) with (S754_zero false).
  destruct (Prim2SF u) as [s| s | | s m e]; try destruct s; cbv; congruence.
Qed.

Lemma between_zero (x : float) :
  PrimFloat.leb PrimFloat.zero x && PrimFloat.leb x PrimFloat.zero
  = PrimFloat.eqb x PrimFloat.zero.
Proof.
  rewrite !leb_spec, eqb_spec.
  change (Prim2SF PrimFloat.zero) with (S754_zero false).
  destruct (Prim2SF x) as [s| s | | s m e]; try destruct s; reflexivity.
Qed.

(** [int(x)] is the exact value of [x] cut towards zero, and raises exactly
    when [x] has no value. *)
Lemma trunc_value (x : float) :
  match B64Spec.value x with
  | Some q => B64.trunc x = Ok (Q_trunc q)
  | None => exists e, B64.trunc x = Raise e
  end.
Proof.
  unfold B64Spec.value, B64.trunc.
  destruct (Prim2SF x) as [s| s | | s m e].
  - reflexivity.
  - eexists; reflexivity.
  - eexists; reflexivity.
  - f_equal. destruct e as [|k|k].
    + unfold Q_trunc. simpl. rewrite Z.quot_1_r. reflexivity.
    + unfold Q_trunc. simpl Qnum. simpl Qden. rewrite Z.quot_1_r. reflexivity.
    + unfold Q_trunc. simpl Qnum. simpl Qden.
      rewrite Z.shiftr_div_pow2 by lia.
      rewrite Pos2Z.inj_pow.
      destruct s; simpl B64.signed.
      * change (Z.neg m) with (- Z.pos m)%Z. rewrite Z.quot_opp_l by lia.
        rewrite Z.quot_div_nonneg by lia. reflexivity.
      * rewrite Z.quot_div_nonneg by lia. reflexivity.
Qed.

End B64Lemmas.

(** ** The hyperscaler loop, turn by turn *)

Section AnyArithmetic.
Context {A : Type} `{Number A}.

Lemma hs_step_by_observed (prices : dict A) (st : Calc.hs_state A) (hs : string) :
  Calc.hs_step prices st hs
  = hs_record hs (observed prices (Calc.normalize_provider_name hs)) st.
Proof.
  destruct st as [[s u] d]. unfold Calc.hs_step, observed, hs_record.
  destruct (Calc.truthy _); [|reflexivity].
  destruct (Calc.find_price prices _); reflexivity.
Qed.

Lemma hs_loop_by_observed (prices : dict A) :
  Calc.hs_loop prices
  = hs_record "GCP" (observed prices "GCP")
      (hs_record "Azure" (observed prices "Azure")
         (hs_record "AWS" (observed prices "AWS") (Calc.int 0, Calc.int 0, []))).
Proof.
  change (Calc.hs_loop prices)
    with (Calc.hs_step prices
            (Calc.hs_step prices
               (Calc.hs_step prices (Calc.int 0, Calc.int 0, []) "AWS")
               "Azure") "GCP").
  rewrite !hs_step_by_observed. reflexivity.
Qed.

Lemma hs_loop_observed_records (prices : dict A) (hs : string) (p : A) :
  In hs Calc.hyperscalers -> observed prices hs = Some p ->
  In (hs, Calc.hs_entry_of hs p) (snd (Calc.hs_loop prices)).
Proof.
  intros Hhs Hp. rewrite hs_loop_by_observed.
  destruct Hhs as [<-|[<-|[<-|[]]]]; rewrite Hp;
    destruct (observed prices "AWS"), (observed prices "Azure"),
      (observed prices "GCP"); simpl; auto 6.
Qed.

(** The hyperscaler component is the loop's sum, renormalized. *)
Lemma components_hs (prices : dict A) (hs nc : A) :
  Calc.components prices = Ok (hs, nc) ->
  hs = renormalized (fst (fst (Calc.hs_loop prices)))
                    (snd (fst (Calc.hs_loop prices))).
Proof.
  unfold Calc.components, Calc.normalize_hs, renormalized, Calc.py_div.
  destruct (Calc.hs_loop prices) as [[s u] d]. cbn [fst snd].
  destruct (Calc.nc_collect prices) as [used data].
  destruct (nltb (Calc.int 0) u && nltb u (Calc.int 1)).
  - destruct (niszero u); [discriminate|]. cbn [bind].
    destruct (Calc.redistribute used data); cbn [bind]; congruence.
  - cbn [bind]. destruct (Calc.redistribute used data); cbn [bind]; congruence.
Qed.

Lemma calculate_index_details (now : string) (w : Calc.workdir)
      (r : Calc.report A) :
  Calc.calculate_index now w = Ok (Some r) ->
  Calc.details_hyperscalers r = snd (Calc.hs_loop (Calc.load_prices w))
  /\ Calc.details_neoclouds r = snd (Calc.nc_collect (Calc.load_prices w)).
Proof.
  unfold Calc.calculate_index. intros Hrun.
  destruct (Calc.load_prices w) as [|pp prices]; [discriminate|].
  unfold Calc.build_report in Hrun.
  destruct (Calc.hs_loop (pp :: prices)) as [[s u] hyperscaler_data].
  destruct (Calc.nc_collect (pp :: prices)) as [used neocloud_data].
  destruct (Calc.components (pp :: prices)) as [[hs nc]|e]; [|discriminate].
  simpl in Hrun. inversion Hrun; subst r. split; reflexivity.
Qed.

(** ** The combined file, entry by entry *)

Lemma dict_get_set_other {V : Type} (k k' : string) (v : V) (d : dict V) :
  k <> k' -> dict_get k (dict_set k' v d) = dict_get k d.
Proof.
  intros Hk. induction d as [|[k0 v0] d IH]; simpl.
  - destruct (String.eqb_spec k k'); [contradiction | reflexivity].
  - destruct (String.eqb_spec k' k0) as [E|NE]; simpl.
    + subst k0. destruct (String.eqb_spec k k'); [contradiction | reflexivity].
    + destruct (String.eqb k k0); [reflexivity | exact IH].
Qed.

Lemma load_combined_keeps (after : list (string * string)) (prices : dict A)
      (k : string) :
  Forall (fun item => overwrites (A:=A) k item = false) after ->
  dict_get k (Calc.load_combined after prices) = dict_get k prices.
Proof.
  intros Hafter. revert prices.
  induction Hafter as [|[prov s] after Hitem _ IH]; intros prices; [reflexivity|].
  simpl. unfold overwrites in Hitem. simpl in Hitem.
  destruct (Calc._parse_price s) as [x|]; [|reflexivity].
  rewrite IH. destruct (nltb (Calc.int 0) x); [|reflexivity].
  apply dict_get_set_other. intros E. subst k.
  rewrite String.eqb_refl in Hitem. discriminate Hitem.
Qed.

(** ** The push when the service answers *)

Lemma push_when_service_answers (env : Push.world) (db : Push.store A)
      (data : Push.index_data A) (new_price : A) :
  service_answers env ->
  Push.idx_final_index_price data = Some new_price ->
  fst (Push.push_to_supabase env db data)
  = Push.price_accepted new_price (Push.previous_price db)
  /\ Push.t4_index_prices (snd (Push.push_to_supabase env db data))
     = if Push.price_accepted new_price (Push.previous_price db)
       then (Push.t4_index_prices db ++ [new_index_row db data new_price])%list
       else Push.t4_index_prices db.
Proof.
  intros [Hc [Hl [Hs [Hinsert Hprov]]]] Hprice.
  unfold Push.push_to_supabase.
  rewrite Hc, Hl, Hs, Hprice, Hinsert, Hprov. cbn [negb].
  destruct (Push.price_accepted new_price (Push.previous_price db));
    cbn [negb]; [|split; reflexivity].
  destruct (hyperscaler_records_total (Push.next_id db) (Push.idx_timestamp data)
              (Push.idx_hyperscalers data)) as [hs_rows [-> _]].
  destruct (hs_rows ++ _)%list; split; reflexivity.
Qed.

(** ** The price the updater sends *)

Lemma main_sends_the_source_price (float_of_str : string -> option A)
      (args : Updater.arguments A) (env : Updater.world)
      (log_file : option (list (Updater.log_entry A)))
      (r : Updater.update_result A) (sent : Z) :
  Updater.update (Updater.main float_of_str args env log_file) = Some r ->
  Updater.requested r = Some sent ->
  Updater.PRIVATE_KEY env = true
  /\ Updater.start env = Updater.Ready
  /\ Updater.read_only args = false
  /\ exists price_usd : A,
      price_source float_of_str args = Some price_usd
      /\ nleb price_usd (Calc.int 0) = false
      /\ Oracle.price_scaled price_usd = Ok sent.
Proof.
  unfold Updater.main. fold (price_source float_of_str args).
  destruct (Updater.PRIVATE_KEY env); cbn [negb]; [|discriminate].
  destruct (Updater.start env); try discriminate.
  destruct (Updater.read_only args); [discriminate|].
  destruct (price_source float_of_str args) as [price_usd|]; [|discriminate].
  destruct (nleb price_usd (Calc.int 0)) eqn:Hle; [discriminate|].
  cbn [Updater.update]. intros Hr Hsent. injection Hr as Hr. subst r.
  repeat split. exists price_usd. split; [reflexivity|]. split; [exact Hle|].
  unfold Updater.update_price, Updater._log_update in Hsent.
  destruct (Oracle.price_scaled price_usd) as [z|e]; [|discriminate Hsent].
  cbn [bind] in Hsent.
  destruct (Updater.tx env) as [|h b]; cbn in Hsent; congruence.
Qed.

(** The sums of the loop are the sums of what it recorded, added in the
    order AWS, Azure, GCP. *)
Lemma hs_loop_sums (prices : dict A) :
  fst (fst (Calc.hs_loop prices))
  = running_sum (map (fun item => Calc.contribution (snd item))
                     (snd (Calc.hs_loop prices)))
  /\ snd (fst (Calc.hs_loop prices))
     = running_sum (map (fun item => Calc.weight (snd item))
                        (snd (Calc.hs_loop prices)))
  /\ map fst (snd (Calc.hs_loop prices))
     = filter (is_observed prices) Calc.hyperscalers.
Proof.
  rewrite hs_loop_by_observed. unfold is_observed. cbn [Calc.hyperscalers filter].
  destruct (observed prices "AWS") as [pa|], (observed prices "Azure") as [pz|],
    (observed prices "GCP") as [pg|]; repeat split.
Qed.

End AnyArithmetic.

(** ** No division by zero in binary64 *)

Lemma py_div_guarded (x u : B64.float) :
  nltb (Calc.int 0) u = true -> Calc.py_div x u = Ok (ndiv x u).
Proof.
  intros Hu. unfold Calc.py_div.
  change (niszero u) with (PrimFloat.eqb u PrimFloat.zero).
  rewrite B64Lemmas.pos_not_zero; [reflexivity | exact Hu].
Qed.

Lemma normalize_hs_binary64 (s u : B64.float) :
  Calc.normalize_hs s u = Ok (renormalized s u).
Proof.
  unfold Calc.normalize_hs, renormalized.
  destruct (nltb (Calc.int 0) u) eqn:Hu; [|reflexivity].
  destruct (nltb u (Calc.int 1)); [|reflexivity].
  cbn [andb]. rewrite py_div_guarded by exact Hu. reflexivity.
Qed.

Lemma nc_lines_binary64 (used : B64.float) (data : dict (Calc.nc_entry B64.float)) :
  nltb (Calc.int 0) used = true -> exists lines, Calc.nc_lines used data = Ok lines.
Proof.
  intros Hu. induction data as [|[p e] data [lines IH]];
    [eexists; reflexivity|].
  cbn [Calc.nc_lines]. rewrite py_div_guarded by exact Hu.
  cbn [bind]. rewrite IH. eexists. reflexivity.
Qed.

Lemma redistribute_binary64 (used : B64.float) (data : dict (Calc.nc_entry B64.float)) :
  exists lines, Calc.redistribute used data = Ok lines.
Proof.
  unfold Calc.redistribute.
  destruct (nltb (Calc.int 0) used) eqn:Hu; [|eexists; reflexivity].
  apply nc_lines_binary64, Hu.
Qed.

Lemma components_binary64 (prices : dict B64.float) :
  exists nc,
    Calc.components prices
    = Ok (renormalized (fst (fst (Calc.hs_loop prices)))
                       (snd (fst (Calc.hs_loop prices))), nc).
Proof.
  unfold Calc.components.
  destruct (Calc.hs_loop prices) as [[s u] d]. cbn [fst snd].
  rewrite normalize_hs_binary64. cbn [bind].
  destruct (Calc.nc_collect prices) as [used data].
  destruct (redistribute_binary64 used data) as [lines ->].
  eexists. reflexivity.
Qed.

(** In binary64 the weight used is zero only when the loop found no
    hyperscaler, and then the sum is still the initial 0. *)
Lemma hs_loop_zero_binary64 (prices : dict B64.float) :
  niszero (snd (fst (Calc.hs_loop prices))) = true ->
  Calc.hs_loop prices = (Calc.int 0, Calc.int 0, []).
Proof.
  rewrite hs_loop_by_observed.
  destruct (observed prices "AWS") as [pa|], (observed prices "Azure") as [pz|],
    (observed prices "GCP") as [pg|]; intros Hzero;
    try (vm_compute in Hzero; discriminate Hzero); reflexivity.
Qed.

(** In binary64 the weight used lies strictly between 0 and 1.0 exactly when
    some but not all of AWS, Azure and GCP have an observed price. *)
Lemma hs_weight_used_between_binary64 (prices : dict B64.float) :
  nltb (Calc.int 0) (snd (fst (Calc.hs_loop prices)))
  && nltb (snd (fst (Calc.hs_loop prices))) (Calc.int 1)
  = existsb (is_observed prices) Calc.hyperscalers
    && negb (forallb (is_observed prices) Calc.hyperscalers).
Proof.
  rewrite hs_loop_by_observed. unfold is_observed.
  cbn [Calc.hyperscalers existsb forallb].
  destruct (observed prices "AWS") as [pa|], (observed prices "Azure") as [pz|],
    (observed prices "GCP") as [pg|]; vm_compute; reflexivity.
Qed.

(** ** The renormalization of the hyperscaler sum *)

(** AWS alone at 1.00: the renormalized sum and the sum a weight of 1.0
    would give differ in the last place. *)
Lemma renormalized_sum_differs_in_last_place :
  Calc.components aws_only
  = Ok (B64.lit 4212000000000002 10000000000000000, B64.lit 0 1)
  /\ nmul (nmul (Calc.effective_price (B64.lit 1 1) (B64.lit 44 100))
                (B64.lit 1 1))
          (B64.lit 65 100)
     = B64.lit 4212000000000001 10000000000000000
  /\ PrimFloat.eqb (B64.lit 4212000000000002 10000000000000000)
                   (B64.lit 4212000000000001 10000000000000000) = false.
Proof. repeat split; vm_compute; reflexivity. Qed.

(** C2, as the code has it.  The hyperscaler component of every run is the
    loop's sum, multiplied by [1.0 / hs_weight_used] when
    [0 < hs_weight_used < 1.0] and left as it is otherwise.  In binary64 no
    run divides by zero, a weight used of zero leaves the sum at 0, and the
    sum is multiplied exactly when some but not all of AWS, Azure and GCP
    have an observed price.  With AWS (weight 0.45) alone the component is
    [(0 + effective*0.45*0.65) * (1.0 / (0 + 0.45))] as binary64 computes
    it: at a price of 1.00 that is 0.4212000000000002, where a weight of 1.0
    gives 0.4212000000000001. *)
Theorem hyperscaler_component_is_renormalized_sum :
  (forall (A : Type) (N : Number A) (prices : dict A) (hs nc : A),
      Calc.components prices = Ok (hs, nc) ->
      hs = renormalized (fst (fst (Calc.hs_loop prices)))
                        (snd (fst (Calc.hs_loop prices))))
  /\ (forall prices : dict B64.float,
         exists hs nc, Calc.components prices = Ok (hs, nc))
  /\ (forall prices : dict B64.float,
         niszero (snd (fst (Calc.hs_loop prices))) = true ->
         fst (fst (Calc.hs_loop prices)) = Calc.int 0
         /\ exists nc, Calc.components prices = Ok (Calc.int 0, nc))
  /\ (forall prices : dict B64.float,
         nltb (Calc.int 0) (snd (fst (Calc.hs_loop prices)))
         && nltb (snd (fst (Calc.hs_loop prices))) (Calc.int 1)
         = existsb (is_observed prices) Calc.hyperscalers
           && negb (forallb (is_observed prices) Calc.hyperscalers))
  /\ (forall (prices : dict B64.float) (p : B64.float),
         observed prices "AWS" = Some p ->
         observed prices "Azure" = None ->
         observed prices "GCP" = None ->
         exists nc,
           Calc.components prices
           = Ok (nmul (nadd (Calc.int 0)
                            (nmul (nmul (blend p (nlit 44 100)) (nlit 45 100))
                                  (nlit 65 100)))
                      (ndiv (Calc.int 1) (nadd (Calc.int 0) (nlit 45 100))),
                 nc))
  /\ Calc.components aws_only
     = Ok (B64.lit 4212000000000002 10000000000000000, B64.lit 0 1)
  /\ nmul (nmul (blend (B64.lit 1 1) (B64.lit 44 100)) (B64.lit 1 1))
          (B64.lit 65 100)
     = B64.lit 4212000000000001 10000000000000000.
Proof.
  split; [|split; [|split; [|split; [|split; [|split]]]]].
  - intros A N prices hs nc. apply components_hs.
  - intros prices. destruct (components_binary64 prices) as [nc Hc].
    eexists. exists nc. exact Hc.
  - intros prices Hzero.
    destruct (components_binary64 prices) as [nc Hc].
    rewrite (hs_loop_zero_binary64 prices Hzero) in *. cbn [fst snd] in *.
    split; [reflexivity|]. exists nc. exact Hc.
  - apply hs_weight_used_between_binary64.
  - intros prices p Haws Hazure Hgcp.
    destruct (components_binary64 prices) as [nc Hc]. exists nc.
    rewrite Hc. rewrite hs_loop_by_observed, Haws, Hazure, Hgcp.
    cbn [hs_record fst snd]. unfold renormalized.
    change (Calc.weight (Calc.hs_entry_of "AWS" p)) with (B64.lit 45 100).
    destruct (nltb _ _ && nltb _ _) eqn:E; [|vm_compute in E; discriminate E].
    reflexivity.
  - vm_compute. reflexivity.
  - vm_compute. reflexivity.
Qed.

Lemma hyperscaler_component_is_renormalized_sum_witness :
  exists nc,
    Calc.components aws_only
    = Ok (nmul (nadd (Calc.int 0)
                     (nmul (nmul (blend (B64.lit 1 1) (nlit 44 100)) (nlit 45 100))
                           (nlit 65 100)))
               (ndiv (Calc.int 1) (nadd (Calc.int 0) (nlit 45 100))),
          nc).
Proof.
  apply (proj1 (proj2 (proj2 (proj2 (proj2
           hyperscaler_component_is_renormalized_sum))))
           aws_only (B64.lit 1 1)); vm_compute; reflexivity.
Defined.

(** ** The discount blend in the report *)

(** In binary64 the blend of 1.00 at a discount of 0.44 is not 0.648. *)
Lemma blend_of_one_dollar_is_not_0648 :
  Calc.effective_price (B64.lit 1 1) (B64.lit 44 100)
  = B64.lit 6480000000000001 10000000000000000
  /\ PrimFloat.eqb (Calc.effective_price (B64.lit 1 1) (B64.lit 44 100))
                   (B64.lit 648 1000) = false.
Proof. split; vm_compute; reflexivity. Qed.

(** C3, as the code has it.  In every report, each of AWS, Azure and GCP
    with an observed price [p] has an entry whose effective price is
    [p*(1-d)*0.80 + p*0.20], computed in the code's arithmetic with the
    provider's discount [d], and every entry is of that form; for a discount
    of 0.44 and a price of 1.00 binary64 gives 0.6480000000000001, the
    number next above 0.648. *)
Theorem observed_hyperscaler_price_is_blended :
  (forall (A : Type) (N : Number A) (now : string) (w : Calc.workdir)
          (r : Calc.report A) (hs : string) (p : A),
      Calc.calculate_index now w = Ok (Some r) ->
      In hs Calc.hyperscalers ->
      observed (Calc.load_prices w) hs = Some p ->
      exists e,
        In (hs, e) (Calc.details_hyperscalers r)
        /\ Calc.original e = p
        /\ Calc.effective e = blend p (Calc.discount_of hs))
  /\ (forall (A : Type) (N : Number A) (now : string) (w : Calc.workdir)
             (r : Calc.report A) (hs : string) (e : Calc.hs_entry A),
         Calc.calculate_index now w = Ok (Some r) ->
         In (hs, e) (Calc.details_hyperscalers r) ->
         Calc.effective e = blend (Calc.original e) (Calc.discount_of hs))
  /\ Calc.discount_of (A:=B64.float) "AWS" = B64.lit 44 100
  /\ blend (B64.lit 1 1) (B64.lit 44 100)
     = B64.lit 6480000000000001 10000000000000000
  /\ blend (B64.lit 1 1) (B64.lit 44 100)
     = PrimFloat.next_up (B64.lit 648 1000).
Proof.
  split; [|split; [|split; [|split]]].
  - intros A N now w r hs p Hrun Hhs Hp.
    destruct (calculate_index_details now w r Hrun) as [-> _].
    exists (Calc.hs_entry_of hs p). split; [|split; reflexivity].
    apply hs_loop_observed_records; assumption.
  - intros A N now w r hs e Hrun HIn.
    destruct (calculate_index_details now w r Hrun) as [Hd _].
    rewrite Hd in HIn.
    destruct (hs_loop_entries _ hs e HIn) as [p ->]. reflexivity.
  - reflexivity.
  - vm_compute. reflexivity.
  - vm_compute. reflexivity.
Qed.

Lemma observed_hyperscaler_price_is_blended_witness :
  exists e,
    In ("AWS", e) (Calc.details_hyperscalers golden_report64)
    /\ Calc.original e = B64.lit 100 100
    /\ Calc.effective e = blend (B64.lit 100 100) (Calc.discount_of "AWS").
Proof.
  apply (proj1 observed_hyperscaler_price_is_blended B64.float _
           "2026-01-01 00:00:00" golden golden_report64 "AWS" (B64.lit 100 100)).
  - vm_compute. reflexivity.
  - left. reflexivity.
  - vm_compute. reflexivity.
Defined.

(** ** The publish gate and the push *)

(** After 0.75 the decimal upper bound is 0.90, but the code's bound is the
    binary64 product 0.8999999999999999 and a new price of 0.90 is
    rejected. *)
Lemma gate_rejects_the_decimal_upper_bound :
  Push.price_accepted (B64.lit 90 100) (Some (B64.lit 75 100)) = false
  /\ nmul (B64.lit 75 100) (B64.lit 120 100)
     = B64.lit 8999999999999999 10000000000000000
  /\ (75 # 100) * (80 # 100) <= 90 # 100
  /\ 90 # 100 <= (75 # 100) * (120 # 100).
Proof.
  split; [vm_compute; reflexivity|]. split; [vm_compute; reflexivity|].
  split; vm_compute; discriminate.
Qed.

(** C4, as the code has it.  Without a previous price every new price is
    accepted; with one, the new price is accepted exactly when
    [previous*0.80 <= new <= previous*1.20], the two products and the two
    comparisons being those of the code's arithmetic; and when the service
    answers, the push succeeds exactly when the gate accepts.  In binary64,
    after 0.50 a price of 0.60 passes and a price of 0.61 does not; after
    0.75 the upper bound is 0.8999999999999999 and 0.90 does not pass. *)
Theorem publish_gate_decides_the_push :
  (forall (A : Type) (N : Number A) (new_price : A),
      Push.price_accepted new_price None = true)
  /\ (forall (A : Type) (N : Number A) (new_price prev_price : A),
         Push.price_accepted new_price (Some prev_price) = true
         <-> nleb (nmul prev_price (nlit 80 100)) new_price = true
             /\ nleb new_price (nmul prev_price (nlit 120 100)) = true)
  /\ (forall (A : Type) (N : Number A) (env : Push.world) (db : Push.store A)
             (data : Push.index_data A) (new_price : A),
         service_answers env ->
         Push.idx_final_index_price data = Some new_price ->
         fst (Push.push_to_supabase env db data)
         = Push.price_accepted new_price (Push.previous_price db))
  /\ Push.price_accepted (B64.lit 60 100) (Some (B64.lit 50 100)) = true
  /\ Push.price_accepted (B64.lit 61 100) (Some (B64.lit 50 100)) = false
  /\ nmul (B64.lit 75 100) (B64.lit 120 100)
     = B64.lit 8999999999999999 10000000000000000
  /\ Push.price_accepted (B64.lit 90 100) (Some (B64.lit 75 100)) = false.
Proof.
  split; [reflexivity|]. split; [|split].
  - intros A N new_price prev_price. unfold Push.price_accepted.
    apply andb_true_iff.
  - intros A N env db data new_price Henv Hprice.
    apply (push_when_service_answers env db data new_price Henv Hprice).
  - repeat split; vm_compute; reflexivity.
Qed.

Lemma publish_gate_decides_the_push_witness :
  fst (Push.push_to_supabase live_world (store_after (B64.lit 50 100))
                             (index_of (B64.lit 60 100))) = true
  /\ fst (Push.push_to_supabase live_world (store_after (B64.lit 50 100))
                                (index_of (B64.lit 61 100))) = false.
Proof.
  split.
  - rewrite (proj1 (proj2 (proj2 publish_gate_decides_the_push)) B64.float _
               live_world (store_after (B64.lit 50 100))
               (index_of (B64.lit 60 100)) (B64.lit 60 100)).
    + vm_compute. reflexivity.
    + repeat split.
    + reflexivity.
  - rewrite (proj1 (proj2 (proj2 publish_gate_decides_the_push)) B64.float _
               live_world (store_after (B64.lit 50 100))
               (index_of (B64.lit 61 100)) (B64.lit 61 100)).
    + vm_compute. reflexivity.
    + repeat split.
    + reflexivity.
Defined.

(** ** The fixed-point encoding in binary64 *)

(** 0.55 is encoded above 0.55 * 10^18. *)
Lemma encoding_is_not_the_floor :
  Oracle.price_scaled (B64.lit 55 100) = Ok 550000000000000064%Z
  /\ Qfloor ((55 # 100) * inject_Z (10 ^ 18)) = 550000000000000000%Z
  /\ exists q, B64Spec.value (B64.lit 55 100) = Some q
               /\ Qfloor (q * inject_Z (10 ^ 18)) = 550000000000000044%Z.
Proof.
  split; [vm_compute; reflexivity|]. split; [vm_compute; reflexivity|].
  eexists. split; vm_compute; reflexivity.
Qed.

(** C9, as the code has it.  The integer sent to the oracle is the binary64
    product of the price and 10^18 cut towards zero, which for a product
    that is not negative is its floor; a price whose product is infinite or
    NaN raises.  The product is rounded before it is cut: 0.55 is encoded
    as 550000000000000064.  Reading gives the binary64 number nearest to
    the stored integer over 10^18.  0.4512 is encoded as 451200000000000000
    and decoded to 0.4512. *)
Theorem oracle_encoding_cuts_the_binary64_product :
  (forall price_usd : B64.float,
      match B64Spec.value (nmul price_usd (Calc.int (10 ^ 18))) with
      | Some q =>
          Oracle.price_scaled price_usd = Ok (Q_trunc q)
          /\ (0 <= q -> Q_trunc q = Qfloor q)
      | None => exists e, Oracle.price_scaled price_usd = Raise e
      end)
  /\ (forall price_raw : Z,
         Oracle.price price_raw = B64.lit price_raw (10 ^ 18))
  /\ Oracle.price_scaled (B64.lit 55 100) = Ok 550000000000000064%Z
  /\ Oracle.price_scaled (B64.lit 4512 10000) = Ok 451200000000000000%Z
  /\ Oracle.price 451200000000000000 = B64.lit 4512 10000.
Proof.
  split; [|split; [|repeat split; vm_compute; reflexivity]].
  - intros price_usd. unfold Oracle.price_scaled.
    change (Z.pos (pow10 Oracle.PRICE_DECIMALS)) with (10 ^ 18)%Z.
    pose proof (B64Lemmas.trunc_value (nmul price_usd (Calc.int (10 ^ 18)))) as Ht.
    destruct (B64Spec.value (nmul price_usd (Calc.int (10 ^ 18)))) as [q|].
    + split; [exact Ht | apply Q_trunc_floor].
    + exact Ht.
  - intros price_raw. reflexivity.
Qed.

(** ** What the two sinks are given *)

(** Given 0.4512, the updater sends 0.4512 * 10^18; the price rounded to 2
    decimals would be 0.45. *)
Lemma oracle_sends_the_price_it_is_given :
  option_map (@Updater.requested B64.float)
    (Updater.update
       (Updater.main float_of_cell (price_flag (B64.lit 4512 10000))
                     ready_world None))
  = Some (Some 451200000000000000%Z)
  /\ option_map (@Updater.requested B64.float)
       (Updater.update
          (Updater.main float_of_cell
                        (csv_flag [[("T4_Index_Price", Some "0.4512")]])
                        ready_world None))
     = Some (Some 451200000000000000%Z)
  /\ nround (B64.lit 4512 10000) 2 = B64.lit 45 100
  /\ Oracle.price_scaled (B64.lit 45 100) = Ok 450000000000000000%Z.
Proof. repeat split; vm_compute; reflexivity. Qed.

(** C10, as the code has it.  A report written by the calculator carries
    the sum of the two category sums rounded to 2 decimals and each category
    sum rounded to 4 decimals.  When the service answers, the push to the
    durable store succeeds exactly when the gate accepts that rounded price,
    and the index row it then appends carries the rounded price and the
    rounded components.  The updater of the oracle does not read the report:
    what it sends is the encoding of the price given by [--price] or, without
    it, by the last row of the CSV file. *)
Theorem report_is_rounded_and_stored {A : Type} `{Number A}
        (now : string) (w : Calc.workdir) (r : Calc.report A) :
  Calc.calculate_index now w = Ok (Some r) ->
  exists hs_weighted_sum nc_weighted_sum : A,
    Calc.components (Calc.load_prices w) = Ok (hs_weighted_sum, nc_weighted_sum)
    /\ Calc.final_index_price r
       = nround (nadd hs_weighted_sum nc_weighted_sum) 2
    /\ Calc.hyperscaler r = nround hs_weighted_sum 4
    /\ Calc.neocloud r = nround nc_weighted_sum 4
    /\ (forall (env : Push.world) (db : Push.store A),
           service_answers env ->
           fst (Push.push_to_supabase env db (Push.of_report r))
           = Push.price_accepted
               (nround (nadd hs_weighted_sum nc_weighted_sum) 2)
               (Push.previous_price db)
           /\ (Push.price_accepted
                 (nround (nadd hs_weighted_sum nc_weighted_sum) 2)
                 (Push.previous_price db) = true ->
               exists row,
                 Push.index_price row
                 = nround (nadd hs_weighted_sum nc_weighted_sum) 2
                 /\ Push.hyperscaler_component row
                    = Some (nround hs_weighted_sum 4)
                 /\ Push.neocloud_component row
                    = Some (nround nc_weighted_sum 4)
                 /\ Push.t4_index_prices
                      (snd (Push.push_to_supabase env db (Push.of_report r)))
                    = (Push.t4_index_prices db ++ [row])%list))
    /\ (forall (float_of_str : string -> option A)
               (args : Updater.arguments A) (env : Updater.world)
               (log_file : option (list (Updater.log_entry A)))
               (u : Updater.update_result A) (sent : Z),
           Updater.update (Updater.main float_of_str args env log_file) = Some u ->
           Updater.requested u = Some sent ->
           exists price_usd : A,
             price_source float_of_str args = Some price_usd
             /\ Oracle.price_scaled price_usd = Ok sent).
Proof.
  intros Hrun.
  destruct (calculate_index_report now w r Hrun)
    as [hs [nc [Hsums [Hfinal [Hhs Hnc]]]]].
  exists hs, nc. split; [exact Hsums|]. split; [exact Hfinal|].
  split; [exact Hhs|]. split; [exact Hnc|]. split.
  - intros env db Henv.
    destruct (push_when_service_answers env db (Push.of_report r)
                (Calc.final_index_price r) Henv eq_refl) as [Hflag Hrows].
    rewrite Hfinal in Hflag, Hrows. split; [exact Hflag|].
    intros Hgate. rewrite Hgate in Hrows.
    exists (new_index_row db (Push.of_report r)
                          (nround (nadd hs nc) 2)).
    split; [reflexivity|]. cbn [new_index_row Push.hyperscaler_component
      Push.neocloud_component Push.of_report Push.idx_hyperscaler
      Push.idx_neocloud].
    rewrite Hhs, Hnc. split; [reflexivity|]. split; [reflexivity|].
    exact Hrows.
  - intros float_of_str args env log_file u sent Hu Hsent.
    destruct (main_sends_the_source_price float_of_str args env log_file u sent
                Hu Hsent) as [_ [_ [_ [price_usd [Hsource [_ Hscaled]]]]]].
    exists price_usd. split; assumption.
Qed.

Lemma report_is_rounded_and_stored_witness :
  exists hs_weighted_sum nc_weighted_sum : B64.float,
    Calc.components (Calc.load_prices golden) = Ok (hs_weighted_sum, nc_weighted_sum)
    /\ Calc.final_index_price golden_report64
       = nround (nadd hs_weighted_sum nc_weighted_sum) 2
    /\ Calc.hyperscaler golden_report64 = nround hs_weighted_sum 4
    /\ Calc.neocloud golden_report64 = nround nc_weighted_sum 4
    /\ fst (Push.push_to_supabase live_world (store_after (B64.lit 50 100))
                                  (Push.of_report golden_report64)) = true
    /\ (exists row,
           Push.index_price row = Calc.final_index_price golden_report64
           /\ Push.t4_index_prices
                (snd (Push.push_to_supabase live_world
                        (store_after (B64.lit 50 100))
                        (Push.of_report golden_report64)))
              = (Push.t4_index_prices (store_after (B64.lit 50 100)) ++ [row])%list)
    /\ exists price_usd : B64.float,
        price_source float_of_cell (price_flag (B64.lit 4512 10000))
        = Some price_usd
        /\ Oracle.price_scaled price_usd = Ok 451200000000000000%Z.
Proof.
  destruct (report_is_rounded_and_stored "2026-01-01 00:00:00" golden
              golden_report64)
    as [hs [nc [Hsums [Hfinal [Hhs [Hnc [Hstore Horacle]]]]]]].
  - vm_compute. reflexivity.
  - exists hs, nc.
    destruct (Hstore live_world (store_after (B64.lit 50 100)))
      as [Hflag Hrow]; [repeat split|].
    assert (Push.price_accepted (nround (nadd hs nc) 2)
              (Push.previous_price (store_after (B64.lit 50 100))) = true)
      as Hgate.
    { rewrite <- Hfinal. vm_compute. reflexivity. }
    split; [exact Hsums|]. split; [exact Hfinal|]. split; [exact Hhs|].
    split; [exact Hnc|]. split; [rewrite Hflag; exact Hgate|]. split.
    + destruct (Hrow Hgate) as [row [Hprice [_ [_ Hrows]]]].
      exists row. split; [rewrite Hfinal; exact Hprice | exact Hrows].
    + apply (Horacle float_of_cell (price_flag (B64.lit 4512 10000))
               ready_world None
               (Updater.update_price ready_world (B64.lit 4512 10000) None));
        vm_compute; reflexivity.
Defined.

(** ** The neocloud loops, entry by entry *)

Section NeocloudsAnyArithmetic.
Context {A : Type} `{Number A}.

Lemma nc_fold_recorded (l : list (string * A)) (u : A) (d : dict (Calc.nc_entry A)) :
  NoDup (keys d ++ map fst l) ->
  fold_left Calc.nc_step l (u, d)
  = (fold_left nadd (map (fun pp => Calc.raw_weight_of (fst pp)) l) u,
     (d ++ map nc_recorded l)%list).
Proof.
  revert u d. induction l as [|[p v] l IH]; intros u d Hd.
  - simpl. rewrite app_nil_r. reflexivity.
  - simpl in Hd. simpl fold_left.
    rewrite dict_set_fresh.
    + change (p, {| Calc.price := v; Calc.raw_weight := Calc.raw_weight_of p |})
        with (nc_recorded (p, v)).
      rewrite IH.
      * rewrite <- app_assoc. reflexivity.
      * unfold keys in *. rewrite map_app, <- app_assoc. exact Hd.
    + apply NoDup_remove_2 in Hd. intros HIn. apply Hd.
      apply in_or_app. left. exact HIn.
Qed.

Lemma nc_collect_recorded (prices : dict A) :
  NoDup (keys prices) ->
  snd (Calc.nc_collect prices) = map nc_recorded (Calc.nc_providers prices)
  /\ fst (Calc.nc_collect prices)
     = running_sum (map (fun item => Calc.raw_weight (snd item))
                        (snd (Calc.nc_collect prices))).
Proof.
  intros Hd. unfold Calc.nc_collect.
  pose proof (nc_fold_recorded (Calc.nc_providers prices) (Calc.int 0) []) as E.
  unfold dict in *. rewrite E by (simpl; apply nc_providers_NoDup, Hd).
  simpl. split; [reflexivity|].
  unfold running_sum. rewrite map_map. reflexivity.
Qed.

Lemma nc_lines_shares (used : A) (data : dict (Calc.nc_entry A))
      (lines : list (Calc.nc_line A)) (acc : A) :
  Calc.nc_lines used data = Ok lines ->
  fold_left (fun a l => nadd a (Calc.nc_contribution l)) lines acc
  = fold_left nadd (map (nc_share used) data) acc.
Proof.
  revert lines acc. induction data as [|[p e] data IH]; intros lines acc.
  - simpl. intros Hl. inversion Hl. reflexivity.
  - cbn [Calc.nc_lines]. unfold Calc.py_div.
    destruct (niszero used); [discriminate|]. cbn [bind].
    destruct (Calc.nc_lines used data) as [rest|]; [|discriminate].
    cbn [bind]. intros Hl. inversion Hl; subst lines.
    cbn [fold_left map Calc.nc_contribution]. apply IH. reflexivity.
Qed.

Lemma components_nc (prices : dict A) (hs nc : A) :
  Calc.components prices = Ok (hs, nc) ->
  nc = if nltb (Calc.int 0) (fst (Calc.nc_collect prices))
       then running_sum (map (nc_share (fst (Calc.nc_collect prices)))
                             (snd (Calc.nc_collect prices)))
       else Calc.int 0.
Proof.
  unfold Calc.components.
  destruct (Calc.hs_loop prices) as [[s u] d].
  destruct (Calc.normalize_hs s u) as [hs'|]; [|discriminate]. cbn [bind].
  destruct (Calc.nc_collect prices) as [used data]. cbn [fst snd].
  unfold Calc.redistribute.
  destruct (nltb (Calc.int 0) used).
  - destruct (Calc.nc_lines used data) as [lines|] eqn:Hl; [|discriminate].
    cbn [bind]. intros E. inversion E. unfold Calc.nc_sum.
    apply (nc_lines_shares used data lines (Calc.int 0) Hl).
  - cbn [bind]. intros E. inversion E. reflexivity.
Qed.

End NeocloudsAnyArithmetic.

(** * Further properties, in the code's own arithmetic *)

(** X6.  Last write wins in the combined file: when the entries before it
    parse, the price kept for a provider is the one of its last entry above
    zero, whatever came before under any name normalised to the same key
    and whatever follows: entries of other providers, entries of the same
    provider at a price that is not above zero, or a price string that ends
    the loading. *)
Theorem combined_last_positive_entry_wins {A : Type} `{Number A}
        (before after : list (string * string))
        (prov price_val : string) (x : A) :
  Forall (parses (A:=A)) before ->
  Calc._parse_price price_val = Ok x ->
  nltb (Calc.int 0) x = true ->
  Forall (fun item =>
            overwrites (A:=A) (Calc.normalize_provider_name prov) item = false)
         after ->
  dict_get (Calc.normalize_provider_name prov)
           (Calc.load_combined (before ++ (prov, price_val) :: after) [])
  = Some x.
Proof.
  intros Hbefore Hx Hpos Hafter. rewrite load_combined_app by exact Hbefore.
  cbn [Calc.load_combined]. rewrite Hx, Hpos.
  rewrite load_combined_keeps by exact Hafter. apply dict_get_set.
Qed.

Lemma combined_last_positive_entry_wins_witness :
  dict_get (Calc.normalize_provider_name "Google Cloud")
           (Calc.load_combined (A:=B64.float)
              ([("GCP", "$0.40/hr")]
               ++ ("Google Cloud", "$0.35/hr")
                  :: [("AWS", "$0.53/hr"); ("Google", "$0.00/hr");
                      ("GCP", "free"); ("Vast.ai", "1.2.3")]) [])
  = Some (B64.lit 35 100).
Proof.
  apply (combined_last_positive_entry_wins (A:=B64.float)
           [("GCP", "$0.40/hr")]
           [("AWS", "$0.53/hr"); ("Google", "$0.00/hr"); ("GCP", "free");
            ("Vast.ai", "1.2.3")]
           "Google Cloud" "$0.35/hr" (B64.lit 35 100)).
  - repeat constructor. eexists. vm_compute. reflexivity.
  - vm_compute. reflexivity.
  - vm_compute. reflexivity.
  - repeat (apply Forall_cons; [vm_compute; reflexivity|]). apply Forall_nil.
Defined.

(** X10.  The hyperscaler component of a report can be recomputed from the
    report's details: they list the hyperscalers with an observed price in
    the order AWS, Azure, GCP, and the component before rounding is the sum
    of their contributions, added in that order from 0, multiplied by 1.0
    over the sum of their weights when that sum is above 0 and below 1.0. *)
Theorem hyperscaler_component_from_details {A : Type} `{Number A}
        (now : string) (w : Calc.workdir) (r : Calc.report A) :
  Calc.calculate_index now w = Ok (Some r) ->
  exists hs nc : A,
    Calc.components (Calc.load_prices w) = Ok (hs, nc)
    /\ Calc.hyperscaler r = nround hs 4
    /\ hs = renormalized
              (running_sum (map (fun item => Calc.contribution (snd item))
                                (Calc.details_hyperscalers r)))
              (running_sum (map (fun item => Calc.weight (snd item))
                                (Calc.details_hyperscalers r)))
    /\ map fst (Calc.details_hyperscalers r)
       = filter (is_observed (Calc.load_prices w)) Calc.hyperscalers.
Proof.
  intros Hrun.
  destruct (calculate_index_report now w r Hrun)
    as [hs [nc [Hsums [_ [Hhs _]]]]].
  destruct (calculate_index_details now w r Hrun) as [-> _].
  destruct (hs_loop_sums (Calc.load_prices w)) as [<- [<- Hkeys]].
  exists hs, nc. split; [exact Hsums|]. split; [exact Hhs|].
  split; [apply (components_hs _ hs nc Hsums) | exact Hkeys].
Qed.

Lemma hyperscaler_component_from_details_witness :
  exists hs nc : B64.float,
    Calc.components (Calc.load_prices golden) = Ok (hs, nc)
    /\ Calc.hyperscaler golden_report64 = nround hs 4
    /\ hs = renormalized
              (running_sum (map (fun item => Calc.contribution (snd item))
                                (Calc.details_hyperscalers golden_report64)))
              (running_sum (map (fun item => Calc.weight (snd item))
                                (Calc.details_hyperscalers golden_report64)))
    /\ map fst (Calc.details_hyperscalers golden_report64)
       = filter (is_observed (Calc.load_prices golden)) Calc.hyperscalers.
Proof.
  apply (hyperscaler_component_from_details "2026-01-01 00:00:00" golden
           golden_report64).
  vm_compute. reflexivity.
Defined.

(** X12.  The neocloud component of a report can be recomputed from the
    report's details: they hold the eligible neoclouds in the order of the
    loaded prices, each with its price and raw weight; the weight used is
    the sum of the raw weights, added in that order from 0; and the
    component before rounding is the sum, in the same order, of
    [price * (raw_weight / nc_weight_used) * 0.35], or 0 when the weight
    used is not above 0. *)
Theorem neocloud_component_from_details {A : Type} `{Number A}
        (now : string) (w : Calc.workdir) (r : Calc.report A) :
  Calc.calculate_index now w = Ok (Some r) ->
  exists hs nc : A,
    Calc.components (Calc.load_prices w) = Ok (hs, nc)
    /\ Calc.neocloud r = nround nc 4
    /\ Calc.details_neoclouds r
       = map nc_recorded (Calc.nc_providers (Calc.load_prices w))
    /\ nc = if nltb (Calc.int 0)
                    (running_sum (map (fun item => Calc.raw_weight (snd item))
                                      (Calc.details_neoclouds r)))
            then running_sum
                   (map (nc_share
                           (running_sum
                              (map (fun item => Calc.raw_weight (snd item))
                                   (Calc.details_neoclouds r))))
                        (Calc.details_neoclouds r))
            else Calc.int 0.
Proof.
  intros Hrun.
  destruct (calculate_index_report now w r Hrun)
    as [hs [nc [Hsums [_ [_ Hnc]]]]].
  destruct (calculate_index_details now w r Hrun) as [_ ->].
  destruct (nc_collect_recorded (Calc.load_prices w) (load_prices_NoDup w))
    as [Hdata Hused].
  exists hs, nc. split; [exact Hsums|]. split; [exact Hnc|].
  split; [exact Hdata|]. rewrite <- Hused. apply (components_nc _ hs nc Hsums).
Qed.

Lemma neocloud_component_from_details_witness :
  exists hs nc : B64.float,
    Calc.components (Calc.load_prices golden) = Ok (hs, nc)
    /\ Calc.neocloud golden_report64 = nround nc 4
    /\ Calc.details_neoclouds golden_report64
       = map nc_recorded (Calc.nc_providers (Calc.load_prices golden))
    /\ nc = if nltb (Calc.int 0)
                    (running_sum (map (fun item => Calc.raw_weight (snd item))
                                      (Calc.details_neoclouds golden_report64)))
            then running_sum
                   (map (nc_share
                           (running_sum
                              (map (fun item => Calc.raw_weight (snd item))
                                   (Calc.details_neoclouds golden_report64))))
                        (Calc.details_neoclouds golden_report64))
            else Calc.int 0.
Proof.
  apply (neocloud_component_from_details "2026-01-01 00:00:00" golden
           golden_report64).
  vm_compute. reflexivity.
Defined.

(** X14.  After a published price of 0 the gate lets only a price equal to
    0 through, in exact arithmetic and in binary64 alike: both bounds are
    then 0. *)
Theorem gate_after_zero :
  (forall new_price : Q,
      Push.price_accepted new_price (Some 0) = true <-> new_price == 0)
  /\ (forall new_price : B64.float,
         Push.price_accepted new_price (Some (B64.lit 0 1))
         = PrimFloat.eqb new_price (B64.lit 0 1)).
Proof.
  split.
  - intros new_price. unfold Push.price_accepted.
    rewrite andb_true_iff, !Q_leb_le. simpl. lra.
  - intros new_price. unfold Push.price_accepted.
    replace (nmul (B64.lit 0 1) (nlit 80 100)) with PrimFloat.zero
      by (vm_compute; reflexivity).
    replace (nmul (B64.lit 0 1) (nlit 120 100)) with PrimFloat.zero
      by (vm_compute; reflexivity).
    apply B64Lemmas.between_zero.
Qed.

(** The prices with four decimals from 0.01 to 1.00, one by one. *)
Lemma four_decimals_checked :
  forallb four_decimals_ok (from_to 100 10000) = true.
Proof. vm_compute. reflexivity. Qed.

Lemma four_decimals_in_range (k : Z) :
  (100 <= k <= 10000)%Z -> four_decimals_ok k = true.
Proof.
  intros Hk. pose proof four_decimals_checked as Hall.
  rewrite forallb_forall in Hall. apply Hall. unfold from_to.
  apply in_map_iff. exists (Z.to_nat (k - 100)). split; [lia|].
  apply in_seq. split; [lia|].
  change (100 <= k <= 10000)%Z in Hk. lia.
Qed.

(** X19.  In binary64 every price with four decimals from 0.0100 to 1.0000
    survives the oracle's encoding and decoding unchanged, although the
    integer in between need not be the price times 10^18. *)
Theorem four_decimal_prices_round_trip (k : Z) :
  (100 <= k <= 10000)%Z ->
  exists price_scaled : Z,
    Oracle.price_scaled (B64.lit k 10000) = Ok price_scaled
    /\ Oracle.price price_scaled = B64.lit k 10000.
Proof.
  intros Hk. pose proof (four_decimals_in_range k Hk) as Hok.
  unfold four_decimals_ok in Hok. cbv zeta in Hok.
  destruct (Oracle.price_scaled (B64.lit k 10000)) as [z|]; [|discriminate Hok].
  apply andb_true_iff in Hok as [Heq _].
  exists z. split; [reflexivity|].
  apply FloatAxioms.Leibniz.eqb_spec. exact Heq.
Qed.

Lemma four_decimal_prices_round_trip_witness :
  exists price_scaled : Z,
    Oracle.price_scaled (B64.lit 5500 10000) = Ok price_scaled
    /\ Oracle.price price_scaled = B64.lit 5500 10000.
Proof. apply (four_decimal_prices_round_trip 5500). lia. Defined.

(** X20.  In binary64 the integer sent for a price with four decimals from
    0.0100 to 1.0000 is within 64 units, that is 6.4e-17 dollars, of the
    price times 10^18; it can lie above it, as for 0.55. *)
Theorem encoding_error_within_64_units (k : Z) :
  (100 <= k <= 10000)%Z ->
  exists price_scaled : Z,
    Oracle.price_scaled (B64.lit k 10000) = Ok price_scaled
    /\ (Z.abs (price_scaled - k * 10 ^ 14) <= 64)%Z.
Proof.
  intros Hk. pose proof (four_decimals_in_range k Hk) as Hok.
  unfold four_decimals_ok in Hok. cbv zeta in Hok.
  destruct (Oracle.price_scaled (B64.lit k 10000)) as [z|]; [|discriminate Hok].
  apply andb_true_iff in Hok as [_ Hle].
  exists z. split; [reflexivity|]. apply Z.leb_le. exact Hle.
Qed.

Lemma encoding_error_within_64_units_witness :
  exists price_scaled : Z,
    Oracle.price_scaled (B64.lit 5500 10000) = Ok price_scaled
    /\ (Z.abs (price_scaled - 5500 * 10 ^ 14) <= 64)%Z.
Proof. apply (encoding_error_within_64_units 5500). lia. Defined.

(** X24.  A price reaches [updatePrice] only in a run that has a private
    key, found the asset registered, was not read-only and holds a price
    that is not at or below zero, taken from [--price] if given and from
    the CSV otherwise; what is sent is [int(price * 10**18)] of that
    price. *)
Theorem update_needs_key_asset_and_positive_price {A : Type} `{Number A}
        (float_of_str : string -> option A)
        (args : Updater.arguments A) (env : Updater.world)
        (log_file : option (list (Updater.log_entry A)))
        (r : Updater.update_result A) (sent : Z) :
  Updater.update (Updater.main float_of_str args env log_file) = Some r ->
  Updater.requested r = Some sent ->
  Updater.PRIVATE_KEY env = true
  /\ Updater.start env = Updater.Ready
  /\ Updater.read_only args = false
  /\ exists price_usd : A,
      nleb price_usd (Calc.int 0) = false
      /\ Oracle.price_scaled price_usd = Ok sent
      /\ (Updater.price args = Some price_usd
          \/ (Updater.price args = None
              /\ Updater.read_price_from_csv float_of_str (Updater.csv args)
                 = Some price_usd)).
Proof.
  intros Hr Hsent.
  destruct (main_sends_the_source_price float_of_str args env log_file r sent
              Hr Hsent) as [Hkey [Hstart [Hro [price_usd [Hsource [Hpos Hscaled]]]]]].
  split; [exact Hkey|]. split; [exact Hstart|]. split; [exact Hro|].
  exists price_usd. split; [exact Hpos|]. split; [exact Hscaled|].
  unfold price_source in Hsource.
  destruct (Updater.price args) as [p|];
    [left; exact Hsource | right; split; [reflexivity | exact Hsource]].
Qed.

Lemma update_needs_key_asset_and_positive_price_witness :
  Updater.PRIVATE_KEY ready_world = true
  /\ Updater.start ready_world = Updater.Ready
  /\ Updater.read_only (price_flag (B64.lit 55 100)) = false
  /\ exists price_usd : B64.float,
      nleb price_usd (Calc.int 0) = false
      /\ Oracle.price_scaled price_usd = Ok 550000000000000064%Z
      /\ (Updater.price (price_flag (B64.lit 55 100)) = Some price_usd
          \/ (Updater.price (price_flag (B64.lit 55 100)) = None
              /\ Updater.read_price_from_csv float_of_cell
                   (Updater.csv (price_flag (B64.lit 55 100))) = Some price_usd)).
Proof.
  apply (update_needs_key_asset_and_positive_price float_of_cell
           (price_flag (B64.lit 55 100)) ready_world None
           (Updater.update_price ready_world (B64.lit 55 100) None));
    vm_compute; reflexivity.
Defined.
